(** * GraticuleLayer: a shallow embedding of src/components/GraticuleLayer.ts
      and of the id counter of src/components/util.ts

    Conventions of the embedding.

    - Numbers come in two tiers.  The layer as a whole (the methods, the
      host registries, the sources, the ids) is modelled with a JavaScript
      number as an exact rational ([Q]): every arithmetic step of the source
      is kept in the order the source performs it, but without the rounding
      of IEEE-754 doubles.  The statements made on this tier are about what
      is registered, kept, passed on and thrown.  The one place where the
      source divides by a number that can be zero ([computeGrid] with
      [interval] 0) is modelled by what the doubles give there (see
      [computeGrid]).
    - What depends on rounding (the lines of [computeGrid], the digits of
      [createlabelFormatter], the rectangle of [drawLabel]) is modelled a
      second time in the module [Double], on binary64 numbers, together with
      what the host library and the canvas refuse; the statements about
      these three are made there.
    - A JavaScript string is a sequence of UTF-16 code units; every code unit
      the program produces lies below 256, so [string] (a list of [ascii])
      holds them one to one and [String.length] is the [.length] of the
      source.
    - A [throw] is an [Outcome]; a loop that may run forever takes fuel.
    - The host map (mapbox-gl) is a record of registries threaded through the
      methods; its projection, the trigonometric functions and the canvas
      text measurement are parameters of the development. *)

From Stdlib Require Import NArith ZArith QArith Qround Qabs Qminmax List String Ascii Bool Lia Lqa.
From Stdlib Require Import Sorted DecimalString DecimalN DecimalFacts.
From Stdlib Require Floats Uint63.
Import ListNotations.

Open Scope Q_scope.

(** ** JavaScript numbers *)

Module Num.

Definition Math_floor (x : Q) : Q := inject_Z (Qfloor x).
Definition Math_ceil (x : Q) : Q := inject_Z (Qceiling x).

(** [Math.round] rounds half-way cases towards plus infinity. *)
Definition Math_round (x : Q) : Q := inject_Z (Qfloor (x + (1 # 2))).

Definition Math_abs (x : Q) : Q := Qabs x.

(** The quotient of [%] is truncated towards zero: the remainder has the
    sign of the dividend. *)
Definition trunc (x : Q) : Z :=
  if Qle_bool 0 x then Qfloor x else Qceiling x.

Definition rem (a b : Q) : Q := a - b * inject_Z (trunc (a / b)).

Definition is_zero (x : Q) : bool := Qeq_bool x 0.

(** [x || d] on numbers: [0] is the only falsy rational. *)
Definition or_default (x d : Q) : Q := if is_zero x then d else x.

End Num.

(** ** Outcomes of a call *)

Inductive Thrown : Type :=
| MapEmpty          (* throw 'Map 不能为空' *)
| UnsupportedUnit   (* throw '不支持分隔单位' *)
| TypeError         (* a property read on null, an argument of the wrong type *)
| InvalidLngLat     (* the host's LngLat refuses a coordinate *)
| IndexSizeError.   (* the canvas refuses to read an empty rectangle *)

Inductive Outcome (A : Type) : Type :=
| Normal (a : A)
| Throw (e : Thrown)
| OutOfFuel.

Arguments Normal {A} a.
Arguments Throw {A} e.
Arguments OutOfFuel {A}.

(** ** Data model *)

(** A position is the array [[lng, lat]]. *)
Definition Position : Type := (Q * Q)%type.

(** A grid line is the two-element array [[start, end]]. *)
Definition GridLine : Type := (Position * Position)%type.

Definition item0 (l : GridLine) : Position := fst l.
Definition item1 (l : GridLine) : Position := snd l.

Record Grid : Type := mkGrid {
  lngLines : list GridLine;
  latLines : list GridLine
}.

(** [LngLatBounds] of the host library, read through its four getters. *)
Record LngLatBounds : Type := mkBounds {
  getWest : Q;
  getSouth : Q;
  getEast : Q;
  getNorth : Q
}.

Record LabelStyle : Type := mkLabelStyle {
  color : option string;
  fontFamily : option string;
  fontSize : option Q;
  fontWeight : option string;
  rotate : option Q;
  rotationAlignment : option string;
  allowOverlap : option bool
}.

Record StrokeStyle : Type := mkStrokeStyle {
  lineColor : option string;
  lineCap : option string;
  lineJoin : option string;
  lineDasharray : option (list Q);
  lineWidth : option Q;
  lineOpacity : option Q
}.

Record LayerIDs : Type := mkLayerIDs {
  grid : string;
  tick : string;
  border : string;
  label : string
}.

(** The fields of a [GraticuleLayer] instance.  [_map] is a reference to the
    host map or null; the map itself lives in the [World] below. *)
Record GraticuleLayer : Type := mkLayer {
  showLabel : bool;
  showTick : bool;
  showBorder : bool;
  tickLength : Q;
  showGrid : bool;
  intervalUnit : string;
  interval : Q;
  bounds : option LngLatBounds;
  minZoom : Q;
  maxZoom : Q;
  labelFormatter : string;
  labelStyle : LabelStyle;
  tickStyle : StrokeStyle;
  gridStyle : StrokeStyle;
  borderStyle : StrokeStyle;
  _map : bool;
  _layerIDs : option LayerIDs
}.

(** ** computeGrid *)

(** [for (let n = from; n <= upto; n += step) out.push(body(n))]. *)
Fixpoint for_loop {A : Type} (fuel : nat) (n upto step : Q) (body : Q -> A)
  : option (list A) :=
  if Qle_bool n upto then
    match fuel with
    | O => None
    | S fuel' =>
        match for_loop fuel' (n + step) upto step body with
        | Some rest => Some (body n :: rest)
        | None => None
        end
    end
  else Some [].

Definition lngLine (south north x : Q) : GridLine := ((x, south), (x, north)).
Definition latLine (west east y : Q) : GridLine := ((west, y), (east, y)).

(** The branch [intervalUnit == 'd'] of [computeGrid]. *)
Definition grid_degree (fuel : nat) (b : LngLatBounds) (interval : Q)
  : Outcome Grid :=
  let west := getWest b in
  let east := getEast b in
  let north := getNorth b in
  let south := getSouth b in
  let minX := Num.Math_ceil (west / interval) * interval in
  let maxX := Num.Math_floor (east / interval) * interval in
  let minY := Num.Math_ceil (south / interval) * interval in
  let maxY := Num.Math_floor (north / interval) * interval in
  match for_loop fuel minX maxX interval (fun n => lngLine south north n) with
  | None => OutOfFuel
  | Some lngs =>
      match for_loop fuel minY maxY interval (fun n => latLine west east n) with
      | None => OutOfFuel
      | Some lats => Normal (mkGrid lngs lats)
      end
  end.

(** The branch [intervalUnit == 'm'] of [computeGrid]. *)
Definition grid_minute (fuel : nat) (b : LngLatBounds) (interval : Q)
  : Outcome Grid :=
  let west := getWest b in
  let east := getEast b in
  let north := getNorth b in
  let south := getSouth b in
  let minX := Num.Math_ceil ((west * 60) / interval) * interval in
  let maxX := Num.Math_floor ((east * 60) / interval) * interval in
  let minY := Num.Math_ceil ((south * 60) / interval) * interval in
  let maxY := Num.Math_floor ((north * 60) / interval) * interval in
  match for_loop fuel minX maxX interval (fun n => lngLine south north (n / 60)) with
  | None => OutOfFuel
  | Some lngs =>
      match for_loop fuel minY maxY interval (fun n => latLine west east (n / 60)) with
      | None => OutOfFuel
      | Some lats => Normal (mkGrid lngs lats)
      end
  end.

(** [computeGrid].  With [interval] 0 every one of [minX], [maxX], [minY],
    [maxY] is a NaN in the source (a division by zero gives an infinity or a
    NaN, and its product with 0 is a NaN), no loop test [n <= max] holds and
    both lists stay empty; the model returns that result directly, since [Q]
    has no NaN. *)
Definition computeGrid (fuel : nat) (this : GraticuleLayer) : Outcome Grid :=
  match bounds this with
  | None => Throw TypeError
  | Some b =>
      if String.eqb (intervalUnit this) "d" then
        if Num.is_zero (interval this) then Normal (mkGrid [] [])
        else grid_degree fuel b (interval this)
      else if String.eqb (intervalUnit this) "m" then
        if Num.is_zero (interval this) then Normal (mkGrid [] [])
        else grid_minute fuel b (interval this)
      else Throw UnsupportedUnit
  end.

(** ** GeoJSON values *)

Inductive Geometry : Type :=
| LineString (coordinates : list Position)
| Point (coordinates : Position).

(** The [properties] object of a label feature. *)
Record LabelProperties : Type := mkLabelProperties {
  prop_label : string;
  prop_rotate : Q;
  prop_anchor : string;
  prop_icon : string
}.

Inductive Properties : Type :=
| NoProperties                          (* properties: {} *)
| LabelProps (p : LabelProperties).

Record Feature : Type := mkFeature {
  properties : Properties;
  geometry : Geometry
}.

(** [{ type: 'FeatureCollection', features }]. *)
Record FeatureCollection : Type := mkCollection {
  features : list Feature
}.

Definition EMPTY_GEOSJON : FeatureCollection := mkCollection [].

Definition lineFeature (coords : list Position) : Feature :=
  mkFeature NoProperties (LineString coords).

Definition lineCoordinates (item : GridLine) : list Position :=
  [item0 item; item1 item].

(** ** The canvas of [drawLabel] *)

(** [fontWeight + ' ' + fontSize + 'px ' + fontFamily], kept as its three
    parts. *)
Record Font : Type := mkFont {
  font_weight : string;
  font_size : Q;
  font_family : string
}.

Record Canvas : Type := mkCanvas {
  canvas_width : Q;                       (* canvas.width *)
  canvas_height : Q;                      (* canvas.height *)
  style_width_px : Q;                     (* canvas.style.width = size + 'px' *)
  style_height_px : Q;                    (* canvas.style.height = size + 'px' *)
  ctx_font : Font;
  ctx_textBaseline : string;
  ctx_fillStyle : string;
  ctx_fillText : list (string * Q * Q)    (* the fillText calls, in order *)
}.

(** What [ctx.getImageData(sx, sy, sw, sh)] returns: the rectangle of the
    canvas it was read from. *)
Record ImageData : Type := mkImageData {
  image_of : Canvas;
  image_sx : Q;
  image_sy : Q;
  image_sw : Q;
  image_sh : Q
}.

(** ** The host *)

Inductive StyleValue : Type :=
| SUndefined
| SNum (q : Q)
| SStr (s : string)
| SBool (b : bool)
| SArr (l : list Q)
| SGet (property : string).             (* the expression ['get', property] *)

Record LayerDescriptor : Type := mkLayerDescriptor {
  layer_id : string;
  layer_type : string;
  layer_source : string;
  layer_minzoom : Q;
  layer_maxzoom : Q;
  layer_paint : list (string * StyleValue);
  layer_layout : list (string * StyleValue)
}.

(** The registries of the host map, each in order of insertion.  [addSource],
    [addLayer] and [addImage] append whatever they are given: that an id is
    registered once is a property of the caller, not of this model. *)
Record Map : Type := mkMap {
  map_sources : list (string * FeatureCollection);
  map_layers : list LayerDescriptor;
  map_images : list (string * ImageData)
}.

(** The process: the counter [id] of util.ts and the host map. *)
Record World : Type := mkWorld {
  id : N;
  the_map : Map
}.

(** What the program reads from its surroundings and does not change. *)
Record Env : Type := mkEnv {
  project : Position -> Q * Q;            (* map.project: screen point (x, y) *)
  unproject : Q * Q -> Position;          (* map.unproject: (lng, lat) *)
  getBearing : Q;                         (* map.getBearing(), degrees *)
  Math_PI : Q;
  Math_sin : Q -> Q;
  Math_cos : Q -> Q;
  devicePixelRatio : Q;                   (* window.devicePixelRatio *)
  measureText : Font -> string -> Q       (* ctx.measureText(text).width *)
}.

Module Host.

Definition getSource (i : string) (m : Map) : option FeatureCollection :=
  match find (fun e => String.eqb (fst e) i) (map_sources m) with
  | Some e => Some (snd e)
  | None => None
  end.

Definition addSource (i : string) (data : FeatureCollection) (m : Map) : Map :=
  mkMap (map_sources m ++ [(i, data)]) (map_layers m) (map_images m).

(** [getSource(i).setData(data)]: the source that [getSource] finds. *)
Fixpoint set_first (i : string) (data : FeatureCollection)
    (l : list (string * FeatureCollection)) : list (string * FeatureCollection) :=
  match l with
  | [] => []
  | e :: rest =>
      if String.eqb (fst e) i then (fst e, data) :: rest
      else e :: set_first i data rest
  end.

Definition setData (i : string) (data : FeatureCollection) (m : Map) : Map :=
  mkMap (set_first i data (map_sources m)) (map_layers m) (map_images m).

(** [removeSource] takes the entry out of the registry.  The host library
    refuses, with an error event, to remove a source that a layer of the
    style still uses; this registry does not.  [removeFromMap] removes the
    layer first; the branch of [addLayers] that hides a sub-layer removes
    the source first. *)
Definition removeSource (i : string) (m : Map) : Map :=
  mkMap (filter (fun e => negb (String.eqb (fst e) i)) (map_sources m))
        (map_layers m) (map_images m).

Definition getLayer (i : string) (m : Map) : option LayerDescriptor :=
  find (fun l => String.eqb (layer_id l) i) (map_layers m).

Definition addLayer (l : LayerDescriptor) (m : Map) : Map :=
  mkMap (map_sources m) (map_layers m ++ [l]) (map_images m).

Definition removeLayer (i : string) (m : Map) : Map :=
  mkMap (map_sources m)
        (filter (fun l => negb (String.eqb (layer_id l) i)) (map_layers m))
        (map_images m).

Definition hasImage (i : string) (m : Map) : bool :=
  existsb (fun e => String.eqb (fst e) i) (map_images m).

Definition addImage (i : string) (img : ImageData) (m : Map) : Map :=
  mkMap (map_sources m) (map_layers m) (map_images m ++ [(i, img)]).

Fixpoint set_first_image (i : string) (img : ImageData)
    (l : list (string * ImageData)) : list (string * ImageData) :=
  match l with
  | [] => []
  | e :: rest =>
      if String.eqb (fst e) i then (fst e, img) :: rest
      else e :: set_first_image i img rest
  end.

Definition updateImage (i : string) (img : ImageData) (m : Map) : Map :=
  mkMap (map_sources m) (map_layers m) (set_first_image i img (map_images m)).

(** How many sources, and how many layers, are registered under an id. *)
Definition count_sources (i : string) (m : Map) : nat :=
  List.length (filter (fun e => String.eqb (fst e) i) (map_sources m)).

Definition count_layers (i : string) (m : Map) : nat :=
  List.length (filter (fun l => String.eqb (layer_id l) i) (map_layers m)).

End Host.

(** ** util.ts: uniqueId *)

(** [let id = 1] *)
Definition initial_id : N := 1%N.

(** [return id++] *)
Definition uniqueId (w : World) : N * World :=
  (id w, mkWorld (N.succ (id w)) (the_map w)).

(** The decimal digits of a counter value, as string concatenation and
    template literals print it. *)
Definition string_of_N (n : N) : string :=
  NilEmpty.string_of_uint (N.to_uint n).

(** The digits of an integer-valued number, as a template literal prints it
    (plain digits: the source prints whole numbers far below 10^21). *)
Definition string_of_Z (z : Z) : string :=
  match z with
  | Zneg p => String "-" (string_of_N (Npos p))
  | _ => string_of_N (Z.to_N z)
  end.

Definition string_of_number (x : Q) : string := string_of_Z (Qfloor x).

(** ** Methods of GraticuleLayer *)

(** [makeIconId] *)
Definition makeIconId (w : World) : string * World :=
  let (n, w1) := uniqueId w in
  (("graticule-icon-" ++ string_of_N n)%string, w1).

Definition set_layerIDs (this : GraticuleLayer) (ids : option LayerIDs)
  : GraticuleLayer :=
  mkLayer (showLabel this) (showTick this) (showBorder this) (tickLength this)
          (showGrid this) (intervalUnit this) (interval this) (bounds this)
          (minZoom this) (maxZoom this) (labelFormatter this) (labelStyle this)
          (tickStyle this) (gridStyle this) (borderStyle this) (_map this) ids.

Definition set_map (this : GraticuleLayer) (m : bool) : GraticuleLayer :=
  mkLayer (showLabel this) (showTick this) (showBorder this) (tickLength this)
          (showGrid this) (intervalUnit this) (interval this) (bounds this)
          (minZoom this) (maxZoom this) (labelFormatter this) (labelStyle this)
          (tickStyle this) (gridStyle this) (borderStyle this) m (_layerIDs this).



(** [initLayersId] *)
Definition initLayersId (this : GraticuleLayer) (w : World)
  : GraticuleLayer * World :=
  match _layerIDs this with
  | Some _ => (this, w)
  | None =>
      let (n1, w1) := uniqueId w in
      let (n2, w2) := uniqueId w1 in
      let (n3, w3) := uniqueId w2 in
      let (n4, w4) := uniqueId w3 in
      (set_layerIDs this
         (Some (mkLayerIDs ("grid_" ++ string_of_N n1)
                           ("tick_" ++ string_of_N n2)
                           ("border_" ++ string_of_N n3)
                           ("label_" ++ string_of_N n4)))%string,
       w4)
  end.

Inductive Style : Type :=
| Stroke (s : StrokeStyle)
| Label (s : LabelStyle).

Definition value_of {A : Type} (f : A -> StyleValue) (o : option A) : StyleValue :=
  match o with
  | Some a => f a
  | None => SUndefined
  end.

Definition stroke_of (style : Style) : StrokeStyle :=
  match style with
  | Stroke s => s
  | Label _ => mkStrokeStyle None None None None None None
  end.

Definition label_of (style : Style) : LabelStyle :=
  match style with
  | Label s => s
  | Stroke _ => mkLabelStyle None None None None None None None
  end.

(** [createLayer] *)
Definition createLayer (this : GraticuleLayer) (i type : string) (style : Style)
  : LayerDescriptor :=
  let '(paint, layout) :=
    if String.eqb type "line" then
      let s := stroke_of style in
      let paint :=
        [("line-color", value_of SStr (lineColor s));
         ("line-opacity", value_of SNum (lineOpacity s));
         ("line-width", value_of SNum (lineWidth s))]%string in
      let paint :=
        match lineDasharray s with
        | Some (d :: ds) => paint ++ [("line-dasharray"%string, SArr (d :: ds))]
        | _ => paint
        end in
      (paint,
       [("line-cap", value_of SStr (lineCap s));
        ("line-join", value_of SStr (lineJoin s))]%string)
    else if String.eqb type "symbol" then
      let s := label_of style in
      ([],
       [("icon-image", SGet "icon");
        ("icon-size", SNum 1);
        ("icon-anchor", SGet "anchor");
        ("icon-rotate", SGet "rotate");
        ("icon-allow-overlap", value_of SBool (allowOverlap s));
        ("icon-rotation-alignment", value_of SStr (rotationAlignment s))]%string)
    else ([], []) in
  mkLayerDescriptor i type i (minZoom this) (maxZoom this) paint layout.

(** [createGridLinesSource] *)
Definition createGridLinesSource (lngLines latLines : list GridLine)
  : FeatureCollection :=
  match lngLines, latLines with
  | [], _ => EMPTY_GEOSJON
  | _, [] => EMPTY_GEOSJON
  | _, _ =>
      let lines1 := List.map (fun item => lineFeature (lineCoordinates item)) lngLines in
      let lines2 := List.map (fun item => lineFeature (lineCoordinates item)) latLines in
      mkCollection (lines1 ++ lines2)
  end.

(** [createBorderLinesSource] *)
Definition createBorderLinesSource (bounds : option LngLatBounds)
  : FeatureCollection :=
  match bounds with
  | None => EMPTY_GEOSJON
  | Some lngLatBounds =>
      let west := getWest lngLatBounds in
      let east := getEast lngLatBounds in
      let north := getNorth lngLatBounds in
      let south := getSouth lngLatBounds in
      mkCollection
        [lineFeature
           [(west, south); (east, south); (east, north); (west, north); (west, south)]]
  end.

(** [createlabelFormatter], with its inner functions [formatTag] and
    [formatDegree]. *)
Definition Qlt_bool (x y : Q) : bool := negb (Qle_bool y x).

Definition formatTag (value : Q) (isLng : bool) : string :=
  if isLng then
    if Qlt_bool 0 value then "E"
    else if Qlt_bool value 0 then "W"
    else ""
  else
    if Qlt_bool 0 value then "N"
    else if Qlt_bool value 0 then "S"
    else "".

(** The code units U+00B0 (degree sign), U+0027 and U+0022. *)
Definition degree_sign : string := String "176"%char EmptyString.
Definition apostrophe : string := String "039"%char EmptyString.
Definition double_quote : string := String "034"%char EmptyString.

Definition formatDegree (isLng : bool) (labelFormat : string) (value : Q) : string :=
  let tag := formatTag value isLng in
  let value := Num.Math_abs value in
  let v1 := Num.Math_floor value in
  let v2 := Num.Math_floor ((value - v1) * 60) in
  let v3 := Num.Math_round (Num.rem ((value - v1) * 3600) 60) in
  (if String.eqb labelFormat "degree" then
     string_of_number v1 ++ degree_sign ++ tag
   else if String.eqb labelFormat "minute" then
     string_of_number v1 ++ degree_sign ++ string_of_number v2 ++ apostrophe ++ tag
   else
     string_of_number v1 ++ degree_sign ++ string_of_number v2 ++ apostrophe
       ++ string_of_number v3 ++ double_quote ++ tag)%string.

Definition createlabelFormatter (num : Q) (isLng : bool) (labelFormat : string)
  : string :=
  let label := formatDegree isLng labelFormat num in
  label.

(** gl-matrix, [vec2.rotate(out, a, b, rad)]: [a] rotated about [b]. *)
Definition vec2_rotate (env : Env) (a b : Q * Q) (rad : Q) : Q * Q :=
  let p0 := fst a - fst b in
  let p1 := snd a - snd b in
  let sinC := Math_sin env rad in
  let cosC := Math_cos env rad in
  (p0 * cosC - p1 * sinC + fst b, p0 * sinC + p1 * cosC + snd b).

Section WithEnv.

Variable env : Env.

(** [drawLabel]; an absent argument takes the default of the signature.
    The canvas is taken to give the rectangle it is asked for; the cases in
    which it throws are those of [Double.drawLabel], and [draws] below is the
    condition under which it does not. *)
Definition drawLabel (text : string)
    (fontFamily : option string) (fontSize : option Q)
    (color : option string) (fontWeight : option string) : ImageData :=
  let fontFamily := match fontFamily with Some f => f | None => "sans-serif"%string end in
  let fontSize := match fontSize with Some s => s | None => 16 end in
  let color := match color with Some c => c | None => "#000000"%string end in
  let fontWeight := match fontWeight with Some f => f | None => "normal"%string end in
  let len := inject_Z (Z.of_nat (String.length text)) in
  let pixelRatio := Num.or_default (devicePixelRatio env) 1 in
  let size := if Num.is_zero len then 256 else len * fontSize in
  let font := mkFont fontWeight fontSize fontFamily in
  let width := measureText env font text in
  let canvas :=
    mkCanvas (size * pixelRatio) (size * pixelRatio) size size
             font "middle" color [(text, 0, fontSize / 2)] in
  let width := Num.Math_round width in
  mkImageData canvas 0 0 width fontSize.

(** The pixel offsets both tick and label sources start from. *)
Definition bearing_rad : Q := getBearing env * Math_PI env / 180.
Definition lngOffset (tickLen : Q) : Q * Q :=
  vec2_rotate env (0, tickLen) (0, 0) bearing_rad.
Definition latOffset (tickLen : Q) : Q * Q :=
  vec2_rotate env (tickLen, 0) (0, 0) bearing_rad.

(** [createTickLine], the inner function of [createTickLinesSource]; its two
    branches on [xAxis] are the same two assignments. *)
Definition createTickLine (lnglat : Position) (offset : Q * Q) (xAxis : bool)
  : Feature :=
  let point := project env lnglat in
  let point :=
    if xAxis then (fst point + fst offset, snd point + snd offset)
    else (fst point + fst offset, snd point + snd offset) in
  let lnglat2 := unproject env point in
  lineFeature [lnglat; (fst lnglat2, snd lnglat2)].

(** [createTickLinesSource]; [map] tells whether the map argument is set. *)
Definition createTickLinesSource (lngLines latLines : list GridLine)
    (map : bool) (tickLen : Q) : FeatureCollection :=
  match lngLines, latLines, map with
  | [], _, _ => EMPTY_GEOSJON
  | _, [], _ => EMPTY_GEOSJON
  | _, _, false => EMPTY_GEOSJON
  | _, _, true =>
      let tickLen := Num.or_default tickLen 5 in
      let lngOffset := lngOffset tickLen in
      let latOffset := latOffset tickLen in
      let lngTicks :=
        flat_map (fun item =>
          [createTickLine (item0 item) (- fst lngOffset, snd lngOffset) false;
           createTickLine (item1 item) (fst lngOffset, - snd lngOffset) false])
          lngLines in
      let latTicks :=
        flat_map (fun item =>
          [createTickLine (item0 item) (- fst latOffset, snd latOffset) true;
           createTickLine (item1 item) (fst latOffset, - snd latOffset) true])
          latLines in
      mkCollection (lngTicks ++ latTicks)
  end.

(** [createPoint], the inner function of [createLabelPointsSource]: it
    draws the label, takes a fresh icon id and registers the image. *)
Definition createPoint (this : GraticuleLayer)
    (lnglat : Position) (offset : Q * Q) (xAxis : bool) (textAnchor : string)
    (w : World) : Feature * World :=
  let labelFormat := labelFormatter this in
  let style := labelStyle this in
  let point := project env lnglat in
  let '(point, isLng, rotate, num) :=
    if xAxis then
      ((fst point + fst offset, snd point + snd offset), false, - (90), snd lnglat)
    else
      ((fst point + fst offset, snd point + snd offset), true, 0, fst lnglat) in
  let lnglat2 := unproject env point in
  let label := createlabelFormatter num isLng labelFormat in
  let imageData :=
    drawLabel label (Some (match fontFamily style with Some f => f | None => "sans-serif"%string end))
              (Some (match fontSize style with Some f => f | None => 16 end))
              (Some (match color style with Some c => c | None => "#000000"%string end))
              (Some (match fontWeight style with Some f => f | None => "normal"%string end)) in
  let (iconId, w1) := makeIconId w in
  let m :=
    if Host.hasImage iconId (the_map w1) then Host.updateImage iconId imageData (the_map w1)
    else Host.addImage iconId imageData (the_map w1) in
  (mkFeature (LabelProps (mkLabelProperties label rotate textAnchor iconId))
             (Point (fst lnglat2, snd lnglat2)),
   mkWorld (id w1) m).

(** One turn of a [forEach] of [createLabelPointsSource]: two points are
    pushed, the one of [item[0]] first. *)
Definition push_points (this : GraticuleLayer) (offset : Q * Q) (xAxis : bool)
    (anchor0 anchor1 : string) (acc : list Feature * World) (item : GridLine)
  : list Feature * World :=
  let (features, w) := acc in
  let (f0, w0) :=
    createPoint this (item0 item) (- fst offset, snd offset) xAxis anchor0 w in
  let (f1, w1) :=
    createPoint this (item1 item) (fst offset, - snd offset) xAxis anchor1 w0 in
  (features ++ [f0; f1], w1).

(** [createLabelPointsSource] *)
Definition createLabelPointsSource (this : GraticuleLayer)
    (lngLines latLines : list GridLine) (map : bool) (tickLen : Q) (w : World)
  : FeatureCollection * World :=
  match lngLines, latLines, map with
  | [], _, _ => (EMPTY_GEOSJON, w)
  | _, [], _ => (EMPTY_GEOSJON, w)
  | _, _, false => (EMPTY_GEOSJON, w)
  | _, _, true =>
      let tickLen := Num.or_default tickLen 5 in
      let lngOffset := lngOffset tickLen in
      let latOffset := latOffset tickLen in
      let acc := fold_left (push_points this lngOffset false "top" "bottom")
                           lngLines ([], w) in
      let (features, w') := fold_left (push_points this latOffset true "bottom" "top")
                                      latLines acc in
      (mkCollection features, w')
  end.

(** The two arms every block of [addLayers] has: with the flag set, the
    source is replaced or added and the layer added when absent; with the
    flag clear, source and layer are removed when present. *)
Definition show_layer (i : string) (data : FeatureCollection)
    (layer : LayerDescriptor) (m : Map) : Map :=
  let m1 :=
    match Host.getSource i m with
    | Some _ => Host.setData i data m
    | None => Host.addSource i data m
    end in
  match Host.getLayer i m1 with
  | None => Host.addLayer layer m1
  | Some _ => m1
  end.

Definition hide_layer (i : string) (m : Map) : Map :=
  let m1 :=
    match Host.getSource i m with
    | Some _ => Host.removeSource i m
    | None => m
    end in
  match Host.getLayer i m1 with
  | Some _ => Host.removeLayer i m1
  | None => m1
  end.

(** The state a method leaves behind, and how it ended. *)
Record Run : Type := mkRun {
  outcome : Outcome unit;
  self : GraticuleLayer;
  world : World
}.

Definition with_map (w : World) (m : Map) : World := mkWorld (id w) m.

(** The four blocks of [addLayers], once the grid is computed and the ids
    are there. *)
Definition sync_layers (this : GraticuleLayer) (ids : LayerIDs)
    (lngLines latLines : list GridLine) (w : World) : World :=
  let gridLineId := grid ids in
  let tickLineId := tick ids in
  let borderLineId := border ids in
  let labelId := label ids in
  let w :=
    if showGrid this then
      let gridGeoJSON := createGridLinesSource lngLines latLines in
      with_map w (show_layer gridLineId gridGeoJSON
                    (createLayer this gridLineId "line" (Stroke (gridStyle this)))
                    (the_map w))
    else with_map w (hide_layer gridLineId (the_map w)) in
  let w :=
    if showTick this then
      let tickGeoJSON :=
        createTickLinesSource lngLines latLines (_map this) (tickLength this) in
      with_map w (show_layer tickLineId tickGeoJSON
                    (createLayer this tickLineId "line" (Stroke (tickStyle this)))
                    (the_map w))
    else with_map w (hide_layer tickLineId (the_map w)) in
  let w :=
    if showBorder this then
      let borderGeoJSON := createBorderLinesSource (bounds this) in
      with_map w (show_layer borderLineId borderGeoJSON
                    (createLayer this borderLineId "line" (Stroke (borderStyle this)))
                    (the_map w))
    else with_map w (hide_layer borderLineId (the_map w)) in
  if showLabel this then
    let (labelGeoJSON, w) :=
      createLabelPointsSource this lngLines latLines (_map this) (tickLength this) w in
    with_map w (show_layer labelId labelGeoJSON
                  (createLayer this labelId "symbol" (Label (labelStyle this)))
                  (the_map w))
  else with_map w (hide_layer labelId (the_map w)).

(** [addLayers].  Without a map the first [this._map.getSource] is a read
    on null, after the ids were made. *)
Definition addLayers (fuel : nat) (this : GraticuleLayer) (w : World) : Run :=
  match computeGrid fuel this with
  | Throw e => mkRun (Throw e) this w
  | OutOfFuel => mkRun OutOfFuel this w
  | Normal lines =>
      let (this, w) := initLayersId this w in
      match _layerIDs this with
      | None => mkRun (Throw TypeError) this w
      | Some ids =>
          if _map this then
            mkRun (Normal tt) this
                  (sync_layers this ids (lngLines lines) (latLines lines) w)
          else mkRun (Throw TypeError) this w
      end
  end.

(** [update] *)
Definition update (fuel : nat) (this : GraticuleLayer) (w : World) : Run :=
  addLayers fuel this w.

(** [addTo]; [map] tells whether the argument is a map. *)
Definition addTo (fuel : nat) (map : bool) (this : GraticuleLayer) (w : World)
  : Run :=
  if map then addLayers fuel (set_map this true) w
  else mkRun (Throw MapEmpty) this w.



(** One block of [removeFromMap]: the layer first, then the source. *)
Definition remove_id (i : string) (m : Map) : Map :=
  if String.eqb i "" then m
  else
    let m1 :=
      match Host.getLayer i m with
      | Some _ => Host.removeLayer i m
      | None => m
      end in
    match Host.getSource i m1 with
    | Some _ => Host.removeSource i m1
    | None => m1
    end.

(** [removeFromMap] *)
Definition removeFromMap (this : GraticuleLayer) (w : World) : Run :=
  if _map this then
    let m :=
      match _layerIDs this with
      | None => the_map w
      | Some ids =>
          remove_id (label ids)
            (remove_id (border ids)
               (remove_id (tick ids)
                  (remove_id (grid ids) (the_map w))))
      end in
    mkRun (Normal tt) (set_layerIDs (set_map this false) None) (with_map w m)
  else mkRun (Normal tt) this w.

End WithEnv.

(** ** The defaults of the source *)

Definition defaultLabelStyle : LabelStyle :=
  mkLabelStyle (Some "#000000"%string) (Some "sans-serif"%string) (Some 16) (Some "normal"%string)
               (Some 0) (Some "map"%string) (Some true).

Definition defaultStrokeStyle : StrokeStyle :=
  mkStrokeStyle (Some "#B4C3D1"%string) (Some "butt"%string) (Some "miter"%string) (Some [4; 4])
                (Some 1) (Some 1).

Definition defaultStrokeStyleTick : StrokeStyle :=
  mkStrokeStyle (Some "#000000"%string) (Some "butt"%string) (Some "miter"%string) None
                (Some 2) (Some 1).

(** The instance the constructor makes from [defaultOptions] and the given
    bounds, interval and unit; it is not yet on a map. *)
Definition new_layer (b : LngLatBounds) (i : Q) (unit : string) : GraticuleLayer :=
  mkLayer true true true 5 false unit i (Some b) 0 22 "second"%string
          defaultLabelStyle defaultStrokeStyleTick defaultStrokeStyle
          defaultStrokeStyleTick false None.

(** An example host.  The screen point of a position is the position itself,
    the pixel ratio is 1 and a text is as wide as half its font size per
    code unit; [sine] and [cosine] are what [Math.sin] and [Math.cos] return
    at the bearing. *)
Definition example_env (bearing sine cosine : Q) : Env :=
  mkEnv (fun p => p) (fun p => p) bearing
        (884279719003555 # 281474976710656)
        (fun _ => sine) (fun _ => cosine)
        1
        (fun font text =>
           inject_Z (Z.of_nat (String.length text)) * font_size font * (1 # 2)).

(** The map before anything is added, and the process at its start. *)
Definition empty_map : Map := mkMap [] [] [].
Definition initial_world : World := mkWorld initial_id empty_map.

(** ** Vocabulary of the statements *)

(** The values the loop variable of [for_loop] takes in [m] turns. *)
Fixpoint iterates (n step : Q) (m : nat) : list Q :=
  match m with
  | O => []
  | S m' => n :: iterates (n + step) step m'
  end.

(** How many multiples of the step lie between the snapped ends. *)
Definition line_count (lo hi step : Q) : nat :=
  Z.to_nat (Z.max 0 (Qfloor (hi / step) - Qceiling (lo / step) + 1)).

(** The factor between degrees and the unit of the interval. *)
Definition unit_scale (unit : string) : Q :=
  if String.eqb unit "m" then 60 else 1.

(** The label format in the words of the specification. *)
Inductive Precision : Type := degree | minute | second.


Definition hemisphere_tag (value : Q) (isLongitudeAxis : bool) : string :=
  match Qcompare value 0 with
  | Gt => if isLongitudeAxis then "E" else "N"
  | Lt => if isLongitudeAxis then "W" else "S"
  | Eq => ""
  end.

(** The remainder of the floored division, and rounding to the nearest
    integer with halves upwards. *)
Definition Qmod (x m : Q) : Q := x - m * inject_Z (Qfloor (x / m)).
Definition round_half_up (x : Q) : Z := Qfloor (x + (1 # 2)).

Definition dms_degrees (value : Q) : Z := Qfloor (Qabs value).

Definition dms_minutes (value : Q) : Z :=
  Qfloor ((Qabs value - inject_Z (dms_degrees value)) * 60).

Definition dms_seconds (value : Q) : Z :=
  round_half_up (Qmod ((Qabs value - inject_Z (dms_degrees value)) * 3600) 60).

Definition render (p : Precision) (deg min sec : Z) (tag : string) : string :=
  match p with
  | degree => string_of_Z deg ++ degree_sign ++ tag
  | minute => string_of_Z deg ++ degree_sign ++ string_of_Z min ++ apostrophe ++ tag
  | second => string_of_Z deg ++ degree_sign ++ string_of_Z min ++ apostrophe
              ++ string_of_Z sec ++ double_quote ++ tag
  end%string.

(** The side, in CSS pixels, that [drawLabel] gives its canvas. *)
Definition canvas_side (text : string) (fontSize : Q) : Q :=
  match text with
  | EmptyString => 256
  | _ => inject_Z (Z.of_nat (String.length text)) * fontSize
  end.

(** The segment from a position to the position [v] pixels away from it on
    the screen. *)
Definition tick_segment (env : Env) (p : Position) (v : Q * Q) : Feature :=
  lineFeature
    [p; unproject env (fst (project env p) + fst v, snd (project env p) + snd v)].

(** The same values with every fraction in lowest terms, for reading off
    computed results. *)
Definition reduce_vec (v : Q * Q) : Q * Q := (Qred (fst v), Qred (snd v)).

Definition reduce_feature (f : Feature) : Feature :=
  mkFeature (properties f)
    match geometry f with
    | LineString cs => LineString (List.map reduce_vec cs)
    | Point c => Point (reduce_vec c)
    end.

Definition negated (v : Q * Q) : Q * Q := (- fst v, - snd v).

Definition vec_eq (u v : Q * Q) : Prop := fst u == fst v /\ snd u == snd v.

(** The two methods that draw on [uniqueId], as calls of a running process,
    and the id strings a call hands out. *)
Inductive Call : Type :=
| CallMakeIconId
| CallInitLayersId (this : GraticuleLayer).

Definition issue (c : Call) (w : World) : list string * World :=
  match c with
  | CallMakeIconId =>
      let (i, w') := makeIconId w in ([i], w')
  | CallInitLayersId this =>
      match _layerIDs this with
      | Some _ => ([], snd (initLayersId this w))
      | None =>
          let (this', w') := initLayersId this w in
          match _layerIDs this' with
          | Some ids => ([grid ids; tick ids; border ids; label ids], w')
          | None => ([], w')
          end
      end
  end.

Fixpoint run_calls (cs : list Call) (w : World) : list string * World :=
  match cs with
  | [] => ([], w)
  | c :: cs' =>
      let (issued, w1) := issue c w in
      let (rest, w2) := run_calls cs' w1 in
      (issued ++ rest, w2)
  end.

(** [k] calls of [uniqueId] in a row. *)
Fixpoint uniqueIds (k : nat) (w : World) : list N * World :=
  match k with
  | O => ([], w)
  | S k' =>
      let (n, w1) := uniqueId w in
      let (ns, w2) := uniqueIds k' w1 in
      (n :: ns, w2)
  end.

Fixpoint Nseq (start : N) (len : nat) : list N :=
  match len with
  | O => []
  | S len' => start :: Nseq (N.succ start) len'
  end.

(** The number an id string ends in: what follows its last code unit that
    is not a decimal digit. *)
Definition is_digit (c : ascii) : bool :=
  (48 <=? nat_of_ascii c)%nat && (nat_of_ascii c <=? 57)%nat.

Fixpoint all_digits (s : string) : bool :=
  match s with
  | EmptyString => true
  | String c s' => is_digit c && all_digits s'
  end.

Fixpoint numeral_suffix (s : string) : string :=
  match s with
  | EmptyString => EmptyString
  | String c s' => if all_digits s then s else numeral_suffix s'
  end.

Definition id_number (s : string) : option N :=
  option_map N.of_uint (NilEmpty.uint_of_string (numeral_suffix s)).

(** A registry that holds at most one source and one layer under an id. *)
Definition keyed (m : Map) : Prop :=
  forall i : string,
    (Host.count_sources i m <= 1)%nat /\ (Host.count_layers i m <= 1)%nat.

(** A block of [addLayers], by its flag. *)
Definition put_layer (on : bool) (i : string) (data : FeatureCollection)
    (layer : LayerDescriptor) (m : Map) : Map :=
  if on then show_layer i data layer m else hide_layer i m.

(** What the registries hold under an id: the number of sources, the number
    of layers and the data of the source. *)
Definition entry (i : string) (m : Map) : nat * nat * option FeatureCollection :=
  (Host.count_sources i m, Host.count_layers i m, Host.getSource i m).

Definition shown_entry (on : bool) (data : FeatureCollection)
  : nat * nat * option FeatureCollection :=
  if on then (1%nat, 1%nat, Some data) else (0%nat, 0%nat, None).



(** A label feature without its icon id, and the icon ids of a collection. *)
Definition erase_icon (f : Feature) : Feature :=
  match properties f with
  | LabelProps p =>
      mkFeature
        (LabelProps (mkLabelProperties (prop_label p) (prop_rotate p) (prop_anchor p)
                                       EmptyString))
        (geometry f)
  | NoProperties => f
  end.

Definition without_icons (c : FeatureCollection) : list Feature :=
  List.map erase_icon (features c).

Definition icons_of (c : FeatureCollection) : list string :=
  flat_map (fun f => match properties f with
                     | LabelProps p => [prop_icon p]
                     | NoProperties => []
                     end)
           (features c).

(** The icon id made from a counter value. *)
Definition icon_id (n : N) : string := ("graticule-icon-" ++ string_of_N n)%string.


(** A session: the layer of the degree scenario is put on an empty map at
    bearing 0 and then refreshed twice. *)
Definition session_env : Env := example_env 0 0 1.
Definition session_layer : GraticuleLayer :=
  new_layer (mkBounds 120 30 130 40) 5 "d".
Definition session_attached : Run :=
  addTo session_env 3 true session_layer initial_world.
Definition session_update1 : Run :=
  update session_env 3 (self session_attached) (world session_attached).


Definition Position_eq (p q : Position) : Prop :=
  fst p == fst q /\ snd p == snd q.


(** ** Vocabulary of the further statements *)

(** The second point of a two-point line, and the point of a point feature. *)
Definition far_end (f : Feature) : option Position :=
  match geometry f with
  | LineString [_; q] => Some q
  | _ => None
  end.

Definition point_of (f : Feature) : option Position :=
  match geometry f with
  | Point p => Some p
  | LineString _ => None
  end.

(** The label feature of an endpoint [p] of a grid line, [v] pixels away
    from it on the screen, without an icon id: a latitude line ([xAxis])
    shows the latitude of [p], turned by -90; a longitude line shows the
    longitude, not turned. *)
Definition label_point (env : Env) (this : GraticuleLayer)
    (p : Position) (v : Q * Q) (xAxis : bool) (anchor : string) : Feature :=
  mkFeature
    (LabelProps
       (mkLabelProperties
          (createlabelFormatter (if xAxis then snd p else fst p) (negb xAxis)
                                (labelFormatter this))
          (if xAxis then - (90) else 0)
          anchor
          EmptyString))
    (Point (unproject env (fst (project env p) + fst v, snd (project env p) + snd v))).






(** The font and the texts of the labels of a grid, as [createPoint] hands
    them to [drawLabel]: longitudes first, both ends of each line. *)
Definition label_font (style : LabelStyle) : Font :=
  mkFont (match fontWeight style with Some f => f | None => "normal"%string end)
         (match fontSize style with Some f => f | None => 16 end)
         (match fontFamily style with Some f => f | None => "sans-serif"%string end).




(** The ids of a layer, as a list. *)
Definition ids_list (ids : LayerIDs) : list string :=
  [grid ids; tick ids; border ids; label ids].

(** The layer registered under an id, with the rest of [entry]. *)
Definition layer_under (i : string) (m : Map) : option LayerDescriptor :=
  Host.getLayer i m.



Definition opposite_tag (tag : string) : string :=
  if String.eqb tag "E" then "W"
  else if String.eqb tag "W" then "E"
  else if String.eqb tag "N" then "S"
  else if String.eqb tag "S" then "N"
  else tag.

(** ** util.ts: extend and pick *)

(** A JavaScript object used as a record of named values: its own
    enumerable properties, listed in the order they were first set.  What
    an instance finds on the prototype of its class is given where the
    source reads it ([member] below); no key used in the source is a member
    of Object.prototype.  JavaScript enumerates keys that are array indices
    before the others; the statements below are about lookups and
    membership, which do not depend on the order. *)
Module Util.

Section Objects.

Variable V : Type.

Definition Obj : Type := list (string * V).

(** [o[k]], with [None] for a key that is not in [o]. *)
Definition get (k : string) (o : Obj) : option V :=
  match find (fun e => String.eqb (fst e) k) o with
  | Some e => Some (snd e)
  | None => None
  end.

(** [o.hasOwnProperty(k)] *)
Definition has_own (k : string) (o : Obj) : bool :=
  match get k o with
  | Some _ => true
  | None => false
  end.

(** [k in o] and [o[k]] for an object whose prototype chain holds
    [inherited]: an own property comes before an inherited one. *)
Definition has_in (inherited : string -> option V) (k : string) (o : Obj) : bool :=
  has_own k o || match inherited k with Some _ => true | None => false end.

Definition read (inherited : string -> option V) (k : string) (o : Obj) : option V :=
  match get k o with
  | Some v => Some v
  | None => inherited k
  end.

(** [o[k] = v]: a key that is there keeps its place. *)
Fixpoint set (k : string) (v : V) (o : Obj) : Obj :=
  match o with
  | [] => [(k, v)]
  | e :: rest =>
      if String.eqb (fst e) k then (fst e, v) :: rest
      else e :: set k v rest
  end.

Definition keys (o : Obj) : list string := List.map fst o.

(** [for (const k in src) dest[k] = src[k]] *)
Definition copy_all (dest src : Obj) : Obj :=
  fold_left (fun dest k =>
               match get k src with
               | Some v => set k v dest
               | None => dest
               end)
            (keys src) dest.

(** [extend(dest, ...sources)] *)
Definition extend (dest : Obj) (sources : list Obj) : Obj :=
  fold_left copy_all sources dest.

(** [result[k] = v] on a plain object: the name [__proto__] is the accessor
    of the prototype, so assigning to it makes no property of the object's
    own. *)
Definition assign (k : string) (v : V) (result : Obj) : Obj :=
  if String.eqb k "__proto__" then result else set k v result.

(** [pick(src, properties)], with what the prototype chain of [src] holds.
    The result is the object's own properties. *)
Definition pick (inherited : string -> option V) (src : Obj)
    (properties : list string) : Obj :=
  fold_left (fun result k =>
               if has_in inherited k src then
                 match read inherited k src with
                 | Some v => assign k v result
                 | None => result
                 end
               else result)
            properties [].

(** The value a key ends up with when the sources are laid over one another
    from left to right. *)
Definition overlaid (k : string) (start : option V) (sources : list Obj) : option V :=
  fold_left (fun acc src =>
               match get k src with
               | Some v => Some v
               | None => acc
               end)
            sources start.

End Objects.

End Util.

Arguments Util.get {V} k o.
Arguments Util.has_own {V} k o.
Arguments Util.has_in {V} inherited k o.
Arguments Util.read {V} inherited k o.
Arguments Util.assign {V} k v result.
Arguments Util.set {V} k v o.
Arguments Util.keys {V} o.
Arguments Util.copy_all {V} dest src.
Arguments Util.extend {V} dest sources.
Arguments Util.pick {V} inherited src properties.
Arguments Util.overlaid {V} k start sources.

(** ** The constructor and toJSON *)

(** The values that options and instance fields hold.  [VMethod name] is the
    method of this name of the class, as found on the prototype or, bound,
    on the instance. *)
#[warnings="-register-all"]
Inductive Value : Type :=
| VUndefined
| VNull
| VBoolean (b : bool)
| VNumber (q : Q)
| VString (s : string)
| VArray (items : list Value)
| VObject (props : list (string * Value))
| VMethod (name : string).

Definition Object : Type := Util.Obj Value.

(** [o[k]] as a value: a missing key reads as undefined. *)
Definition prop (k : string) (o : Object) : Value :=
  match Util.get k o with
  | Some v => v
  | None => VUndefined
  end.

Fixpoint indexed_from (i : N) (items : list Value) : Object :=
  match items with
  | [] => []
  | v :: rest => (string_of_N i, v) :: indexed_from (N.succ i) rest
  end.

Definition characters (s : string) : list Value :=
  List.map (fun c => VString (String c EmptyString)) (list_ascii_of_string s).

(** The properties that [for (const k in v)] and [v[k]] visit: the
    properties of an object, the elements of an array, the code units of a
    string, and nothing for the other values. *)
Definition enumerable (v : Value) : Object :=
  match v with
  | VObject o => o
  | VArray items => indexed_from 0 items
  | VString s => indexed_from 0 (characters s)
  | _ => []
  end.

Module Options.

Definition defaultLabelStyle : Object :=
  [("color", VString "#000000");
   ("fontFamily", VString "sans-serif");
   ("fontSize", VNumber 16);
   ("fontWeight", VString "normal");
   ("rotate", VNumber 0);
   ("rotationAlignment", VString "map");
   ("allowOverlap", VBoolean true)]%string.

Definition defaultStrokeStyle : Object :=
  [("lineColor", VString "#B4C3D1");
   ("lineCap", VString "butt");
   ("lineJoin", VString "miter");
   ("lineWidth", VNumber 1);
   ("lineOpacity", VNumber 1);
   ("lineDasharray", VArray [VNumber 4; VNumber 4])]%string.

Definition defaultStrokeStyleTick : Object :=
  [("lineColor", VString "#000000");
   ("lineCap", VString "butt");
   ("lineJoin", VString "miter");
   ("lineWidth", VNumber 2);
   ("lineOpacity", VNumber 1)]%string.

Definition defaultOptions : Object :=
  [("showLabel", VBoolean true);
   ("showTick", VBoolean true);
   ("showBorder", VBoolean true);
   ("tickLength", VNumber 5);
   ("showGrid", VBoolean false);
   ("intervalUnit", VString "d");
   ("interval", VNumber 10);
   ("bounds", VNull);
   ("minZoom", VNumber 0);
   ("maxZoom", VNumber 22);
   ("labelFormatter", VString "second");
   ("labelStyle", VObject defaultLabelStyle);
   ("tickStyle", VObject defaultStrokeStyleTick);
   ("gridStyle", VObject defaultStrokeStyle);
   ("borderStyle", VObject defaultStrokeStyleTick)]%string.

(** The initialisers of the class fields, which run before the body of the
    constructor. *)
Definition class_fields : Object :=
  [("showLabel", VBoolean true);
   ("showTick", VBoolean true);
   ("showBorder", VBoolean true);
   ("tickLength", VNumber 5);
   ("showGrid", VBoolean false);
   ("intervalUnit", VString "d");
   ("interval", VNumber 10);
   ("bounds", VArray [VArray [VNumber 121; VNumber 37];
                      VArray [VNumber 158; VNumber 82]]);
   ("minZoom", VNumber 0);
   ("maxZoom", VNumber 22);
   ("labelFormatter", VString "second");
   ("labelStyle", VObject defaultLabelStyle);
   ("tickStyle", VObject defaultStrokeStyleTick);
   ("gridStyle", VObject defaultStrokeStyle);
   ("borderStyle", VObject defaultStrokeStyleTick);
   ("_iconIds", VArray [])]%string.

(** [let { k = {} } = options || {}]: the default stands in for a missing or
    undefined property only. *)
Definition destructured (k : string) (options : option Object) : Value :=
  match options with
  | Some o =>
      match Util.get k o with
      | Some VUndefined | None => VObject []
      | Some v => v
      end
  | None => VObject []
  end.

(** The methods of the class, which an instance finds through its
    prototype. *)
Definition methods : list string :=
  ["makeIconId"; "addTo"; "getLayersId"; "initLayersId"; "setBounds";
   "setInterval"; "update"; "createLayer"; "addLayers";
   "createGridLinesSource"; "createTickLinesSource";
   "createBorderLinesSource"; "createLabelPointsSource"; "computeGrid";
   "createlabelFormatter"; "removeFromMap"; "drawLabel"; "toJSON";
   "getMaxBounds"]%string.

(** [context[fn]]: an own property, or else a method of the prototype. *)
Definition member (prototype : list string) (fn : string) (context : Object)
  : Value :=
  match Util.get fn context with
  | Some v => v
  | None => if existsb (String.eqb fn) prototype then VMethod fn else VUndefined
  end.

(** [!v] is false *)
Definition truthy (v : Value) : bool :=
  match v with
  | VUndefined | VNull => false
  | VBoolean b => b
  | VNumber q => negb (Qeq_bool q 0)
  | VString s => negb (String.eqb s "")
  | VArray _ | VObject _ | VMethod _ => true
  end.

(** [bindAll(fns, context)] of util.ts, for a context with the given
    prototype: a name that holds nothing is passed over, a method is stored
    on the context as its bound copy, and [bind] of any other value is not a
    function. *)
Fixpoint bindAll (prototype : list string) (fns : list string) (context : Object)
  : Outcome Object :=
  match fns with
  | [] => Normal context
  | fn :: rest =>
      let v := member prototype fn context in
      if negb (truthy v) then bindAll prototype rest context
      else
        match v with
        | VMethod m => bindAll prototype rest (Util.set fn (VMethod m) context)
        | _ => Throw TypeError
        end
  end.

(** The names the constructor binds. *)
Definition bound : list string :=
  ["initLayersId"; "addTo"; "addLayers"; "createLayer"; "removeFromMap";
   "setBounds"; "setInterval"; "update"; "toJSON"]%string.

(** What every plain object inherits from [Object.prototype]. *)
Definition Object_prototype (k : string) : option Value :=
  if existsb (String.eqb k)
       ["constructor"; "__defineGetter__"; "__defineSetter__"; "hasOwnProperty";
        "__lookupGetter__"; "__lookupSetter__"; "isPrototypeOf";
        "propertyIsEnumerable"; "toString"; "valueOf"; "__proto__";
        "toLocaleString"]%string
  then Some (VMethod k)
  else None.

(** The property names the constructor picks for the instance. *)
Definition picked : list string :=
  ["showLabel"; "showTick"; "tickLength"; "showBorder"; "showGrid";
   "intervalUnit"; "interval"; "bounds"; "minZoom"; "maxZoom";
   "labelStyle"; "tickStyle"; "gridStyle"; "borderStyle";
   "labelFormatter"]%string.

(** [new GraticuleLayer(options)], with [None] for options that are
    undefined or null.  The result is the instance and the caller's options
    object as the constructor leaves it. *)
Definition constructor (options : option Object) : Outcome (Object * Object) :=
  let labelStyle := destructured "labelStyle" options in
  let tickStyle := destructured "tickStyle" options in
  let gridStyle := destructured "gridStyle" options in
  let borderStyle := destructured "borderStyle" options in
  let labelStyle :=
    Util.extend [] [enumerable (prop "labelStyle" defaultOptions); enumerable labelStyle] in
  let tickStyle :=
    Util.extend [] [enumerable (prop "tickStyle" defaultOptions); enumerable tickStyle] in
  let gridStyle :=
    Util.extend [] [enumerable (prop "gridStyle" defaultOptions); enumerable gridStyle] in
  let borderStyle :=
    Util.extend [] [enumerable (prop "borderStyle" defaultOptions); enumerable borderStyle] in
  match options with
  | None => Throw TypeError
  | Some argument =>
      let argument := Util.set "labelStyle" (VObject labelStyle) argument in
      let argument := Util.set "tickStyle" (VObject tickStyle) argument in
      let argument := Util.set "gridStyle" (VObject gridStyle) argument in
      let argument := Util.set "borderStyle" (VObject borderStyle) argument in
      let options := Util.extend [] [defaultOptions; argument] in
      let this := Util.set "_options" (VObject options) class_fields in
      let this := Util.extend this [Util.pick Object_prototype options picked] in
      let this := Util.set "_map" VNull this in
      let this := Util.set "_layerIDs" VNull this in
      let this := Util.set "_iconIds" (VArray []) this in
      match bindAll methods bound this with
      | Normal this => Normal (this, argument)
      | Throw e => Throw e
      | OutOfFuel => OutOfFuel
      end
  end%string.


End Options.

(** ** Reading an instance as a typed layer *)

(** The typed [GraticuleLayer] above is the instance whose fields hold values
    of the declared types; bounds are the array [[[west, south], [east,
    north]]] or null. *)
Definition as_boolean (v : Value) : option bool :=
  match v with VBoolean b => Some b | _ => None end.

Definition as_number (v : Value) : option Q :=
  match v with VNumber q => Some q | _ => None end.

Definition as_string (v : Value) : option string :=
  match v with VString s => Some s | _ => None end.

Fixpoint all_some {A : Type} (l : list (option A)) : option (list A) :=
  match l with
  | [] => Some []
  | Some a :: rest => option_map (cons a) (all_some rest)
  | None :: _ => None
  end.

Definition as_numbers (v : Value) : option (list Q) :=
  match v with
  | VArray items => all_some (List.map as_number items)
  | _ => None
  end.

Definition optional {A : Type} (read : Value -> option A) (v : Value)
  : option (option A) :=
  match v with
  | VUndefined => Some None
  | _ => option_map Some (read v)
  end.

Definition as_bounds (v : Value) : option (option LngLatBounds) :=
  match v with
  | VNull => Some None
  | VArray [VArray [VNumber w; VNumber s]; VArray [VNumber e; VNumber n]] =>
      Some (Some (mkBounds w s e n))
  | _ => None
  end.

Definition as_null {A : Type} (v : Value) : option (option A) :=
  match v with VNull => Some None | _ => None end.

Definition bind_option {A B : Type} (x : option A) (f : A -> option B) : option B :=
  match x with
  | Some a => f a
  | None => None
  end.

Definition as_labelStyle (v : Value) : option LabelStyle :=
  match v with
  | VObject o =>
      bind_option (optional as_string (prop "color" o)) (fun a1 =>
      bind_option (optional as_string (prop "fontFamily" o)) (fun a2 =>
      bind_option (optional as_number (prop "fontSize" o)) (fun a3 =>
      bind_option (optional as_string (prop "fontWeight" o)) (fun a4 =>
      bind_option (optional as_number (prop "rotate" o)) (fun a5 =>
      bind_option (optional as_string (prop "rotationAlignment" o)) (fun a6 =>
      bind_option (optional as_boolean (prop "allowOverlap" o)) (fun a7 =>
      Some (mkLabelStyle a1 a2 a3 a4 a5 a6 a7))))))))
  | _ => None
  end%string.

Definition as_strokeStyle (v : Value) : option StrokeStyle :=
  match v with
  | VObject o =>
      bind_option (optional as_string (prop "lineColor" o)) (fun a1 =>
      bind_option (optional as_string (prop "lineCap" o)) (fun a2 =>
      bind_option (optional as_string (prop "lineJoin" o)) (fun a3 =>
      bind_option (optional as_numbers (prop "lineDasharray" o)) (fun a4 =>
      bind_option (optional as_number (prop "lineWidth" o)) (fun a5 =>
      bind_option (optional as_number (prop "lineOpacity" o)) (fun a6 =>
      Some (mkStrokeStyle a1 a2 a3 a4 a5 a6)))))))
  | _ => None
  end%string.

Definition layer_of (this : Object) : option GraticuleLayer :=
  (bind_option (as_boolean (prop "showLabel" this)) (fun a1 =>
   bind_option (as_boolean (prop "showTick" this)) (fun a2 =>
   bind_option (as_boolean (prop "showBorder" this)) (fun a3 =>
   bind_option (as_number (prop "tickLength" this)) (fun a4 =>
   bind_option (as_boolean (prop "showGrid" this)) (fun a5 =>
   bind_option (as_string (prop "intervalUnit" this)) (fun a6 =>
   bind_option (as_number (prop "interval" this)) (fun a7 =>
   bind_option (as_bounds (prop "bounds" this)) (fun a8 =>
   bind_option (as_number (prop "minZoom" this)) (fun a9 =>
   bind_option (as_number (prop "maxZoom" this)) (fun a10 =>
   bind_option (as_string (prop "labelFormatter" this)) (fun a11 =>
   bind_option (as_labelStyle (prop "labelStyle" this)) (fun a12 =>
   bind_option (as_strokeStyle (prop "tickStyle" this)) (fun a13 =>
   bind_option (as_strokeStyle (prop "gridStyle" this)) (fun a14 =>
   bind_option (as_strokeStyle (prop "borderStyle" this)) (fun a15 =>
   bind_option (@as_null unit (prop "_map" this)) (fun _ =>
   bind_option (@as_null LayerIDs (prop "_layerIDs" this)) (fun a17 =>
   Some (mkLayer a1 a2 a3 a4 a5 a6 a7 a8 a9 a10 a11 a12 a13 a14 a15
                 false a17)))))))))))))))))))%string.

(** Bounds as the array the caller writes. *)
Definition bounds_array (b : LngLatBounds) : Value :=
  VArray [VArray [VNumber (getWest b); VNumber (getSouth b)];
          VArray [VNumber (getEast b); VNumber (getNorth b)]].

(** The fields the constructor picks that are not styles, and the four
    styles. *)
Definition plain_fields : list string :=
  ["showLabel"; "showTick"; "tickLength"; "showBorder"; "showGrid";
   "intervalUnit"; "interval"; "bounds"; "minZoom"; "maxZoom";
   "labelFormatter"]%string.

Definition style_fields : list string :=
  ["labelStyle"; "tickStyle"; "gridStyle"; "borderStyle"]%string.

Definition private_fields : list string :=
  ["_options"; "_map"; "_layerIDs"; "_iconIds"]%string.


(** The instance that [new GraticuleLayer({})] returns, and the typed layer
    it stands for. *)
Definition bare_instance : Object :=
  match Options.constructor (Some []) with
  | Normal (this, _) => this
  | _ => []
  end.

Definition bare_layer : GraticuleLayer :=
  mkLayer true true true 5 false "d"%string 10 None 0 22 "second"%string
          defaultLabelStyle defaultStrokeStyleTick defaultStrokeStyle
          defaultStrokeStyleTick false None.

(** The options that hold only bounds, interval and unit. *)
Definition grid_options (b : LngLatBounds) (i : Q) (unit : string) : Object :=
  [("bounds", bounds_array b);
   ("interval", VNumber i);
   ("intervalUnit", VString unit)]%string.

(** ** The earlier createTickLinesSource kept in util.ts *)

(** util.ts carries an earlier copy of the class, in which a tick is moved
    along one screen axis only. *)
Module Previous.

Section WithEnv.

Variable env : Env.

Definition createTickLine (lnglat : Position) (tick : Q) (xAxis : bool)
  : Feature :=
  let point := project env lnglat in
  let point :=
    if xAxis then (fst point + tick, snd point)
    else (fst point, snd point + tick) in
  let lnglat2 := unproject env point in
  lineFeature [lnglat; (fst lnglat2, snd lnglat2)].

Definition createTickLinesSource (lngLines latLines : list GridLine)
    (map : bool) (tickLen : Q) : FeatureCollection :=
  match lngLines, latLines, map with
  | [], _, _ => EMPTY_GEOSJON
  | _, [], _ => EMPTY_GEOSJON
  | _, _, false => EMPTY_GEOSJON
  | _, _, true =>
      let tickLen := Num.or_default tickLen 5 in
      let lngTicks :=
        flat_map (fun item =>
          [createTickLine (item0 item) tickLen false;
           createTickLine (item1 item) (- tickLen) false])
          lngLines in
      let latTicks :=
        flat_map (fun item =>
          [createTickLine (item0 item) (- tickLen) true;
           createTickLine (item1 item) tickLen true])
          latLines in
      mkCollection (lngTicks ++ latTicks)
  end.

End WithEnv.

End Previous.

(** Features that agree up to the value of their coordinates. *)
Definition Geometry_eq (g h : Geometry) : Prop :=
  match g, h with
  | LineString a, LineString b => Forall2 Position_eq a b
  | Point p, Point q => Position_eq p q
  | _, _ => False
  end.

Definition Feature_eq (f g : Feature) : Prop :=
  properties f = properties g /\ Geometry_eq (geometry f) (geometry g).

(** A host whose [unproject] gives equal positions for equal screen
    points. *)
Definition unproject_respects (env : Env) : Prop :=
  forall u v, vec_eq u v -> Position_eq (unproject env u) (unproject env v).

(** ** The application *)

(** The page of part_000: [init] keeps the layer and [flag] in variables that
    its three handlers share.  The state below holds them together with the
    number of timers that are set and have not run yet and the process the
    layer lives in.  An event carries the host as it is when the handler
    runs; time is not modelled, so a timer may run at any moment after it
    was set.  A handler whose call of the layer throws ends there, and later
    events are handled as before.  When such a call runs out of fuel the
    handler never ends; the states the model goes on to are then more than
    the page can reach. *)
Module App.

Record State : Type := mkState {
  glayer : option GraticuleLayer;
  flag : bool;
  timers : nat;
  page : World
}.

Inductive Event : Type :=
| OnLoad (env : Env)
| OnMove (env : Env)
| OnTimeout (env : Env).

(** Whether a call came back, rather than threw or ran on. *)
Definition returned {A : Type} (o : Outcome A) : bool :=
  match o with
  | Normal _ => true
  | _ => false
  end.

(** The options of the page. *)
Definition options : Object :=
  [("showLabel", VBoolean true);
   ("showGrid", VBoolean true);
   ("showTick", VBoolean true);
   ("bounds", VArray [VArray [VNumber (241 # 2); VNumber 31];
                      VArray [VNumber 121; VNumber (157 # 5)]]);
   ("showBorder", VBoolean true);
   ("tickLength", VNumber 8);
   ("intervalUnit", VString "m")]%string.

(** [new GraticuleLayer(options)] as a typed layer. *)
Definition new_glayer : option GraticuleLayer :=
  match Options.constructor (Some options) with
  | Normal (this, _) => layer_of this
  | _ => None
  end.

Section Handlers.

Variable fuel : nat.

(** The handler of ['load']. *)
Definition on_load (env : Env) (s : State) : State :=
  match new_glayer with
  | Some l =>
      let r := addTo env fuel true l (page s) in
      mkState (Some (self r)) (flag s) (timers s) (world r)
  | None => s
  end.

(** The handler of ['move']. *)
Definition on_move (env : Env) (s : State) : State :=
  match glayer s with
  | Some l =>
      if String.eqb (intervalUnit l) "m" then
        if flag s then mkState (glayer s) false (S (timers s)) (page s)
        else s
      else
        let r := update env fuel l (page s) in
        mkState (Some (self r)) (flag s) (timers s) (world r)
  | None => s
  end.

(** The callback of [setTimeout]: [flag] is set again only when [update]
    has come back. *)
Definition on_timeout (env : Env) (s : State) : State :=
  match timers s with
  | O => s
  | S n =>
      match glayer s with
      | Some l =>
          let r := update env fuel l (page s) in
          mkState (Some (self r))
                  (if returned (outcome r) then true else flag s)
                  n (world r)
      | None => mkState None (flag s) n (page s)
      end
  end.

Definition step (s : State) (e : Event) : State :=
  match e with
  | OnLoad env => on_load env s
  | OnMove env => on_move env s
  | OnTimeout env => on_timeout env s
  end.

Definition run (events : list Event) (s : State) : State :=
  fold_left step events s.

End Handlers.

(** The page before the map has loaded. *)
Definition start (w : World) : State := mkState None true 0 w.

End App.

(** What holds of the page whatever has happened: at most one timer is set,
    none while [flag] is true, and the layer has the unit of the options. *)
Definition settled (s : App.State) : Prop :=
  (App.timers s <= 1)%nat
  /\ (App.flag s = true -> App.timers s = 0%nat)
  /\ (forall l, App.glayer s = Some l -> intervalUnit l = "m"%string).

(** ** Binary64 numbers *)

(** The layer above computes with exact rationals.  What [computeGrid],
    [createlabelFormatter] and [drawLabel] return depends on the rounding of
    the doubles the source computes with; this module gives the three on
    binary64 floating-point numbers, the kernel's [float], whose [+], [-],
    [*], [/] and comparisons are those of IEEE 754 and of JavaScript.
    [Math.floor], [Math.ceil], [Math.round] and [%] are exact operations on
    doubles and are computed here from the mantissa and the exponent. *)
Module Double.

Import Floats.

#[local] Set Warnings "-inexact-float".

(** The double of an integer below 2^53 in absolute value. *)
Definition of_Z (k : Z) : float :=
  if (k <? 0)%Z then (- of_uint63 (Uint63.of_Z (- k)))%float
  else of_uint63 (Uint63.of_Z k).

(** [Math.floor]: NaN, the infinities, the zeros and the integers are
    returned as they are. *)
Definition Math_floor (x : float) : float :=
  match Prim2SF x with
  | S754_finite s m e =>
      if (0 <=? e)%Z then x
      else
        let d := (2 ^ (- e))%Z in
        let q := (Zpos m / d)%Z in
        let r := (Zpos m mod d)%Z in
        if s then of_Z (- (q + (if (r =? 0)%Z then 0 else 1)))
        else of_Z q
  | _ => x
  end.

(** [Math.ceil]; between -1 and 0 it gives the negative zero. *)
Definition Math_ceil (x : float) : float := (- Math_floor (- x))%float.

(** [Math.round]: the nearest integer, a half rounded towards plus infinity;
    from -0.5 to 0 it gives the negative zero. *)
Definition Math_round (x : float) : float :=
  let f := Math_floor x in
  if (f =? x)%float then x
  else if (0.5 <=? x - f)%float then
    let r := (f + 1)%float in
    if (r =? 0)%float then neg_zero else r
  else f.

(** [a % b]: the exact remainder of the division truncated towards zero,
    with the sign of the dividend. *)
Definition rem (a b : float) : float :=
  match Prim2SF a, Prim2SF b with
  | S754_nan, _ => nan
  | _, S754_nan => nan
  | S754_infinity _, _ => nan
  | _, S754_zero _ => nan
  | S754_zero _, _ => a
  | S754_finite _ _ _, S754_infinity _ => a
  | S754_finite sa ma ea, S754_finite _ mb eb =>
      let e := Z.min ea eb in
      let A := (Zpos ma * 2 ^ (ea - e))%Z in
      let B := (Zpos mb * 2 ^ (eb - e))%Z in
      let r := Z.ldexp (of_Z (A mod B)) e in
      if sa then (- r)%float else r
  end.

(** *** The bounds *)

(** A corner as the caller writes it: the array [[lng, lat]]. *)
Definition Corner : Type := (float * float)%type.

Record LngLat : Type := mkLngLat {
  lng : float;
  lat : float
}.

(** [new LngLat(lng, lat)] of the host library, which refuses a NaN and a
    latitude outside [-90, 90]. *)
Definition new_LngLat (c : Corner) : Outcome LngLat :=
  if is_nan (fst c) || is_nan (snd c) then Throw InvalidLngLat
  else if (90 <? snd c)%float || (snd c <? -90)%float then Throw InvalidLngLat
  else Normal (mkLngLat (fst c) (snd c)).

Record LngLatBounds : Type := mkBounds {
  _sw : LngLat;
  _ne : LngLat
}.

Definition getWest (b : LngLatBounds) : float := lng (_sw b).
Definition getSouth (b : LngLatBounds) : float := lat (_sw b).
Definition getEast (b : LngLatBounds) : float := lng (_ne b).
Definition getNorth (b : LngLatBounds) : float := lat (_ne b).

(** [LngLatBounds.convert(input)] of the host library, for bounds that are
    null or the array of the south-west and the north-east corner: null is
    handed back, the corners are made south-west first. *)
Definition convert (input : option (Corner * Corner))
  : Outcome (option LngLatBounds) :=
  match input with
  | None => Normal None
  | Some (sw, ne) =>
      match new_LngLat sw with
      | Normal sw' =>
          match new_LngLat ne with
          | Normal ne' => Normal (Some (mkBounds sw' ne'))
          | Throw e => Throw e
          | OutOfFuel => OutOfFuel
          end
      | Throw e => Throw e
      | OutOfFuel => OutOfFuel
      end
  end.

(** *** computeGrid *)

Definition Position : Type := (float * float)%type.
Definition GridLine : Type := (Position * Position)%type.

Record Grid : Type := mkGrid {
  lngLines : list GridLine;
  latLines : list GridLine
}.

(** [for (let n = from; n <= upto; n += step) out.push(body(n))]. *)
Fixpoint for_loop {A : Type} (fuel : nat) (n upto step : float) (body : float -> A)
  : option (list A) :=
  if (n <=? upto)%float then
    match fuel with
    | O => None
    | S fuel' =>
        match for_loop fuel' (n + step)%float upto step body with
        | Some rest => Some (body n :: rest)
        | None => None
        end
    end
  else Some [].

Definition lngLine (south north x : float) : GridLine := ((x, south), (x, north)).
Definition latLine (west east y : float) : GridLine := ((west, y), (east, y)).

(** The four bounds of the two loops: [minX], [maxX], [minY], [maxY]. *)
Definition snap_min (lo interval : float) : float :=
  (Math_ceil (lo / interval) * interval)%float.
Definition snap_max (hi interval : float) : float :=
  (Math_floor (hi / interval) * interval)%float.

(** The branch [intervalUnit == 'd'] of [computeGrid]. *)
Definition grid_degree (fuel : nat) (b : LngLatBounds) (interval : float)
  : Outcome Grid :=
  let west := getWest b in
  let east := getEast b in
  let north := getNorth b in
  let south := getSouth b in
  let minX := (Math_ceil (west / interval) * interval)%float in
  let maxX := (Math_floor (east / interval) * interval)%float in
  let minY := (Math_ceil (south / interval) * interval)%float in
  let maxY := (Math_floor (north / interval) * interval)%float in
  match for_loop fuel minX maxX interval (fun n => lngLine south north n) with
  | None => OutOfFuel
  | Some lngs =>
      match for_loop fuel minY maxY interval (fun n => latLine west east n) with
      | None => OutOfFuel
      | Some lats => Normal (mkGrid lngs lats)
      end
  end.

(** The branch [intervalUnit == 'm'] of [computeGrid]. *)
Definition grid_minute (fuel : nat) (b : LngLatBounds) (interval : float)
  : Outcome Grid :=
  let west := getWest b in
  let east := getEast b in
  let north := getNorth b in
  let south := getSouth b in
  let minX := (Math_ceil ((west * 60) / interval) * interval)%float in
  let maxX := (Math_floor ((east * 60) / interval) * interval)%float in
  let minY := (Math_ceil ((south * 60) / interval) * interval)%float in
  let maxY := (Math_floor ((north * 60) / interval) * interval)%float in
  match for_loop fuel minX maxX interval
          (fun n => lngLine south north (n / 60)%float) with
  | None => OutOfFuel
  | Some lngs =>
      match for_loop fuel minY maxY interval
              (fun n => latLine west east (n / 60)%float) with
      | None => OutOfFuel
      | Some lats => Normal (mkGrid lngs lats)
      end
  end.

(** [computeGrid], as a function of the three fields it reads. *)
Definition computeGrid (fuel : nat) (bounds : option (Corner * Corner))
    (intervalUnit : string) (interval : float) : Outcome Grid :=
  match convert bounds with
  | Throw e => Throw e
  | OutOfFuel => OutOfFuel
  | Normal None => Throw TypeError
  | Normal (Some b) =>
      if String.eqb intervalUnit "d" then grid_degree fuel b interval
      else if String.eqb intervalUnit "m" then grid_minute fuel b interval
      else Throw UnsupportedUnit
  end.

(** *** createlabelFormatter *)

Section Formatter.

(** The conversion of a number to a string that a template literal
    applies. *)
Variable toString : float -> string.

Definition formatTag (value : float) (isLng : bool) : string :=
  if isLng then
    if (0 <? value)%float then "E"
    else if (value <? 0)%float then "W"
    else ""
  else
    if (0 <? value)%float then "N"
    else if (value <? 0)%float then "S"
    else "".

Definition formatDegree (isLng : bool) (labelFormat : string) (value : float)
  : string :=
  let tag := formatTag value isLng in
  let value := abs value in
  let v1 := Math_floor value in
  let v2 := Math_floor ((value - v1) * 60)%float in
  let v3 := Math_round (rem ((value - v1) * 3600)%float 60%float) in
  (if String.eqb labelFormat "degree" then
     toString v1 ++ degree_sign ++ tag
   else if String.eqb labelFormat "minute" then
     toString v1 ++ degree_sign ++ toString v2 ++ apostrophe ++ tag
   else
     toString v1 ++ degree_sign ++ toString v2 ++ apostrophe
       ++ toString v3 ++ double_quote ++ tag)%string.

Definition createlabelFormatter (num : float) (isLng : bool) (labelFormat : string)
  : string :=
  let label := formatDegree isLng labelFormat num in
  label.

End Formatter.

(** *** drawLabel *)

(** The conversion of a number to the integer a canvas takes for a size:
    towards zero, NaN and the infinities to 0. *)
Definition to_integer (x : float) : Z :=
  match Prim2SF x with
  | S754_finite s m e =>
      let a := if (0 <=? e)%Z then (Zpos m * 2 ^ e)%Z else (Zpos m / 2 ^ (- e))%Z in
      if s then (- a)%Z else a
  | _ => 0%Z
  end.

(** The attribute type [unsigned long] of the canvas: the integer modulo
    2^32. *)
Definition to_unsigned_long (x : float) : Z := (to_integer x mod 2 ^ 32)%Z.

(** [canvas.width = x] and [canvas.height = x]: a value above 2^31 - 1 is
    replaced by the default of the attribute. *)
Definition canvas_dimension (default : Z) (x : float) : Z :=
  let u := to_unsigned_long x in
  if (u <=? 2147483647)%Z then u else default.

Record Font : Type := mkFont {
  font_weight : string;
  font_size : float;
  font_family : string
}.

Record Canvas : Type := mkCanvas {
  canvas_width : Z;                           (* canvas.width *)
  canvas_height : Z;                          (* canvas.height *)
  style_width_px : float;                     (* canvas.style.width = size + 'px' *)
  style_height_px : float;                    (* canvas.style.height = size + 'px' *)
  ctx_font : Font;
  ctx_textBaseline : string;
  ctx_fillStyle : string;
  ctx_fillText : list (string * float * float)  (* the fillText calls, in order *)
}.

(** What [ctx.getImageData(sx, sy, sw, sh)] returns: the rectangle of the
    canvas it was read from. *)
Record ImageData : Type := mkImageData {
  image_of : Canvas;
  image_sx : Z;
  image_sy : Z;
  image_sw : Z;
  image_sh : Z
}.

(** An argument of the type [[EnforceRange] long]: the integer part of a
    finite number, which has to lie in the range of a long. *)
Definition enforce_long (x : float) : option Z :=
  match Prim2SF x with
  | S754_nan | S754_infinity _ => None
  | _ =>
      let k := to_integer x in
      if (- 2 ^ 31 <=? k)%Z && (k <=? 2 ^ 31 - 1)%Z then Some k else None
  end.

(** [ctx.getImageData(sx, sy, sw, sh)] of the HTML standard: the four
    arguments are converted first, a TypeError when one is not a long; then
    a rectangle without width or height is refused. *)
Definition getImageData (canvas : Canvas) (sx sy sw sh : float)
  : Outcome ImageData :=
  match enforce_long sx, enforce_long sy, enforce_long sw, enforce_long sh with
  | Some x, Some y, Some w, Some h =>
      if (w =? 0)%Z || (h =? 0)%Z then Throw IndexSizeError
      else Normal (mkImageData canvas x y w h)
  | _, _, _, _ => Throw TypeError
  end.

(** [x || d] on numbers: the zeros and NaN are falsy. *)
Definition or_default (x d : float) : float :=
  if is_zero x || is_nan x then d else x.

Section Canvas.

Variable devicePixelRatio : float.              (* window.devicePixelRatio *)
Variable measureText : Font -> string -> float. (* ctx.measureText(text).width *)

(** [drawLabel]; an absent argument takes the default of the signature.
    The length of the text is a natural number, which is 0 or not, and enters
    the product as a double. *)
Definition drawLabel (text : string)
    (fontFamily : option string) (fontSize : option float)
    (color : option string) (fontWeight : option string) : Outcome ImageData :=
  let fontFamily := match fontFamily with Some f => f | None => "sans-serif"%string end in
  let fontSize := match fontSize with Some s => s | None => 16%float end in
  let color := match color with Some c => c | None => "#000000"%string end in
  let fontWeight := match fontWeight with Some f => f | None => "normal"%string end in
  let len := String.length text in
  let pixelRatio := or_default devicePixelRatio 1 in
  let size :=
    if Nat.eqb len 0 then 256%float
    else (of_Z (Z.of_nat len) * fontSize)%float in
  let font := mkFont fontWeight fontSize fontFamily in
  let width := measureText font text in
  let canvas :=
    mkCanvas (canvas_dimension 300 (size * pixelRatio)%float)
             (canvas_dimension 150 (size * pixelRatio)%float)
             size size font "middle" color [(text, 0%float, (fontSize / 2)%float)] in
  let width := Math_round width in
  getImageData canvas 0 0 width fontSize.

End Canvas.

(** *** Vocabulary of the statements on doubles *)


Fixpoint iterates (n step : float) (m : nat) : list float :=
  match m with
  | O => []
  | S m' => n :: iterates (n + step)%float step m'
  end.



(** A corner the host accepts. *)
Definition accepted (c : Corner) : bool :=
  negb (is_nan (fst c) || is_nan (snd c))
  && negb ((90 <? snd c)%float || (snd c <? -90)%float).

(** The factor between degrees and the unit of the interval, and the
    coordinate of the value a loop has reached. *)
Definition scale (unit : string) (x : float) : float :=
  if String.eqb unit "m" then (x * 60)%float else x.

Definition coordinate (unit : string) (n : float) : float :=
  if String.eqb unit "m" then (n / 60)%float else n.


(** The rational a finite double stands for, and the same number of lines
    computed on these rationals without rounding. *)
Definition exact (x : float) : Q :=
  match Prim2SF x with
  | S754_finite s m e =>
      let a := if (0 <=? e)%Z then inject_Z (Zpos m * 2 ^ e)
               else Qmake (Zpos m) (Pos.pow 2 (Z.to_pos (- e))) in
      if s then Qopp a else a
  | _ => 0%Q
  end.


(** The parts of a label in the words of the specification. *)
Definition dms_degrees (value : float) : float := Math_floor (abs value).

Definition dms_minutes (value : float) : float :=
  Math_floor ((abs value - dms_degrees value) * 60)%float.

Definition dms_seconds (value : float) : float :=
  Math_round (rem ((abs value - dms_degrees value) * 3600)%float 60%float).

Definition hemisphere_tag (value : float) (isLongitudeAxis : bool) : string :=
  if (0 <? value)%float then (if isLongitudeAxis then "E" else "N")
  else if (value <? 0)%float then (if isLongitudeAxis then "W" else "S")
  else "".

Definition render (p : Precision) (deg min sec tag : string) : string :=
  match p with
  | degree => deg ++ degree_sign ++ tag
  | minute => deg ++ degree_sign ++ min ++ apostrophe ++ tag
  | second => deg ++ degree_sign ++ min ++ apostrophe ++ sec ++ double_quote ++ tag
  end%string.

(** The digits of a label, for any precision tag whatever: the label without
    its hemisphere tag. *)
Definition label_digits (toString : float -> string) (labelFormat : string)
    (value : float) : string :=
  (if String.eqb labelFormat "degree" then
     toString (dms_degrees value) ++ degree_sign
   else if String.eqb labelFormat "minute" then
     toString (dms_degrees value) ++ degree_sign
       ++ toString (dms_minutes value) ++ apostrophe
   else
     toString (dms_degrees value) ++ degree_sign
       ++ toString (dms_minutes value) ++ apostrophe
       ++ toString (dms_seconds value) ++ double_quote)%string.

(** A conversion to strings that prints NaN, the infinities and the integers
    as [Number::toString] prints them below 10^21: the integers as their
    decimal digits. *)
Definition decimal (x : float) : string :=
  match Prim2SF x with
  | S754_nan => "NaN"
  | S754_infinity false => "Infinity"
  | S754_infinity true => "-Infinity"
  | _ => string_of_Z (to_integer x)
  end.

(** The side, in CSS pixels, that [drawLabel] gives its canvas, and the
    canvas it draws on. *)
Definition canvas_side (text : string) (fontSize : float) : float :=
  match text with
  | EmptyString => 256%float
  | _ => (of_Z (Z.of_nat (String.length text)) * fontSize)%float
  end.

Definition or_else {A : Type} (o : option A) (d : A) : A :=
  match o with
  | Some a => a
  | None => d
  end.

Definition label_font (fontFamily : option string) (fontSize : float)
    (fontWeight : option string) : Font :=
  mkFont (or_else fontWeight "normal"%string) fontSize
         (or_else fontFamily "sans-serif"%string).

Definition label_canvas (devicePixelRatio : float) (text : string)
    (fontFamily : option string) (fontSize : float)
    (color fontWeight : option string) : Canvas :=
  let side := canvas_side text fontSize in
  let scaled := (side * or_default devicePixelRatio 1)%float in
  mkCanvas (canvas_dimension 300 scaled) (canvas_dimension 150 scaled)
           side side (label_font fontFamily fontSize fontWeight) "middle"
           (or_else color "#000000"%string)
           [(text, 0%float, (fontSize / 2)%float)].

End Double.
(** ** Facts on the loop of [computeGrid] *)

Section Loop.

Variable step : Q.
Hypothesis step_pos : 0 < step.

Lemma inject_Z_succ (k : nat) :
  inject_Z (Z.of_nat (S k)) == inject_Z (Z.of_nat k) + 1.
Proof.
  rewrite Nat2Z.inj_succ. unfold Z.succ. rewrite inject_Z_plus. reflexivity.
Qed.

Lemma for_loop_iterates {A : Type} (body : Q -> A) (upto : Q) :
  forall (m fuel : nat) (n : Q),
    (m <= fuel)%nat ->
    (forall k, (k < m)%nat -> n + inject_Z (Z.of_nat k) * step <= upto) ->
    ~ (n + inject_Z (Z.of_nat m) * step <= upto) ->
    for_loop fuel n upto step body = Some (List.map body (iterates n step m)).
Proof.
  induction m as [|m IH]; intros fuel n Hfuel Hin Hout.
  - assert (Hn : Qle_bool n upto = false).
    { destruct (Qle_bool n upto) eqn:E; [|reflexivity].
      exfalso. apply Hout. apply Qle_bool_iff in E.
      change (inject_Z (Z.of_nat 0)) with 0. lra. }
    destruct fuel; simpl; rewrite Hn; reflexivity.
  - destruct fuel as [|fuel]; [lia|].
    assert (Hn : Qle_bool n upto = true).
    { apply Qle_bool_iff. specialize (Hin O ltac:(lia)).
      change (inject_Z (Z.of_nat 0)) with 0 in Hin. lra. }
    simpl. rewrite Hn.
    rewrite (IH fuel (n + step)); [reflexivity | lia | |].
    + intros k Hk. specialize (Hin (S k) ltac:(lia)).
      rewrite inject_Z_succ in Hin. lra.
    + intro H. apply Hout. rewrite inject_Z_succ. lra.
Qed.

Lemma iterates_length (m : nat) (n : Q) : List.length (iterates n step m) = m.
Proof.
  revert n. induction m as [|m IH]; intro n; simpl; [reflexivity|].
  rewrite IH. reflexivity.
Qed.

(** The loop from the snapped lower end [c * step] to the snapped upper end
    [f * step] makes one turn per integer in [c .. f]. *)
Lemma for_loop_snapped {A : Type} (body : Q -> A) (c f : Z) (fuel : nat) :
  let m := Z.to_nat (Z.max 0 (f - c + 1)) in
  (m <= fuel)%nat ->
  for_loop fuel (inject_Z c * step) (inject_Z f * step) step body
  = Some (List.map body (iterates (inject_Z c * step) step m)).
Proof.
  intros m Hfuel. apply for_loop_iterates; [exact Hfuel | |].
  - intros k Hk.
    assert (Hle : (c + Z.of_nat k <= f)%Z) by (subst m; lia).
    rewrite Zle_Qle, inject_Z_plus in Hle.
    setoid_replace (inject_Z c * step + inject_Z (Z.of_nat k) * step)
      with ((inject_Z c + inject_Z (Z.of_nat k)) * step) by ring.
    apply Qmult_le_r; assumption.
  - intro H.
    setoid_replace (inject_Z c * step + inject_Z (Z.of_nat m) * step)
      with ((inject_Z c + inject_Z (Z.of_nat m)) * step) in H by ring.
    apply Qmult_le_r in H; [|assumption].
    rewrite <- inject_Z_plus, <- Zle_Qle in H. subst m. lia.
Qed.

End Loop.

Lemma is_zero_pos (x : Q) : 0 < x -> Num.is_zero x = false.
Proof.
  intro H. unfold Num.is_zero. destruct (Qeq_bool x 0) eqn:E; [|reflexivity].
  apply Qeq_bool_eq in E. lra.
Qed.

(** The degree branch, for any bounds and a positive interval. *)
Lemma grid_degree_run (b : LngLatBounds) (i : Q) (fuel : nat) :
  0 < i ->
  (line_count (getWest b) (getEast b) i <= fuel)%nat ->
  (line_count (getSouth b) (getNorth b) i <= fuel)%nat ->
  grid_degree fuel b i
  = Normal
      (mkGrid
         (List.map (lngLine (getSouth b) (getNorth b))
            (iterates (inject_Z (Qceiling (getWest b / i)) * i) i
               (line_count (getWest b) (getEast b) i)))
         (List.map (latLine (getWest b) (getEast b))
            (iterates (inject_Z (Qceiling (getSouth b / i)) * i) i
               (line_count (getSouth b) (getNorth b) i)))).
Proof.
  intros Hi Hx Hy. unfold grid_degree, Num.Math_ceil, Num.Math_floor.
  rewrite (for_loop_snapped i Hi _ _ _ fuel Hx).
  rewrite (for_loop_snapped i Hi _ _ _ fuel Hy).
  reflexivity.
Qed.

(** The scenario of the specification: bounds [[120,30],[130,40]], interval
    5, unit degree. *)
Example computeGrid_scenario_5_degrees :
  computeGrid 3 (new_layer (mkBounds 120 30 130 40) 5 "d")
  = Normal (mkGrid
      [((120, 30), (120, 40)); ((125, 30), (125, 40)); ((130, 30), (130, 40))]
      [((120, 30), (130, 30)); ((120, 35), (130, 35)); ((120, 40), (130, 40))]).
Proof. vm_compute. reflexivity. Qed.

(** The arc-minute branch, for any bounds and a positive interval. *)
Lemma grid_minute_run (b : LngLatBounds) (i : Q) (fuel : nat) :
  0 < i ->
  (line_count (getWest b * 60) (getEast b * 60) i <= fuel)%nat ->
  (line_count (getSouth b * 60) (getNorth b * 60) i <= fuel)%nat ->
  grid_minute fuel b i
  = Normal
      (mkGrid
         (List.map (fun n => lngLine (getSouth b) (getNorth b) (n / 60))
            (iterates (inject_Z (Qceiling (getWest b * 60 / i)) * i) i
               (line_count (getWest b * 60) (getEast b * 60) i)))
         (List.map (fun n => latLine (getWest b) (getEast b) (n / 60))
            (iterates (inject_Z (Qceiling (getSouth b * 60 / i)) * i) i
               (line_count (getSouth b * 60) (getNorth b * 60) i)))).
Proof.
  intros Hi Hx Hy. unfold grid_minute, Num.Math_ceil, Num.Math_floor.
  rewrite (for_loop_snapped i Hi _ _ _ fuel Hx).
  rewrite (for_loop_snapped i Hi _ _ _ fuel Hy).
  reflexivity.
Qed.

Lemma line_count_comp (lo lo' hi hi' i : Q) :
  lo == lo' -> hi == hi' -> line_count lo hi i = line_count lo' hi' i.
Proof.
  intros Hlo Hhi. unfold line_count.
  assert (E1 : lo / i == lo' / i) by (rewrite Hlo; reflexivity).
  assert (E2 : hi / i == hi' / i) by (rewrite Hhi; reflexivity).
  rewrite (Qceiling_comp _ _ E1), (Qfloor_comp _ _ E2). reflexivity.
Qed.

(** In either unit, the number of lines of each axis. *)
Lemma computeGrid_counts (this : GraticuleLayer) (b : LngLatBounds) (fuel : nat) :
  bounds this = Some b ->
  intervalUnit this = "d"%string \/ intervalUnit this = "m"%string ->
  0 < interval this ->
  (line_count (getWest b * unit_scale (intervalUnit this))
              (getEast b * unit_scale (intervalUnit this)) (interval this)
   <= fuel)%nat ->
  (line_count (getSouth b * unit_scale (intervalUnit this))
              (getNorth b * unit_scale (intervalUnit this)) (interval this)
   <= fuel)%nat ->
  exists g : Grid,
    computeGrid fuel this = Normal g
    /\ List.length (lngLines g)
       = line_count (getWest b * unit_scale (intervalUnit this))
                    (getEast b * unit_scale (intervalUnit this)) (interval this)
    /\ List.length (latLines g)
       = line_count (getSouth b * unit_scale (intervalUnit this))
                    (getNorth b * unit_scale (intervalUnit this)) (interval this).
Proof.
  intros Hb [Hu|Hu] Hi; rewrite Hu; unfold unit_scale; simpl String.eqb; cbv iota;
    intros Hx Hy.
  - assert (Ex : line_count (getWest b * 1) (getEast b * 1) (interval this)
                 = line_count (getWest b) (getEast b) (interval this))
      by (apply line_count_comp; ring).
    assert (Ey : line_count (getSouth b * 1) (getNorth b * 1) (interval this)
                 = line_count (getSouth b) (getNorth b) (interval this))
      by (apply line_count_comp; ring).
    rewrite Ex in *. rewrite Ey in *.
    eexists. split.
    { unfold computeGrid. rewrite Hb, Hu. simpl String.eqb. cbv iota.
      rewrite (is_zero_pos _ Hi). apply grid_degree_run; assumption. }
    cbn [lngLines latLines]. rewrite !length_map, !iterates_length. split; reflexivity.
  - eexists. split.
    { unfold computeGrid. rewrite Hb, Hu. simpl String.eqb. cbv iota.
      rewrite (is_zero_pos _ Hi). apply grid_minute_run; assumption. }
    cbn [lngLines latLines]. rewrite !length_map, !iterates_length. split; reflexivity.
Qed.

(** The scenario of the specification: bounds [[120.5,31],[121,31.4]],
    interval 10, unit degree: no multiple of 10 lies in either range. *)
Example computeGrid_scenario_no_lines :
  computeGrid 0 (new_layer (mkBounds (241 # 2) 31 121 (157 # 5)) 10 "d")
  = Normal (mkGrid [] []).
Proof. vm_compute. reflexivity. Qed.

(** ** createlabelFormatter *)






(** The other scenario of the specification. *)
Example createlabelFormatter_scenario_degree :
  createlabelFormatter (- (12073 # 100)) true "degree"
  = ("120" ++ degree_sign ++ "W")%string.
Proof. vm_compute. reflexivity. Qed.




(** ** The sources of grid lines, ticks and labels *)

(** C9.  When the longitude lines or the latitude lines are missing, the
    grid, tick and label sources are each the empty collection, whatever
    lines the other axis has; the label source then takes no icon id and
    registers no image. *)
Theorem sources_empty_without_both_axes
    (env : Env) (this : GraticuleLayer) (lngLines latLines : list GridLine)
    (map : bool) (tickLen : Q) (w : World) :
  lngLines = [] \/ latLines = [] ->
  createGridLinesSource lngLines latLines = EMPTY_GEOSJON
  /\ createTickLinesSource env lngLines latLines map tickLen = EMPTY_GEOSJON
  /\ createLabelPointsSource env this lngLines latLines map tickLen w
     = (EMPTY_GEOSJON, w)
  /\ features EMPTY_GEOSJON = [].
Proof.
  intro H.
  assert (E : lngLines = [] \/ (exists l ls, lngLines = l :: ls) /\ latLines = []).
  { destruct H as [H|H]; [left; exact H|].
    destruct lngLines as [|l ls]; [left; reflexivity|].
    right. split; [exists l, ls; reflexivity | exact H]. }
  destruct E as [E|[(l & ls & E) E']]; subst; (split; [|split; [|split]]); reflexivity.
Qed.

Lemma sources_empty_without_both_axes_witness :
  createGridLinesSource [((120, 30), (120, 40)); ((125, 30), (125, 40))] []
  = EMPTY_GEOSJON
  /\ createTickLinesSource (example_env 0 0 1)
       [((120, 30), (120, 40)); ((125, 30), (125, 40))] [] true 5
     = EMPTY_GEOSJON
  /\ createLabelPointsSource (example_env 0 0 1)
       (new_layer (mkBounds 120 31 125 34) 5 "d")
       [((120, 30), (120, 40)); ((125, 30), (125, 40))] [] true 5 initial_world
     = (EMPTY_GEOSJON, initial_world)
  /\ features EMPTY_GEOSJON = [].
Proof.
  apply (sources_empty_without_both_axes (example_env 0 0 1)
           (new_layer (mkBounds 120 31 125 34) 5 "d")
           [((120, 30), (120, 40)); ((125, 30), (125, 40))] [] true 5 initial_world).
  right. reflexivity.
Defined.

(** A grid that has lines on one axis only does come out of [computeGrid]:
    the bounds [[120,31],[125,34]] with interval 5 hold the meridians 120 and
    125 and no parallel. *)
Example computeGrid_one_axis_only :
  computeGrid 2 (new_layer (mkBounds 120 31 125 34) 5 "d")
  = Normal (mkGrid [((120, 31), (120, 34)); ((125, 31), (125, 34))] []).
Proof. vm_compute. reflexivity. Qed.

(** *** Ticks *)

Lemma createTickLine_segment (env : Env) (p : Position) (v : Q * Q) (xAxis : bool) :
  createTickLine env p v xAxis = tick_segment env p v.
Proof.
  unfold createTickLine, tick_segment.
  destruct xAxis; destruct (unproject env _); reflexivity.
Qed.

(** What [vec2.rotate] about the origin gives for the two base vectors. *)
Lemma lngOffset_components (env : Env) (t : Q) :
  vec_eq (lngOffset env t)
         (- (t * Math_sin env (bearing_rad env)), t * Math_cos env (bearing_rad env)).
Proof. unfold vec_eq, lngOffset, vec2_rotate. simpl. split; ring. Qed.

Lemma latOffset_components (env : Env) (t : Q) :
  vec_eq (latOffset env t)
         (t * Math_cos env (bearing_rad env), t * Math_sin env (bearing_rad env)).
Proof. unfold vec_eq, latOffset, vec2_rotate. simpl. split; ring. Qed.

(** C7, as stated, fails.  At a bearing whose sine is 3/5 and cosine 4/5
    (about 36.87 degrees) and tick length 5, the base vector [0, 5] rotated
    by the bearing is [-3, 4]; the tick at the south end of the meridian
    from [0, 0] to [0, 10] goes by [3, 4], which is neither that vector nor
    its negation. *)
Lemma createTickLinesSource_rotation_counterexample :
  reduce_vec
    (vec2_rotate (example_env (3687 # 100) (3 # 5) (4 # 5)) (0, 5) (0, 0)
                 (bearing_rad (example_env (3687 # 100) (3 # 5) (4 # 5))))
  = (- (3), 4)
  /\ List.map reduce_feature
       (features
          (createTickLinesSource (example_env (3687 # 100) (3 # 5) (4 # 5))
             [((0, 0), (0, 10))] [((0, 0), (10, 0))] true 5))
     = [lineFeature [(0, 0); (3, 4)];
        lineFeature [(0, 10); (- (3), 6)];
        lineFeature [(0, 0); (- (4), 3)];
        lineFeature [(10, 0); (14, - (3))]]
  /\ ~ vec_eq (3, 4) (0 + - (3), 0 + 4)
  /\ ~ vec_eq (3, 4) (0 - - (3), 0 - 4).
Proof.
  split; [vm_compute; reflexivity|].
  split; [vm_compute; reflexivity|].
  split; intros [H1 H2]; vm_compute in H1, H2; discriminate.
Qed.

(** C7, amended.  With lines on both axes, a map, and [t] the tick length
    (5 when the configured length is 0), let [r] be [0, t] and [s] be
    [t, 0], each rotated by the bearing with [vec2.rotate].  The source
    holds, for every longitude line in order, the segment from its south end
    by [-r.x, r.y] and the segment from its north end by [r.x, -r.y], then
    for every latitude line the segment from its west end by [-s.x, s.y] and
    the segment from its east end by [s.x, -s.y]; each segment is
    [endpoint, unproject(project(endpoint) + v)].  The two offsets of a line
    are negations of each other, and in terms of the sine and cosine of the
    bearing they are [t sin, t cos] at the south end and [t cos, -t sin] at
    the east end: the rotated vector with its x component mirrored. *)
Theorem createTickLinesSource_ticks
    (env : Env) (lngLines latLines : list GridLine) (tickLen : Q) :
  lngLines <> [] ->
  latLines <> [] ->
  let t := Num.or_default tickLen 5 in
  let r := vec2_rotate env (0, t) (0, 0) (bearing_rad env) in
  let s := vec2_rotate env (t, 0) (0, 0) (bearing_rad env) in
  let sine := Math_sin env (getBearing env * Math_PI env / 180) in
  let cosine := Math_cos env (getBearing env * Math_PI env / 180) in
  features (createTickLinesSource env lngLines latLines true tickLen)
  = flat_map (fun item =>
                [tick_segment env (item0 item) (- fst r, snd r);
                 tick_segment env (item1 item) (fst r, - snd r)]) lngLines
    ++ flat_map (fun item =>
                   [tick_segment env (item0 item) (- fst s, snd s);
                    tick_segment env (item1 item) (fst s, - snd s)]) latLines
  /\ vec_eq (fst r, - snd r) (negated (- fst r, snd r))
  /\ vec_eq (fst s, - snd s) (negated (- fst s, snd s))
  /\ vec_eq (- fst r, snd r) (t * sine, t * cosine)
  /\ vec_eq (fst s, - snd s) (t * cosine, - (t * sine))
  /\ (~ tickLen == 0 -> t = tickLen)
  /\ (tickLen == 0 -> t = 5).
Proof.
  intros Hlng Hlat. cbv zeta.
  split; [|split; [|split; [|split; [|split; [|split]]]]].
  - destruct lngLines as [|l ls]; [contradiction|].
    destruct latLines as [|l' ls']; [contradiction|].
    unfold createTickLinesSource, lngOffset, latOffset. cbn [features].
    f_equal; apply flat_map_ext; intro item;
      rewrite !createTickLine_segment; reflexivity.
  - unfold vec_eq, negated, vec2_rotate; simpl; split; ring.
  - unfold vec_eq, negated, vec2_rotate; simpl; split; ring.
  - unfold vec_eq, vec2_rotate, bearing_rad; simpl; split; ring.
  - unfold vec_eq, vec2_rotate, bearing_rad; simpl; split; ring.
  - intro H. unfold Num.or_default, Num.is_zero.
    destruct (Qeq_bool tickLen 0) eqn:E; [|reflexivity].
    apply Qeq_bool_eq in E. contradiction.
  - intro H. unfold Num.or_default, Num.is_zero.
    rewrite (Qeq_eq_bool _ _ H). reflexivity.
Qed.

Lemma createTickLinesSource_ticks_witness :
  List.map reduce_feature
    (features
       (createTickLinesSource (example_env (3687 # 100) (3 # 5) (4 # 5))
          [((0, 0), (0, 10))] [((0, 0), (10, 0))] true 0))
  = [lineFeature [(0, 0); (3, 4)];
     lineFeature [(0, 10); (- (3), 6)];
     lineFeature [(0, 0); (- (4), 3)];
     lineFeature [(10, 0); (14, - (3))]].
Proof.
  destruct (createTickLinesSource_ticks (example_env (3687 # 100) (3 # 5) (4 # 5))
              [((0, 0), (0, 10))] [((0, 0), (10, 0))] 0) as (H & _).
  - discriminate.
  - discriminate.
  - rewrite H. vm_compute. reflexivity.
Defined.

(** ** uniqueId and the ids made from it *)

Lemma string_of_uint_digits (d : Decimal.uint) :
  all_digits (NilEmpty.string_of_uint d) = true.
Proof. induction d; simpl; try exact IHd; reflexivity. Qed.

Lemma numeral_suffix_digits (s : string) :
  all_digits s = true -> numeral_suffix s = s.
Proof.
  destruct s as [|c s]; [reflexivity|].
  intro H. unfold numeral_suffix. rewrite H. reflexivity.
Qed.

Lemma id_number_digits (n : N) : id_number (string_of_N n) = Some n.
Proof.
  unfold id_number, string_of_N.
  rewrite numeral_suffix_digits by apply string_of_uint_digits.
  rewrite NilEmpty.usu. simpl. rewrite DecimalN.Unsigned.of_to. reflexivity.
Qed.

(** The five prefixes of the source end in a code unit that is no digit. *)
Lemma id_number_prefixed (n : N) :
  id_number ("grid_" ++ string_of_N n) = Some n
  /\ id_number ("tick_" ++ string_of_N n) = Some n
  /\ id_number ("border_" ++ string_of_N n) = Some n
  /\ id_number ("label_" ++ string_of_N n) = Some n
  /\ id_number ("graticule-icon-" ++ string_of_N n) = Some n.
Proof.
  repeat split; unfold id_number; cbn -[NilEmpty.uint_of_string string_of_N];
    fold (id_number (string_of_N n)); apply id_number_digits.
Qed.

Lemma Nseq_lower (len : nat) :
  forall start x, In x (Nseq start len) -> (start <= x)%N.
Proof.
  induction len as [|len IH]; intros start x Hin; simpl in Hin; [contradiction|].
  destruct Hin as [<-|Hin]; [lia|].
  apply IH in Hin. lia.
Qed.

Lemma Nseq_NoDup (len : nat) : forall start, NoDup (Nseq start len).
Proof.
  induction len as [|len IH]; intro start; simpl; constructor; [|apply IH].
  intro Hin. apply Nseq_lower in Hin. lia.
Qed.

Lemma Nseq_app (a b : nat) :
  forall start,
    Nseq start (a + b) = Nseq start a ++ Nseq (start + N.of_nat a)%N b.
Proof.
  induction a as [|a IH]; intro start.
  - simpl. rewrite N.add_0_r. reflexivity.
  - cbn [Nat.add Nseq app]. rewrite IH. do 3 f_equal. lia.
Qed.

Lemma Nseq_sorted (len : nat) : forall start, StronglySorted N.lt (Nseq start len).
Proof.
  induction len as [|len IH]; intro start; simpl; constructor; [apply IH|].
  apply Forall_forall. intros x Hin. apply Nseq_lower in Hin. lia.
Qed.

Lemma Nseq_seq (len : nat) :
  forall s : nat, Nseq (N.of_nat s) len = List.map N.of_nat (seq s len).
Proof.
  induction len as [|len IH]; intro s; simpl; [reflexivity|].
  f_equal. rewrite <- Nat2N.inj_succ. apply IH.
Qed.

(** [uniqueId] hands out the counter and moves it on by one. *)
Lemma uniqueIds_Nseq (k : nat) :
  forall w,
    fst (uniqueIds k w) = Nseq (id w) k
    /\ id (snd (uniqueIds k w)) = (id w + N.of_nat k)%N
    /\ the_map (snd (uniqueIds k w)) = the_map w.
Proof.
  induction k as [|k IH]; intro w.
  - simpl. rewrite N.add_0_r. repeat split.
  - specialize (IH (mkWorld (N.succ (id w)) (the_map w))).
    cbn [uniqueIds]. unfold uniqueId. cbv iota beta.
    destruct (uniqueIds k (mkWorld (N.succ (id w)) (the_map w))) as [ns w2].
    cbn [fst snd id the_map Nseq] in *. destruct IH as (H1 & H2 & H3).
    rewrite H1, H2, H3. repeat split. lia.
Qed.

(** What a call hands out carries the counter values it took, in order. *)
Lemma issue_numbers (c : Call) (w : World) :
  List.map id_number (fst (issue c w))
  = List.map Some (Nseq (id w) (List.length (fst (issue c w))))
  /\ id (snd (issue c w)) = (id w + N.of_nat (List.length (fst (issue c w))))%N.
Proof.
  destruct c as [|this]; unfold issue.
  - unfold makeIconId, uniqueId. cbn [fst snd id List.map List.length Nseq].
    split; [|lia]. f_equal. apply id_number_prefixed.
  - unfold initLayersId. destruct (_layerIDs this) eqn:E.
    + cbn [fst snd List.map List.length Nseq]. split; [reflexivity | lia].
    + unfold uniqueId. cbn [fst snd id the_map set_layerIDs _layerIDs
                              grid tick border label List.map List.length Nseq].
      split; [|lia].
      repeat (f_equal; [apply id_number_prefixed|]).
      f_equal. apply id_number_prefixed.
Qed.

Lemma run_calls_numbers (cs : list Call) :
  forall w,
    List.map id_number (fst (run_calls cs w))
    = List.map Some (Nseq (id w) (List.length (fst (run_calls cs w))))
    /\ id (snd (run_calls cs w))
       = (id w + N.of_nat (List.length (fst (run_calls cs w))))%N.
Proof.
  induction cs as [|c cs IH]; intro w.
  - simpl. rewrite N.add_0_r. split; reflexivity.
  - cbn [run_calls].
    destruct (issue c w) as [issued w1] eqn:Ei.
    destruct (run_calls cs w1) as [rest w2] eqn:Er.
    destruct (issue_numbers c w) as [H1 H2]. rewrite Ei in H1, H2.
    destruct (IH w1) as [H3 H4]. rewrite Er in H3, H4.
    cbn [fst snd] in *.
    rewrite map_app, length_app, Nseq_app, map_app, H1, H3, H4, H2.
    split; [reflexivity | lia].
Qed.

Lemma NoDup_of_map {A B : Type} (f : A -> B) (l : list A) :
  NoDup (List.map f l) -> NoDup l.
Proof.
  induction l as [|a l IH]; intro H; [constructor|].
  simpl in H. inversion H as [|? ? Hnotin Hnodup]; subst.
  constructor; [|apply IH; exact Hnodup].
  intro Hin. apply Hnotin. apply in_map. exact Hin.
Qed.

Lemma NoDup_map_Some {A : Type} (l : list A) : NoDup l -> NoDup (List.map Some l).
Proof.
  induction 1 as [|a l Hnotin _ IH]; simpl; constructor; [|exact IH].
  intro Hin. apply in_map_iff in Hin. destruct Hin as (x & Hx & Hin).
  inversion Hx; subst. contradiction.
Qed.

(** Every id a sequence of calls hands out differs from the ones before. *)
Lemma run_calls_NoDup (cs : list Call) (w : World) : NoDup (fst (run_calls cs w)).
Proof.
  apply (NoDup_of_map id_number).
  rewrite (proj1 (run_calls_numbers cs w)).
  apply NoDup_map_Some, Nseq_NoDup.
Qed.

(** The four ids of a layer that had none. *)
Lemma initLayersId_distinct (this : GraticuleLayer) (w : World) :
  _layerIDs this = None ->
  exists ids : LayerIDs,
    _layerIDs (fst (initLayersId this w)) = Some ids
    /\ NoDup [grid ids; tick ids; border ids; label ids]
    /\ the_map (snd (initLayersId this w)) = the_map w.
Proof.
  intro Hnone.
  assert (Hrun := run_calls_NoDup [CallInitLayersId this] w).
  cbn [run_calls issue] in Hrun. rewrite Hnone in Hrun.
  unfold initLayersId in *. rewrite Hnone in *.
  unfold uniqueId in *. cbn [fst snd id the_map set_layerIDs _layerIDs] in *.
  eexists. split; [reflexivity|]. split; [|reflexivity].
  cbn [grid tick border label]. rewrite List.app_nil_r in Hrun. exact Hrun.
Qed.

(** C10.  [uniqueId] returns 1, 2, 3, ... from the start of the process,
    each call one more than the one before, and nothing sets the counter
    back; the four ids [initLayersId] makes for a layer are pairwise
    distinct; and in any sequence of the calls that make ids ([makeIconId]
    and [initLayersId]) from the start of the process on, every id handed
    out differs from all ids handed out before it. *)
Theorem uniqueId_ids_distinct :
  (forall (k : nat) (m : Map),
      fst (uniqueIds k (mkWorld initial_id m)) = List.map N.of_nat (seq 1 k)
      /\ StronglySorted N.lt (fst (uniqueIds k (mkWorld initial_id m))))
  /\ (forall w : World, fst (uniqueId w) = id w
                        /\ id (snd (uniqueId w)) = N.succ (id w))
  /\ (forall (c : Call) (w : World), (id w <= id (snd (issue c w)))%N)
  /\ (forall (this : GraticuleLayer) (w : World),
         _layerIDs this = None ->
         exists ids : LayerIDs,
           _layerIDs (fst (initLayersId this w)) = Some ids
           /\ NoDup [grid ids; tick ids; border ids; label ids])
  /\ (forall (cs : list Call) (w : World), NoDup (fst (run_calls cs w))).
Proof.
  split; [|split; [|split; [|split]]].
  - intros k m. destruct (uniqueIds_Nseq k (mkWorld initial_id m)) as (H & _).
    rewrite H. cbn [id]. split; [|apply Nseq_sorted].
    apply (Nseq_seq k 1).
  - intro w. split; reflexivity.
  - intros c w. rewrite (proj2 (issue_numbers c w)). lia.
  - intros this w Hnone.
    destruct (initLayersId_distinct this w Hnone) as (ids & H1 & H2 & _).
    exists ids. split; assumption.
  - exact run_calls_NoDup.
Qed.

Lemma uniqueId_ids_distinct_witness :
  NoDup (fst (run_calls [CallInitLayersId session_layer; CallMakeIconId;
                         CallMakeIconId] initial_world))
  /\ fst (run_calls [CallInitLayersId session_layer; CallMakeIconId;
                     CallMakeIconId] initial_world)
     = ["grid_1"; "tick_2"; "border_3"; "label_4";
        "graticule-icon-5"; "graticule-icon-6"]%string.
Proof.
  split; [|vm_compute; reflexivity].
  apply uniqueId_ids_distinct.
Defined.

(** ** Registries keyed by strings *)

Section Registry.

Variable A : Type.
Variable key : A -> string.

Lemma find_none_count (i : string) (l : list A) :
  find (fun e => String.eqb (key e) i) l = None
  <-> List.length (filter (fun e => String.eqb (key e) i) l) = 0%nat.
Proof.
  induction l as [|a l IH]; simpl; [tauto|].
  destruct (String.eqb (key a) i); simpl; [|exact IH].
  split; discriminate.
Qed.

Lemma count_app (i : string) (l l' : list A) :
  List.length (filter (fun e => String.eqb (key e) i) (l ++ l'))
  = (List.length (filter (fun e => String.eqb (key e) i) l)
     + List.length (filter (fun e => String.eqb (key e) i) l'))%nat.
Proof. rewrite filter_app, length_app. reflexivity. Qed.

Lemma count_removed (i : string) (l : list A) :
  List.length
    (filter (fun e => String.eqb (key e) i)
       (filter (fun e => negb (String.eqb (key e) i)) l)) = 0%nat.
Proof.
  induction l as [|a l IH]; simpl; [reflexivity|].
  destruct (String.eqb (key a) i) eqn:E; simpl; [exact IH|].
  rewrite E. exact IH.
Qed.

Lemma filter_removed_other (i j : string) (l : list A) :
  i <> j ->
  filter (fun e => String.eqb (key e) j)
    (filter (fun e => negb (String.eqb (key e) i)) l)
  = filter (fun e => String.eqb (key e) j) l.
Proof.
  intro Hij. induction l as [|a l IH]; simpl; [reflexivity|].
  destruct (String.eqb (key a) i) eqn:Ei; simpl.
  - apply String.eqb_eq in Ei.
    assert (Ej : String.eqb (key a) j = false).
    { apply String.eqb_neq. congruence. }
    rewrite Ej. exact IH.
  - destruct (String.eqb (key a) j); [f_equal|]; exact IH.
Qed.

Lemma find_removed_other (i j : string) (l : list A) :
  i <> j ->
  find (fun e => String.eqb (key e) j)
    (filter (fun e => negb (String.eqb (key e) i)) l)
  = find (fun e => String.eqb (key e) j) l.
Proof.
  intro Hij. induction l as [|a l IH]; simpl; [reflexivity|].
  destruct (String.eqb (key a) i) eqn:Ei; simpl.
  - apply String.eqb_eq in Ei.
    assert (Ej : String.eqb (key a) j = false).
    { apply String.eqb_neq. congruence. }
    rewrite Ej. exact IH.
  - destruct (String.eqb (key a) j); [reflexivity | exact IH].
Qed.

Lemma find_app_other (i : string) (l : list A) (a : A) :
  String.eqb (key a) i = false ->
  find (fun e => String.eqb (key e) i) (l ++ [a])
  = find (fun e => String.eqb (key e) i) l.
Proof.
  intro Ha. induction l as [|b l IH]; simpl.
  - rewrite Ha. reflexivity.
  - destruct (String.eqb (key b) i); [reflexivity | exact IH].
Qed.

Lemma find_app_new (i : string) (l : list A) (a : A) :
  find (fun e => String.eqb (key e) i) l = None ->
  String.eqb (key a) i = true ->
  find (fun e => String.eqb (key e) i) (l ++ [a]) = Some a.
Proof.
  intros Hl Ha. induction l as [|b l IH]; simpl in *.
  - rewrite Ha. reflexivity.
  - destruct (String.eqb (key b) i); [discriminate | exact (IH Hl)].
Qed.

End Registry.

(** ** The host registries under [addLayers] *)

Lemma set_first_count (i j : string) (data : FeatureCollection)
    (l : list (string * FeatureCollection)) :
  List.length (filter (fun e => String.eqb (fst e) j) (Host.set_first i data l))
  = List.length (filter (fun e => String.eqb (fst e) j) l).
Proof.
  induction l as [|e l IH]; simpl; [reflexivity|].
  destruct (String.eqb (fst e) i); simpl.
  - destruct (String.eqb (fst e) j); reflexivity.
  - destruct (String.eqb (fst e) j); simpl; rewrite IH; reflexivity.
Qed.

Lemma set_first_find_same (i : string) (data : FeatureCollection)
    (l : list (string * FeatureCollection)) :
  find (fun e => String.eqb (fst e) i) l <> None ->
  option_map snd (find (fun e => String.eqb (fst e) i) (Host.set_first i data l))
  = Some data.
Proof.
  induction l as [|e l IH]; simpl; [congruence|].
  destruct (String.eqb (fst e) i) eqn:E; simpl.
  - rewrite E. reflexivity.
  - rewrite E. exact IH.
Qed.

Lemma set_first_find_other (i j : string) (data : FeatureCollection)
    (l : list (string * FeatureCollection)) :
  i <> j ->
  option_map snd (find (fun e => String.eqb (fst e) j) (Host.set_first i data l))
  = option_map snd (find (fun e => String.eqb (fst e) j) l).
Proof.
  intro Hij. induction l as [|e l IH]; simpl; [reflexivity|].
  destruct (String.eqb (fst e) i) eqn:E; simpl.
  - apply String.eqb_eq in E.
    assert (Ej : String.eqb (fst e) j = false) by (apply String.eqb_neq; congruence).
    rewrite Ej. reflexivity.
  - destruct (String.eqb (fst e) j); [reflexivity | exact IH].
Qed.

Lemma getSource_find (i : string) (m : Map) :
  Host.getSource i m
  = option_map snd (find (fun e => String.eqb (fst e) i) (map_sources m)).
Proof. unfold Host.getSource. destruct (find _ _); reflexivity. Qed.

Lemma getSource_none_count (i : string) (m : Map) :
  Host.getSource i m = None <-> Host.count_sources i m = 0%nat.
Proof.
  rewrite getSource_find. unfold Host.count_sources.
  rewrite <- (find_none_count _ fst).
  destruct (find _ _); simpl; split; congruence.
Qed.

Lemma getLayer_none_count (i : string) (m : Map) :
  Host.getLayer i m = None <-> Host.count_layers i m = 0%nat.
Proof. apply (find_none_count _ layer_id). Qed.

(** The block of a sub-layer leaves one source and one layer under its id
    when the flag is set and none when it is clear. *)
Lemma put_layer_same (on : bool) (i : string) (data : FeatureCollection)
    (layer : LayerDescriptor) (m : Map) :
  layer_id layer = i ->
  (Host.count_sources i m <= 1)%nat ->
  (Host.count_layers i m <= 1)%nat ->
  Host.count_sources i (put_layer on i data layer m) = (if on then 1 else 0)%nat
  /\ Host.count_layers i (put_layer on i data layer m) = (if on then 1 else 0)%nat
  /\ Host.getSource i (put_layer on i data layer m)
     = if on then Some data else None.
Proof.
  intros Hid Hs Hl. destruct on; unfold put_layer.
  - unfold show_layer.
    assert (Hsrc :
      let m1 := match Host.getSource i m with
                | Some _ => Host.setData i data m
                | None => Host.addSource i data m
                end in
      Host.count_sources i m1 = 1%nat
      /\ Host.getSource i m1 = Some data
      /\ map_layers m1 = map_layers m).
    { cbv zeta. destruct (Host.getSource i m) eqn:E.
      - assert (Hc : Host.count_sources i m <> 0%nat).
        { intro H0. apply getSource_none_count in H0. congruence. }
        split; [|split; [|reflexivity]].
        + unfold Host.count_sources, Host.setData in *. cbn [map_sources].
          rewrite set_first_count. lia.
        + rewrite getSource_find. unfold Host.setData. cbn [map_sources].
          apply set_first_find_same. rewrite getSource_find in E.
          destruct (find _ _); [discriminate | discriminate].
      - split; [|split; [|reflexivity]].
        + apply getSource_none_count in E.
          unfold Host.count_sources, Host.addSource in *. cbn [map_sources].
          rewrite (count_app _ fst). rewrite E. simpl.
          rewrite String.eqb_refl. reflexivity.
        + rewrite getSource_find in *. unfold Host.addSource. cbn [map_sources].
          rewrite (find_app_new _ fst i _ (i, data)).
          * reflexivity.
          * destruct (find _ _); [discriminate | reflexivity].
          * apply String.eqb_refl. }
    cbv zeta in Hsrc.
    set (m1 := match Host.getSource i m with
               | Some _ => Host.setData i data m
               | None => Host.addSource i data m
               end) in *.
    destruct Hsrc as (Hc1 & Hg1 & Hl1).
    destruct (Host.getLayer i m1) eqn:E.
    + split; [exact Hc1|]. split; [|exact Hg1].
      assert (Hc : Host.count_layers i m1 <> 0%nat).
      { intro H0. apply getLayer_none_count in H0. congruence. }
      unfold Host.count_layers in *. rewrite Hl1 in *. lia.
    + split; [exact Hc1|]. split; [|exact Hg1].
      apply getLayer_none_count in E.
      unfold Host.count_layers, Host.addLayer in *. cbn [map_layers].
      rewrite (count_app _ layer_id). rewrite E. simpl.
      rewrite Hid, String.eqb_refl. reflexivity.
  - unfold hide_layer.
    assert (Hsrc :
      let m1 := match Host.getSource i m with
                | Some _ => Host.removeSource i m
                | None => m
                end in
      Host.count_sources i m1 = 0%nat).
    { cbv zeta. destruct (Host.getSource i m) eqn:E.
      - unfold Host.count_sources, Host.removeSource. cbn [map_sources].
        apply (count_removed _ fst).
      - apply getSource_none_count. exact E. }
    cbv zeta in Hsrc.
    set (m1 := match Host.getSource i m with
               | Some _ => Host.removeSource i m
               | None => m
               end) in *.
    destruct (Host.getLayer i m1) eqn:E.
    + split; [exact Hsrc|]. split.
      * unfold Host.count_layers, Host.removeLayer. cbn [map_layers].
        apply (count_removed _ layer_id).
      * apply getSource_none_count. exact Hsrc.
    + split; [exact Hsrc|]. split.
      * apply getLayer_none_count. exact E.
      * apply getSource_none_count. exact Hsrc.
Qed.

(** ... and leaves every other id as it was. *)
Lemma put_layer_other (on : bool) (i j : string) (data : FeatureCollection)
    (layer : LayerDescriptor) (m : Map) :
  layer_id layer = i ->
  i <> j ->
  Host.count_sources j (put_layer on i data layer m) = Host.count_sources j m
  /\ Host.count_layers j (put_layer on i data layer m) = Host.count_layers j m
  /\ Host.getSource j (put_layer on i data layer m) = Host.getSource j m.
Proof.
  intros Hid Hij.
  assert (Hneq : String.eqb i j = false) by (apply String.eqb_neq; exact Hij).
  destruct on; unfold put_layer.
  - unfold show_layer.
    set (m1 := match Host.getSource i m with
               | Some _ => Host.setData i data m
               | None => Host.addSource i data m
               end).
    assert (H1 : Host.count_sources j m1 = Host.count_sources j m
                 /\ Host.count_layers j m1 = Host.count_layers j m
                 /\ Host.getSource j m1 = Host.getSource j m).
    { subst m1. destruct (Host.getSource i m).
      - split; [|split; [reflexivity|]].
        + unfold Host.count_sources, Host.setData. cbn [map_sources].
          apply set_first_count.
        + rewrite !getSource_find. unfold Host.setData. cbn [map_sources].
          apply set_first_find_other. exact Hij.
      - split; [|split; [reflexivity|]].
        + unfold Host.count_sources, Host.addSource. cbn [map_sources].
          rewrite (count_app _ fst). simpl. rewrite Hneq. simpl. lia.
        + rewrite !getSource_find. unfold Host.addSource. cbn [map_sources].
          rewrite (find_app_other _ fst); [reflexivity | exact Hneq]. }
    destruct H1 as (Hs & Hl & Hg).
    destruct (Host.getLayer i m1); [repeat split; assumption|].
    split; [exact Hs|]. split; [|exact Hg].
    rewrite <- Hl. unfold Host.count_layers, Host.addLayer. cbn [map_layers].
    rewrite (count_app _ layer_id). simpl. rewrite Hid, Hneq. simpl. lia.
  - unfold hide_layer.
    set (m1 := match Host.getSource i m with
               | Some _ => Host.removeSource i m
               | None => m
               end).
    assert (H1 : Host.count_sources j m1 = Host.count_sources j m
                 /\ Host.count_layers j m1 = Host.count_layers j m
                 /\ Host.getSource j m1 = Host.getSource j m).
    { subst m1. destruct (Host.getSource i m); [|repeat split].
      split; [|split; [reflexivity|]].
      - unfold Host.count_sources, Host.removeSource. cbn [map_sources].
        rewrite (filter_removed_other _ fst); [reflexivity | exact Hij].
      - rewrite !getSource_find. unfold Host.removeSource. cbn [map_sources].
        rewrite (find_removed_other _ fst); [reflexivity | exact Hij]. }
    destruct H1 as (Hs & Hl & Hg).
    destruct (Host.getLayer i m1); [|repeat split; assumption].
    split; [exact Hs|]. split; [|exact Hg].
    rewrite <- Hl. unfold Host.count_layers, Host.removeLayer. cbn [map_layers].
    rewrite (filter_removed_other _ layer_id); [reflexivity | exact Hij].
Qed.

Lemma put_layer_keyed (on : bool) (i : string) (data : FeatureCollection)
    (layer : LayerDescriptor) (m : Map) :
  layer_id layer = i -> keyed m -> keyed (put_layer on i data layer m).
Proof.
  intros Hid Hk j. destruct (String.eqb i j) eqn:E.
  - apply String.eqb_eq in E. subst j.
    destruct (put_layer_same on i data layer m Hid
                (proj1 (Hk i)) (proj2 (Hk i))) as (Hs & Hl & _).
    rewrite Hs, Hl. destruct on; lia.
  - apply String.eqb_neq in E.
    destruct (put_layer_other on i j data layer m Hid E) as (Hs & Hl & _).
    rewrite Hs, Hl. apply Hk.
Qed.

(** *** Labels *)

Lemma createPoint_registry (env : Env) (this : GraticuleLayer)
    (p : Position) (v : Q * Q) (xAxis : bool) (anchor : string) (w : World) :
  map_sources (the_map (snd (createPoint env this p v xAxis anchor w)))
  = map_sources (the_map w)
  /\ map_layers (the_map (snd (createPoint env this p v xAxis anchor w)))
     = map_layers (the_map w)
  /\ erase_icon (fst (createPoint env this p v xAxis anchor w))
     = erase_icon (fst (createPoint env this p v xAxis anchor initial_world))
  /\ id (snd (createPoint env this p v xAxis anchor w)) = N.succ (id w)
  /\ icons_of (mkCollection [fst (createPoint env this p v xAxis anchor w)])
     = [("graticule-icon-" ++ string_of_N (id w))%string].
Proof.
  unfold createPoint, makeIconId, uniqueId.
  destruct xAxis; cbn [id the_map];
    match goal with
    | |- context [Host.hasImage ?i ?m] => destruct (Host.hasImage i m)
    end; repeat split.
Qed.

Lemma icons_of_app (l l' : list Feature) :
  icons_of (mkCollection (l ++ l'))
  = icons_of (mkCollection l) ++ icons_of (mkCollection l').
Proof. unfold icons_of. cbn [features]. apply flat_map_app. Qed.

(** One turn of a [forEach] of the label source. *)
Lemma push_points_step (env : Env) (this : GraticuleLayer) (offset : Q * Q)
    (xAxis : bool) (a0 a1 : string) (acc : list Feature * World) (item : GridLine) :
  let r := push_points env this offset xAxis a0 a1 acc item in
  map_sources (the_map (snd r)) = map_sources (the_map (snd acc))
  /\ map_layers (the_map (snd r)) = map_layers (the_map (snd acc))
  /\ id (snd r) = N.succ (N.succ (id (snd acc)))
  /\ icons_of (mkCollection (fst r))
     = icons_of (mkCollection (fst acc))
       ++ [icon_id (id (snd acc)); icon_id (N.succ (id (snd acc)))]
  /\ (forall acc' : list Feature * World,
         List.map erase_icon (fst acc) = List.map erase_icon (fst acc') ->
         List.map erase_icon (fst r)
         = List.map erase_icon
             (fst (push_points env this offset xAxis a0 a1 acc' item))).
Proof.
  destruct acc as [fs w]. cbv zeta. unfold push_points.
  destruct (createPoint env this (item0 item) (- fst offset, snd offset) xAxis a0 w)
    as [f0 w0] eqn:E0.
  destruct (createPoint env this (item1 item) (fst offset, - snd offset) xAxis a1 w0)
    as [f1 w1] eqn:E1.
  destruct (createPoint_registry env this (item0 item) (- fst offset, snd offset)
              xAxis a0 w) as (Hs0 & Hl0 & He0 & Hi0 & Hc0).
  destruct (createPoint_registry env this (item1 item) (fst offset, - snd offset)
              xAxis a1 w0) as (Hs1 & Hl1 & He1 & Hi1 & Hc1).
  rewrite E0 in *. rewrite E1 in *. cbn [fst snd] in *.
  split; [congruence|]. split; [congruence|]. split; [congruence|]. split.
  - rewrite icons_of_app. f_equal.
    change [f0; f1] with ([f0] ++ [f1]). rewrite icons_of_app, Hc0, Hc1, Hi0.
    reflexivity.
  - intros [fs' w'] Hacc. cbn [fst] in *.
    destruct (createPoint env this (item0 item) (- fst offset, snd offset) xAxis a0 w')
      as [f0' w0'] eqn:E0'.
    destruct (createPoint env this (item1 item) (fst offset, - snd offset) xAxis a1 w0')
      as [f1' w1'] eqn:E1'.
    destruct (createPoint_registry env this (item0 item) (- fst offset, snd offset)
                xAxis a0 w') as (_ & _ & He0' & _).
    destruct (createPoint_registry env this (item1 item) (fst offset, - snd offset)
                xAxis a1 w0') as (_ & _ & He1' & _).
    rewrite E0' in *. rewrite E1' in *. cbn [fst snd] in *.
    rewrite !map_app, Hacc. cbn [List.map]. congruence.
Qed.

Lemma Nseq_succ2 (n : N) (len : nat) :
  Nseq n (2 * S len) = n :: N.succ n :: Nseq (N.succ (N.succ n)) (2 * len).
Proof.
  replace (2 * S len)%nat with (S (S (2 * len))) by lia. reflexivity.
Qed.

(** A whole [forEach] of the label source. *)
Lemma push_points_fold (env : Env) (this : GraticuleLayer) (offset : Q * Q)
    (xAxis : bool) (a0 a1 : string) (items : list GridLine) :
  forall acc : list Feature * World,
    let r := fold_left (push_points env this offset xAxis a0 a1) items acc in
    map_sources (the_map (snd r)) = map_sources (the_map (snd acc))
    /\ map_layers (the_map (snd r)) = map_layers (the_map (snd acc))
    /\ id (snd r) = (id (snd acc) + N.of_nat (2 * List.length items))%N
    /\ icons_of (mkCollection (fst r))
       = icons_of (mkCollection (fst acc))
         ++ List.map icon_id (Nseq (id (snd acc)) (2 * List.length items))
    /\ (forall acc' : list Feature * World,
           List.map erase_icon (fst acc) = List.map erase_icon (fst acc') ->
           List.map erase_icon (fst r)
           = List.map erase_icon
               (fst (fold_left (push_points env this offset xAxis a0 a1) items acc'))).
Proof.
  induction items as [|item items IH]; intro acc; cbv zeta.
  - cbn [fold_left List.length Nat.mul Nseq List.map].
    rewrite N.add_0_r, List.app_nil_r. repeat split. intros acc' H. exact H.
  - cbn [fold_left].
    destruct (push_points_step env this offset xAxis a0 a1 acc item)
      as (Hs & Hl & Hi & Hc & He).
    destruct (IH (push_points env this offset xAxis a0 a1 acc item))
      as (Hs' & Hl' & Hi' & Hc' & He').
    split; [congruence|]. split; [congruence|]. split; [|split].
    + rewrite Hi', Hi. cbn [List.length]. lia.
    + rewrite Hc', Hc, Hi. cbn [List.length]. rewrite Nseq_succ2.
      rewrite <- List.app_assoc. reflexivity.
    + intros acc' Hacc. apply He'. apply He. exact Hacc.
Qed.

(** The label source changes neither sources nor layers; its features are
    the same from any state of the process but for the icon ids, which are
    the next counter values. *)
Lemma createLabelPointsSource_facts (env : Env) (this : GraticuleLayer)
    (lngLines latLines : list GridLine) (map : bool) (tickLen : Q) (w : World) :
  let r := createLabelPointsSource env this lngLines latLines map tickLen w in
  map_sources (the_map (snd r)) = map_sources (the_map w)
  /\ map_layers (the_map (snd r)) = map_layers (the_map w)
  /\ id (snd r) = (id w + N.of_nat (List.length (icons_of (fst r))))%N
  /\ icons_of (fst r) = List.map icon_id (Nseq (id w) (List.length (icons_of (fst r))))
  /\ (forall w' : World,
         without_icons (fst r)
         = without_icons
             (fst (createLabelPointsSource env this lngLines latLines map tickLen w'))).
Proof.
  cbv zeta. unfold createLabelPointsSource.
  assert (Hempty :
    map_sources (the_map (snd (EMPTY_GEOSJON, w))) = map_sources (the_map w)
    /\ map_layers (the_map (snd (EMPTY_GEOSJON, w))) = map_layers (the_map w)
    /\ id (snd (EMPTY_GEOSJON, w))
       = (id w + N.of_nat (List.length (icons_of (fst (EMPTY_GEOSJON, w)))))%N
    /\ icons_of (fst (EMPTY_GEOSJON, w))
       = List.map icon_id
           (Nseq (id w) (List.length (icons_of (fst (EMPTY_GEOSJON, w)))))
    /\ (forall w' : World,
           without_icons (fst (EMPTY_GEOSJON, w))
           = without_icons (fst (EMPTY_GEOSJON, w')))).
  { cbn [fst snd]. split; [reflexivity|]. split; [reflexivity|].
    split; [cbn; lia|]. split; [reflexivity|]. intro w'. reflexivity. }
  destruct lngLines as [|l ls]; [exact Hempty|].
  destruct latLines as [|l' ls']; [exact Hempty|].
  destruct map; [|exact Hempty]. clear Hempty.
  set (t := Num.or_default tickLen 5).
  set (f1 := push_points env this (lngOffset env t) false "top" "bottom").
  set (f2 := push_points env this (latOffset env t) true "bottom" "top").
  destruct (push_points_fold env this (lngOffset env t) false "top" "bottom"
              (l :: ls) ([], w)) as (Hs1 & Hl1 & Hi1 & Hc1 & He1).
  fold f1 in Hs1, Hl1, Hi1, Hc1, He1.
  destruct (push_points_fold env this (latOffset env t) true "bottom" "top"
              (l' :: ls') (fold_left f1 (l :: ls) ([], w)))
    as (Hs2 & Hl2 & Hi2 & Hc2 & He2).
  fold f2 in Hs2, Hl2, Hi2, Hc2, He2.
  destruct (fold_left f2 (l' :: ls') (fold_left f1 (l :: ls) ([], w)))
    as [fs w2] eqn:E.
  cbn [fst snd] in *.
  assert (Hlen : forall s n, List.length (Nseq s n) = n).
  { intros s n. revert s. induction n; intro s; simpl; [|rewrite IHn]; reflexivity. }
  assert (Hicons : icons_of {| features := fs |}
                   = List.map icon_id
                       (Nseq (id w) (2 * List.length (l :: ls)
                                     + 2 * List.length (l' :: ls')))).
  { rewrite Hc2, Hc1, Hi1. cbn [icons_of features flat_map app].
    rewrite <- map_app, <- Nseq_app. reflexivity. }
  split; [congruence|]. split; [congruence|]. split; [|split].
  - rewrite Hicons, length_map, Hlen, Hi2, Hi1. lia.
  - rewrite Hicons at 1. rewrite Hicons, length_map, Hlen. reflexivity.
  - intro w'. unfold without_icons.
    destruct (fold_left f2 (l' :: ls') (fold_left f1 (l :: ls) ([], w')))
      as [fs' w2'] eqn:E'.
    cbn [features fst].
    specialize (He2 (fold_left f1 (l :: ls) ([], w'))).
    rewrite E' in He2. apply He2. apply He1. reflexivity.
Qed.

(** *** The four blocks of [addLayers] *)

Lemma createLayer_id (this : GraticuleLayer) (i type : string) (style : Style) :
  layer_id (createLayer this i type style) = i.
Proof.
  unfold createLayer.
  destruct (String.eqb type "line"); [|destruct (String.eqb type "symbol")];
    reflexivity.
Qed.

Lemma entry_put_same (on : bool) (i : string) (data : FeatureCollection)
    (layer : LayerDescriptor) (m : Map) :
  layer_id layer = i -> keyed m ->
  entry i (put_layer on i data layer m) = shown_entry on data.
Proof.
  intros Hid Hk.
  destruct (put_layer_same on i data layer m Hid (proj1 (Hk i)) (proj2 (Hk i)))
    as (Hs & Hl & Hg).
  unfold entry, shown_entry. rewrite Hs, Hl, Hg. destruct on; reflexivity.
Qed.

Lemma entry_put_other (on : bool) (i j : string) (data : FeatureCollection)
    (layer : LayerDescriptor) (m : Map) :
  layer_id layer = i -> i <> j ->
  entry j (put_layer on i data layer m) = entry j m.
Proof.
  intros Hid Hij.
  destruct (put_layer_other on i j data layer m Hid Hij) as (Hs & Hl & Hg).
  unfold entry. rewrite Hs, Hl, Hg. reflexivity.
Qed.

Lemma entry_same_registries (i : string) (m m' : Map) :
  map_sources m = map_sources m' -> map_layers m = map_layers m' ->
  entry i m = entry i m'.
Proof.
  intros Hs Hl.
  unfold entry, Host.count_sources, Host.count_layers, Host.getSource.
  rewrite Hs, Hl. reflexivity.
Qed.

Lemma keyed_same_registries (m m' : Map) :
  map_sources m = map_sources m' -> map_layers m = map_layers m' ->
  keyed m -> keyed m'.
Proof.
  intros Hs Hl Hk i. specialize (Hk i).
  unfold Host.count_sources, Host.count_layers in *.
  rewrite <- Hs, <- Hl. exact Hk.
Qed.

Lemma sync_layers_blocks (env : Env) (this : GraticuleLayer) (ids : LayerIDs)
    (lng lat : list GridLine) (w : World) :
  let mG := put_layer (showGrid this) (grid ids) (createGridLinesSource lng lat)
              (createLayer this (grid ids) "line" (Stroke (gridStyle this)))
              (the_map w) in
  let mT := put_layer (showTick this) (tick ids)
              (createTickLinesSource env lng lat (_map this) (tickLength this))
              (createLayer this (tick ids) "line" (Stroke (tickStyle this))) mG in
  let mB := put_layer (showBorder this) (border ids)
              (createBorderLinesSource (bounds this))
              (createLayer this (border ids) "line" (Stroke (borderStyle this))) mT in
  let labels := createLabelPointsSource env this lng lat (_map this)
                  (tickLength this) (mkWorld (id w) mB) in
  sync_layers env this ids lng lat w
  = mkWorld (if showLabel this then id (snd labels) else id w)
      (put_layer (showLabel this) (label ids) (fst labels)
         (createLayer this (label ids) "symbol" (Label (labelStyle this)))
         (if showLabel this then the_map (snd labels) else mB)).
Proof.
  cbv zeta. unfold sync_layers, put_layer, with_map.
  destruct (showGrid this), (showTick this), (showBorder this), (showLabel this);
    cbn [id the_map];
    try match goal with
        | |- context [createLabelPointsSource ?e ?t ?a ?b ?c ?d ?w] =>
            destruct (createLabelPointsSource e t a b c d w)
        end; reflexivity.
Qed.

(** After the four blocks every sub-layer is settled under its own id. *)
Lemma sync_layers_entries (env : Env) (this : GraticuleLayer) (ids : LayerIDs)
    (lng lat : list GridLine) (w : World) :
  NoDup [grid ids; tick ids; border ids; label ids] ->
  keyed (the_map w) ->
  exists wL : World,
    id wL = id w
    /\ keyed (the_map (sync_layers env this ids lng lat w))
    /\ entry (grid ids) (the_map (sync_layers env this ids lng lat w))
       = shown_entry (showGrid this) (createGridLinesSource lng lat)
    /\ entry (tick ids) (the_map (sync_layers env this ids lng lat w))
       = shown_entry (showTick this)
           (createTickLinesSource env lng lat (_map this) (tickLength this))
    /\ entry (border ids) (the_map (sync_layers env this ids lng lat w))
       = shown_entry (showBorder this) (createBorderLinesSource (bounds this))
    /\ entry (label ids) (the_map (sync_layers env this ids lng lat w))
       = shown_entry (showLabel this)
           (fst (createLabelPointsSource env this lng lat (_map this)
                   (tickLength this) wL))
    /\ id (sync_layers env this ids lng lat w)
       = if showLabel this
         then id (snd (createLabelPointsSource env this lng lat (_map this)
                         (tickLength this) wL))
         else id w.
Proof.
  intros Hnd Hk.
  assert (Hgt : grid ids <> tick ids /\ grid ids <> border ids
                /\ grid ids <> label ids /\ tick ids <> border ids
                /\ tick ids <> label ids /\ border ids <> label ids).
  { inversion Hnd as [|? ? H1 Hnd1]; subst.
    inversion Hnd1 as [|? ? H2 Hnd2]; subst.
    inversion Hnd2 as [|? ? H3 _]; subst.
    simpl in H1, H2, H3. repeat split; intro E; rewrite E in *; tauto. }
  destruct Hgt as (Hgt & Hgb & Hgl & Htb & Htl & Hbl).
  rewrite (sync_layers_blocks env this ids lng lat w). cbv zeta.
  set (LG := createLayer this (grid ids) "line" (Stroke (gridStyle this))).
  set (LT := createLayer this (tick ids) "line" (Stroke (tickStyle this))).
  set (LB := createLayer this (border ids) "line" (Stroke (borderStyle this))).
  set (LL := createLayer this (label ids) "symbol" (Label (labelStyle this))).
  set (dG := createGridLinesSource lng lat).
  set (dT := createTickLinesSource env lng lat (_map this) (tickLength this)).
  set (dB := createBorderLinesSource (bounds this)).
  set (mG := put_layer (showGrid this) (grid ids) dG LG (the_map w)).
  set (mT := put_layer (showTick this) (tick ids) dT LT mG).
  set (mB := put_layer (showBorder this) (border ids) dB LB mT).
  set (wL := mkWorld (id w) mB).
  set (labels := createLabelPointsSource env this lng lat (_map this)
                   (tickLength this) wL).
  set (mL := if showLabel this then the_map (snd labels) else mB).
  assert (HLG : layer_id LG = grid ids) by apply createLayer_id.
  assert (HLT : layer_id LT = tick ids) by apply createLayer_id.
  assert (HLB : layer_id LB = border ids) by apply createLayer_id.
  assert (HLL : layer_id LL = label ids) by apply createLayer_id.
  assert (HkG : keyed mG) by (apply put_layer_keyed; assumption).
  assert (HkT : keyed mT) by (apply put_layer_keyed; assumption).
  assert (HkB : keyed mB) by (apply put_layer_keyed; assumption).
  destruct (createLabelPointsSource_facts env this lng lat (_map this)
              (tickLength this) wL) as (Hs & Hl & _).
  fold labels in Hs, Hl. cbn [the_map wL] in Hs, Hl.
  assert (HmL : map_sources mL = map_sources mB /\ map_layers mL = map_layers mB).
  { subst mL. destruct (showLabel this); split; (assumption || reflexivity). }
  destruct HmL as [HmLs HmLl].
  assert (HkL : keyed mL).
  { apply (keyed_same_registries mB); [symmetry; exact HmLs | symmetry; exact HmLl | exact HkB]. }
  exists wL. cbn [the_map id].
  split; [reflexivity|].
  split; [apply put_layer_keyed; assumption|].
  split.
  { rewrite entry_put_other by (assumption || (intro E; apply Hgl; symmetry; exact E)).
    rewrite (entry_same_registries _ mL mB HmLs HmLl).
    unfold mB. rewrite entry_put_other by (assumption || (intro E; apply Hgb; symmetry; exact E)).
    unfold mT. rewrite entry_put_other by (assumption || (intro E; apply Hgt; symmetry; exact E)).
    apply entry_put_same; assumption. }
  split.
  { rewrite entry_put_other by (assumption || (intro E; apply Htl; symmetry; exact E)).
    rewrite (entry_same_registries _ mL mB HmLs HmLl).
    unfold mB. rewrite entry_put_other by (assumption || (intro E; apply Htb; symmetry; exact E)).
    apply entry_put_same; assumption. }
  split.
  { rewrite entry_put_other by (assumption || (intro E; apply Hbl; symmetry; exact E)).
    rewrite (entry_same_registries _ mL mB HmLs HmLl).
    apply entry_put_same; assumption. }
  split.
  { apply entry_put_same; assumption. }
  reflexivity.
Qed.



(** Attaching a layer that has no ids yet, on a map whose registries hold
    each id at most once, gives the state [update] is called in: the map is
    set, the four ids are there and distinct, and the registries still hold
    each id at most once. *)
Lemma addTo_attached (env : Env) (this : GraticuleLayer) (b : LngLatBounds)
    (fuel : nat) (w : World) :
  _layerIDs this = None ->
  bounds this = Some b ->
  intervalUnit this = "d"%string \/ intervalUnit this = "m"%string ->
  0 < interval this ->
  (line_count (getWest b * unit_scale (intervalUnit this))
              (getEast b * unit_scale (intervalUnit this)) (interval this)
   <= fuel)%nat ->
  (line_count (getSouth b * unit_scale (intervalUnit this))
              (getNorth b * unit_scale (intervalUnit this)) (interval this)
   <= fuel)%nat ->
  keyed (the_map w) ->
  exists ids : LayerIDs,
    outcome (addTo env fuel true this w) = Normal tt
    /\ self (addTo env fuel true this w)
       = set_layerIDs (set_map this true) (Some ids)
    /\ NoDup [grid ids; tick ids; border ids; label ids]
    /\ keyed (the_map (world (addTo env fuel true this w))).
Proof.
  intros Hnone Hb Hu Hi Hx Hy Hk.
  destruct (computeGrid_counts this b fuel Hb Hu Hi Hx Hy) as (g & Hg & _).
  destruct (initLayersId_distinct (set_map this true) w Hnone)
    as (ids & Hids & Hnd & Hmap).
  exists ids. unfold addTo, addLayers.
  change (computeGrid fuel (set_map this true)) with (computeGrid fuel this).
  rewrite Hg.
  destruct (initLayersId (set_map this true) w) as [this2 w2] eqn:E.
  cbn [fst snd] in Hids, Hmap.
  assert (Hthis2 : this2 = set_layerIDs (set_map this true) (Some ids)).
  { unfold initLayersId in E.
    change (_layerIDs (set_map this true)) with (_layerIDs this) in E.
    rewrite Hnone in E. unfold uniqueId in E. cbn [id the_map] in E.
    inversion E; subst. cbn [_layerIDs set_layerIDs] in Hids.
    inversion Hids; subst. reflexivity. }
  rewrite Hids.
  assert (Hm2 : _map this2 = true) by (rewrite Hthis2; reflexivity).
  rewrite Hm2. cbn [outcome self world].
  split; [reflexivity|]. split; [exact Hthis2|]. split; [exact Hnd|].
  destruct (sync_layers_entries env this2 ids (lngLines g) (latLines g) w2 Hnd)
    as (_ & _ & Hk2 & _).
  - rewrite Hmap. exact Hk.
  - exact Hk2.
Qed.




Lemma session_ids :
  _layerIDs (self session_attached)
  = Some (mkLayerIDs "grid_1" "tick_2" "border_3" "label_4")
  /\ _map (self session_attached) = true
  /\ outcome session_attached = Normal tt.
Proof. vm_compute. repeat split. Qed.









(** ** Ticks and labels together *)

Lemma createPoint_label_point (env : Env) (this : GraticuleLayer)
    (p : Position) (v : Q * Q) (xAxis : bool) (anchor : string) (w : World) :
  erase_icon (fst (createPoint env this p v xAxis anchor w))
  = label_point env this p v xAxis anchor.
Proof.
  unfold createPoint, label_point, makeIconId, uniqueId.
  destruct xAxis; cbn [id the_map negb];
    match goal with
    | |- context [Host.hasImage ?i ?m] => destruct (Host.hasImage i m)
    end;
    cbn [fst erase_icon properties geometry prop_label prop_rotate prop_anchor];
    destruct (unproject env _); reflexivity.
Qed.

Lemma push_points_labels (env : Env) (this : GraticuleLayer) (offset : Q * Q)
    (xAxis : bool) (a0 a1 : string) (items : list GridLine) :
  forall acc : list Feature * World,
    List.map erase_icon
      (fst (fold_left (push_points env this offset xAxis a0 a1) items acc))
    = List.map erase_icon (fst acc)
      ++ flat_map (fun item =>
                     [label_point env this (item0 item) (- fst offset, snd offset)
                                  xAxis a0;
                      label_point env this (item1 item) (fst offset, - snd offset)
                                  xAxis a1]) items.
Proof.
  induction items as [|item items IH]; intro acc.
  - simpl. rewrite List.app_nil_r. reflexivity.
  - cbn [fold_left flat_map]. rewrite IH. destruct acc as [fs w].
    unfold push_points.
    destruct (createPoint env this (item0 item) (- fst offset, snd offset) xAxis a0 w)
      as [f0 w0] eqn:E0.
    destruct (createPoint env this (item1 item) (fst offset, - snd offset) xAxis a1 w0)
      as [f1 w1] eqn:E1.
    cbn [fst]. rewrite map_app. cbn [List.map].
    rewrite <- (createPoint_label_point env this (item0 item) _ xAxis a0 w), E0.
    rewrite <- (createPoint_label_point env this (item1 item) _ xAxis a1 w0), E1.
    cbn [fst]. rewrite <- List.app_assoc. reflexivity.
Qed.

Lemma label_source_without_icons
    (env : Env) (this : GraticuleLayer) (lngLines latLines : list GridLine)
    (tickLen : Q) (w : World) :
  lngLines <> [] ->
  latLines <> [] ->
  without_icons (fst (createLabelPointsSource env this lngLines latLines true tickLen w))
  = flat_map (fun item =>
                [label_point env this (item0 item)
                   (- fst (lngOffset env (Num.or_default tickLen 5)),
                    snd (lngOffset env (Num.or_default tickLen 5))) false "top";
                 label_point env this (item1 item)
                   (fst (lngOffset env (Num.or_default tickLen 5)),
                    - snd (lngOffset env (Num.or_default tickLen 5))) false "bottom"])
             lngLines
    ++ flat_map (fun item =>
                   [label_point env this (item0 item)
                      (- fst (latOffset env (Num.or_default tickLen 5)),
                       snd (latOffset env (Num.or_default tickLen 5))) true "bottom";
                    label_point env this (item1 item)
                      (fst (latOffset env (Num.or_default tickLen 5)),
                       - snd (latOffset env (Num.or_default tickLen 5))) true "top"])
                latLines.
Proof.
  intros Hlng Hlat.
  destruct lngLines as [|l ls]; [contradiction|].
  destruct latLines as [|l' ls']; [contradiction|].
  unfold createLabelPointsSource, without_icons.
  set (t := Num.or_default tickLen 5).
  destruct (fold_left (push_points env this (latOffset env t) true "bottom" "top")
              (l' :: ls')
              (fold_left (push_points env this (lngOffset env t) false "top" "bottom")
                 (l :: ls) ([], w))) as [fs w2] eqn:E.
  cbn [fst features].
  assert (H := push_points_labels env this (latOffset env t) true "bottom" "top"
                 (l' :: ls')
                 (fold_left (push_points env this (lngOffset env t) false "top" "bottom")
                    (l :: ls) ([], w))).
  rewrite E in H. cbn [fst] in H. rewrite H.
  rewrite push_points_labels. reflexivity.
Qed.

(** X4.  With lines on both axes and a map, the label source holds, but for
    the icon ids, two labels per longitude line and then two per latitude
    line, in the order of the lines.  Both labels of a longitude line show
    its longitude, not turned, anchored 'top' at the south end and 'bottom'
    at the north end; both labels of a latitude line show its latitude,
    turned by -90, anchored 'bottom' at the west end and 'top' at the east
    end.  The text is that of the layer's label format. *)
Theorem createLabelPointsSource_labels
    (env : Env) (this : GraticuleLayer) (lngLines latLines : list GridLine)
    (tickLen : Q) (w : World) :
  lngLines <> [] ->
  latLines <> [] ->
  let t := Num.or_default tickLen 5 in
  let r := vec2_rotate env (0, t) (0, 0) (bearing_rad env) in
  let s := vec2_rotate env (t, 0) (0, 0) (bearing_rad env) in
  without_icons (fst (createLabelPointsSource env this lngLines latLines true tickLen w))
  = flat_map (fun item =>
                [label_point env this (item0 item) (- fst r, snd r) false "top";
                 label_point env this (item1 item) (fst r, - snd r) false "bottom"])
             lngLines
    ++ flat_map (fun item =>
                   [label_point env this (item0 item) (- fst s, snd s) true "bottom";
                    label_point env this (item1 item) (fst s, - snd s) true "top"])
                latLines.
Proof.
  intros Hlng Hlat. cbv zeta.
  exact (label_source_without_icons env this lngLines latLines tickLen w Hlng Hlat).
Qed.

Lemma createLabelPointsSource_labels_witness :
  List.length
    (without_icons
       (fst (createLabelPointsSource (example_env 0 0 1)
               (new_layer (mkBounds 120 30 130 40) 5 "d")
               [((120, 30), (120, 40))] [((120, 30), (130, 30))] true 5
               initial_world)))
  = 4%nat.
Proof.
  rewrite (createLabelPointsSource_labels (example_env 0 0 1)
             (new_layer (mkBounds 120 30 130 40) 5 "d")
             [((120, 30), (120, 40))] [((120, 30), (130, 30))] 5 initial_world).
  - reflexivity.
  - discriminate.
  - discriminate.
Defined.

Lemma createTickLinesSource_segments
    (env : Env) (lngLines latLines : list GridLine) (tickLen : Q) :
  lngLines <> [] ->
  latLines <> [] ->
  features (createTickLinesSource env lngLines latLines true tickLen)
  = flat_map (fun item =>
                [tick_segment env (item0 item)
                   (- fst (lngOffset env (Num.or_default tickLen 5)),
                    snd (lngOffset env (Num.or_default tickLen 5)));
                 tick_segment env (item1 item)
                   (fst (lngOffset env (Num.or_default tickLen 5)),
                    - snd (lngOffset env (Num.or_default tickLen 5)))]) lngLines
    ++ flat_map (fun item =>
                   [tick_segment env (item0 item)
                      (- fst (latOffset env (Num.or_default tickLen 5)),
                       snd (latOffset env (Num.or_default tickLen 5)));
                    tick_segment env (item1 item)
                      (fst (latOffset env (Num.or_default tickLen 5)),
                       - snd (latOffset env (Num.or_default tickLen 5)))]) latLines.
Proof.
  intros Hlng Hlat.
  destruct lngLines as [|l ls]; [contradiction|].
  destruct latLines as [|l' ls']; [contradiction|].
  unfold createTickLinesSource. cbn [features].
  f_equal; apply flat_map_ext; intro item;
    rewrite !createTickLine_segment; reflexivity.
Qed.

Lemma map_flat_map {A B C : Type} (f : B -> C) (g : A -> list B) (l : list A) :
  List.map f (flat_map g l) = flat_map (fun a => List.map f (g a)) l.
Proof.
  induction l as [|a l IH]; simpl; [reflexivity|].
  rewrite map_app, IH. reflexivity.
Qed.

Lemma point_of_erase_icon (f : Feature) : point_of (erase_icon f) = point_of f.
Proof. unfold erase_icon, point_of. destruct (properties f); reflexivity. Qed.

(** X5.  For the same lines, map and tick length, the label source and the
    tick source go together: both are empty in the same cases, and
    otherwise the k-th label sits exactly at the far end of the k-th tick. *)
Theorem labels_at_tick_ends
    (env : Env) (this : GraticuleLayer) (lngLines latLines : list GridLine)
    (map : bool) (tickLen : Q) (w : World) :
  List.map point_of
    (features (fst (createLabelPointsSource env this lngLines latLines map tickLen w)))
  = List.map far_end
      (features (createTickLinesSource env lngLines latLines map tickLen)).
Proof.
  destruct lngLines as [|l ls]; [reflexivity|].
  destruct latLines as [|l' ls']; [reflexivity|].
  destruct map; [|reflexivity].
  rewrite createTickLinesSource_segments by discriminate.
  assert (H := label_source_without_icons env this (l :: ls) (l' :: ls') tickLen w
                 ltac:(discriminate) ltac:(discriminate)).
  unfold without_icons in H.
  apply (f_equal (List.map point_of)) in H.
  rewrite map_map in H.
  rewrite (map_ext _ point_of point_of_erase_icon) in H.
  rewrite H, !map_app, !map_flat_map. reflexivity.
Qed.

(** ** The image cache *)








Lemma Nseq_length (len : nat) : forall start, List.length (Nseq start len) = len.
Proof.
  induction len as [|len IH]; intro start; simpl; [|rewrite IH]; reflexivity.
Qed.










(** ** Detaching and attaching *)

Lemma remove_id_same (i : string) (m : Map) :
  i <> EmptyString ->
  Host.count_sources i (remove_id i m) = 0%nat
  /\ Host.count_layers i (remove_id i m) = 0%nat.
Proof.
  intro Hi. unfold remove_id.
  apply String.eqb_neq in Hi. rewrite Hi.
  set (m1 := match Host.getLayer i m with
             | Some _ => Host.removeLayer i m
             | None => m
             end).
  assert (Hl : Host.count_layers i m1 = 0%nat).
  { subst m1. destruct (Host.getLayer i m) eqn:E.
    - unfold Host.count_layers, Host.removeLayer. cbn [map_layers].
      apply (count_removed _ layer_id).
    - apply getLayer_none_count. exact E. }
  destruct (Host.getSource i m1) eqn:E.
  - split; [|exact Hl].
    unfold Host.count_sources, Host.removeSource. cbn [map_sources].
    apply (count_removed _ fst).
  - split; [|exact Hl]. apply getSource_none_count. exact E.
Qed.

Lemma getLayer_removed_other (i j : string) (m : Map) :
  i <> j -> Host.getLayer j (Host.removeLayer i m) = Host.getLayer j m.
Proof.
  intro Hij. unfold Host.getLayer, Host.removeLayer. cbn [map_layers].
  apply (find_removed_other _ layer_id). exact Hij.
Qed.

Lemma remove_id_other (i j : string) (m : Map) :
  i <> j ->
  entry j (remove_id i m) = entry j m
  /\ layer_under j (remove_id i m) = layer_under j m
  /\ map_images (remove_id i m) = map_images m.
Proof.
  intro Hij. unfold remove_id.
  destruct (String.eqb i ""); [repeat split|].
  set (m1 := match Host.getLayer i m with
             | Some _ => Host.removeLayer i m
             | None => m
             end).
  assert (H1 : entry j m1 = entry j m /\ layer_under j m1 = layer_under j m
               /\ map_images m1 = map_images m).
  { subst m1. destruct (Host.getLayer i m); [|repeat split].
    split; [|split; [apply getLayer_removed_other; exact Hij | reflexivity]].
    unfold entry, Host.count_sources, Host.count_layers, Host.getSource,
      Host.removeLayer. cbn [map_sources map_layers].
    rewrite (filter_removed_other _ layer_id); [reflexivity | exact Hij]. }
  destruct H1 as (He & Hl & Hi).
  destruct (Host.getSource i m1); [|repeat split; assumption].
  split; [|split; [exact Hl | exact Hi]].
  rewrite <- He.
  unfold entry, Host.count_sources, Host.count_layers, Host.getSource,
    Host.removeSource. cbn [map_sources map_layers].
  rewrite (filter_removed_other _ fst) by exact Hij.
  rewrite (find_removed_other _ fst) by exact Hij. reflexivity.
Qed.

Lemma remove_id_no_more (i j : string) (m : Map) :
  Host.count_sources j m = 0%nat /\ Host.count_layers j m = 0%nat ->
  Host.count_sources j (remove_id i m) = 0%nat
  /\ Host.count_layers j (remove_id i m) = 0%nat.
Proof.
  intros [Hs Hl]. destruct (String.eqb i j) eqn:E.
  - apply String.eqb_eq in E. subst j.
    destruct (String.eqb i "") eqn:E0.
    + unfold remove_id. rewrite E0. split; assumption.
    + apply remove_id_same. apply String.eqb_neq. exact E0.
  - apply String.eqb_neq in E.
    destruct (remove_id_other i j m E) as (He & _).
    unfold entry in He. inversion He as [[H1 H2 H3]]. rewrite H1, H2.
    split; assumption.
Qed.

(** X8.  [removeFromMap] on an attached layer returns, takes the map and the
    four ids off the layer, and leaves no source and no layer under any of
    the four ids; everything registered under another id, every image and
    the counter stay as they were; a second call changes nothing.  On a
    layer that is not attached it changes nothing at all. *)
Theorem removeFromMap_clears (this : GraticuleLayer) (ids : LayerIDs) (w : World) :
  _layerIDs this = Some ids ->
  Forall (fun i => i <> EmptyString) (ids_list ids) ->
  (_map this = true ->
   outcome (removeFromMap this w) = Normal tt
   /\ _map (self (removeFromMap this w)) = false
   /\ _layerIDs (self (removeFromMap this w)) = None
   /\ Forall (fun i =>
                Host.count_sources i (the_map (world (removeFromMap this w))) = 0%nat
                /\ Host.count_layers i (the_map (world (removeFromMap this w))) = 0%nat)
             (ids_list ids)
   /\ (forall j, ~ In j (ids_list ids) ->
         entry j (the_map (world (removeFromMap this w))) = entry j (the_map w)
         /\ layer_under j (the_map (world (removeFromMap this w)))
            = layer_under j (the_map w))
   /\ map_images (the_map (world (removeFromMap this w))) = map_images (the_map w)
   /\ id (world (removeFromMap this w)) = id w
   /\ removeFromMap (self (removeFromMap this w)) (world (removeFromMap this w))
      = mkRun (Normal tt) (self (removeFromMap this w))
              (world (removeFromMap this w)))
  /\ (_map this = false -> removeFromMap this w = mkRun (Normal tt) this w).
Proof.
  intros Hids Hne. split.
  - intro Hmap. unfold removeFromMap. rewrite Hmap, Hids.
    cbn [outcome self world the_map id with_map _map _layerIDs set_layerIDs set_map].
    unfold ids_list in *.
    inversion Hne as [|? ? Hg Hne1]; subst.
    inversion Hne1 as [|? ? Ht Hne2]; subst.
    inversion Hne2 as [|? ? Hb Hne3]; subst.
    inversion Hne3 as [|? ? Hl _]; subst.
    split; [reflexivity|]. split; [reflexivity|]. split; [reflexivity|].
    split; [|split; [|split; [|split]]].
    + repeat (apply Forall_cons); [| | | |apply Forall_nil].
      * do 3 apply remove_id_no_more. apply remove_id_same. exact Hg.
      * do 2 apply remove_id_no_more. apply remove_id_same. exact Ht.
      * apply remove_id_no_more. apply remove_id_same. exact Hb.
      * apply remove_id_same. exact Hl.
    + intros j Hj. simpl in Hj.
      assert (Hjg : grid ids <> j) by tauto.
      assert (Hjt : tick ids <> j) by tauto.
      assert (Hjb : border ids <> j) by tauto.
      assert (Hjl : label ids <> j) by tauto.
      destruct (remove_id_other _ _ (the_map w) Hjg) as (E1 & L1 & _).
      destruct (remove_id_other _ _ (remove_id (grid ids) (the_map w)) Hjt)
        as (E2 & L2 & _).
      destruct (remove_id_other _ _
                  (remove_id (tick ids) (remove_id (grid ids) (the_map w))) Hjb)
        as (E3 & L3 & _).
      destruct (remove_id_other _ _
                  (remove_id (border ids)
                     (remove_id (tick ids) (remove_id (grid ids) (the_map w)))) Hjl)
        as (E4 & L4 & _).
      split; congruence.
    + assert (H : forall i m, map_images (remove_id i m) = map_images m).
      { intros i m. unfold remove_id. destruct (String.eqb i ""); [reflexivity|].
        destruct (Host.getLayer i m);
          match goal with
          | |- context [Host.getSource i ?x] => destruct (Host.getSource i x)
          end; reflexivity. }
      rewrite !H. reflexivity.
    + reflexivity.
    + reflexivity.
  - intro Hmap. unfold removeFromMap. rewrite Hmap. reflexivity.
Qed.

Lemma removeFromMap_clears_witness :
  Forall (fun i =>
            Host.count_sources i (the_map (world (removeFromMap (self session_update1)
                                                    (world session_update1)))) = 0%nat
            /\ Host.count_layers i (the_map (world (removeFromMap (self session_update1)
                                                      (world session_update1)))) = 0%nat)
         ["grid_1"; "tick_2"; "border_3"; "label_4"]%string.
Proof.
  refine (proj1 (proj2 (proj2 (proj2
            (proj1 (removeFromMap_clears (self session_update1)
                      (mkLayerIDs "grid_1" "tick_2" "border_3" "label_4")
                      (world session_update1) _ _) _))))).
  - vm_compute. reflexivity.
  - repeat constructor; discriminate.
  - vm_compute. reflexivity.
Defined.









(** ** The setters *)



(** ** What an update touches *)












(** ** util.ts: extend and pick *)

Section ObjectFacts.

Variable V : Type.

Lemma get_set_same (k : string) (v : V) (o : Util.Obj V) :
  Util.get k (Util.set k v o) = Some v.
Proof.
  unfold Util.get. induction o as [|e o IH]; simpl.
  - rewrite String.eqb_refl. reflexivity.
  - destruct (String.eqb (fst e) k) eqn:E; simpl; rewrite E; [reflexivity | exact IH].
Qed.

Lemma get_set_other (k k' : string) (v : V) (o : Util.Obj V) :
  k <> k' -> Util.get k' (Util.set k v o) = Util.get k' o.
Proof.
  intro Hk. unfold Util.get. induction o as [|e o IH]; simpl.
  - apply String.eqb_neq in Hk. rewrite Hk. reflexivity.
  - destruct (String.eqb (fst e) k) eqn:E; simpl.
    + apply String.eqb_eq in E.
      assert (E' : String.eqb (fst e) k' = false)
        by (apply String.eqb_neq; congruence).
      rewrite E'. reflexivity.
    + destruct (String.eqb (fst e) k'); [reflexivity | exact IH].
Qed.

Lemma get_in_keys (k : string) (o : Util.Obj V) :
  Util.get k o <> None <-> In k (Util.keys o).
Proof.
  unfold Util.get, Util.keys. induction o as [|e o IH]; simpl.
  - split; [congruence | tauto].
  - destruct (String.eqb (fst e) k) eqn:E.
    + apply String.eqb_eq in E. split; [intros _; left; exact E | discriminate].
    + apply String.eqb_neq in E. rewrite IH. split; [tauto|].
      intros [H|H]; [contradiction | exact H].
Qed.

Lemma keys_set (k : string) (v : V) (o : Util.Obj V) :
  Util.keys (Util.set k v o)
  = if Util.has_own k o then Util.keys o else Util.keys o ++ [k].
Proof.
  unfold Util.has_own, Util.get, Util.keys. induction o as [|e o IH]; simpl.
  - reflexivity.
  - destruct (String.eqb (fst e) k) eqn:E; simpl; [reflexivity|].
    rewrite IH. destruct (find _ o); reflexivity.
Qed.

Lemma NoDup_keys_set (k : string) (v : V) (o : Util.Obj V) :
  NoDup (Util.keys o) -> NoDup (Util.keys (Util.set k v o)).
Proof.
  intro Hnd. rewrite keys_set. destruct (Util.has_own k o) eqn:E; [exact Hnd|].
  assert (Hnot : ~ In k (Util.keys o)).
  { intro Hin. apply get_in_keys in Hin. unfold Util.has_own in E.
    destruct (Util.get k o); [discriminate | contradiction]. }
  clear E. induction (Util.keys o) as [|a l IH]; simpl.
  - constructor; [intros [] | constructor].
  - inversion Hnd; subst. constructor.
    + intro Hin. apply in_app_or in Hin. destruct Hin as [Hin|[Hin|[]]];
        [contradiction | subst; apply Hnot; left; reflexivity].
    + apply IH; [assumption|]. intro Hin. apply Hnot. right. exact Hin.
Qed.

(** One source laid over a destination. *)
Lemma copy_all_spec (dest src : Util.Obj V) :
  (forall k, Util.get k (Util.copy_all dest src)
             = match Util.get k src with
               | Some v => Some v
               | None => Util.get k dest
               end)
  /\ (exists added, Util.keys (Util.copy_all dest src) = Util.keys dest ++ added)
  /\ (NoDup (Util.keys dest) -> NoDup (Util.keys (Util.copy_all dest src))).
Proof.
  unfold Util.copy_all.
  assert (Hgen : forall (ks : list string) (d : Util.Obj V),
    let r := fold_left (fun dest k => match Util.get k src with
                                      | Some v => Util.set k v dest
                                      | None => dest
                                      end) ks d in
    (forall k, Util.get k r
               = if in_dec string_dec k ks
                 then match Util.get k src with
                      | Some v => Some v
                      | None => Util.get k d
                      end
                 else Util.get k d)
    /\ (exists added, Util.keys r = Util.keys d ++ added)
    /\ (NoDup (Util.keys d) -> NoDup (Util.keys r))).
  { induction ks as [|k0 ks IH]; intro d; cbv zeta.
    - simpl. split; [intro k; reflexivity|]. split; [exists []|auto].
      rewrite List.app_nil_r. reflexivity.
    - cbn [fold_left].
      set (d1 := match Util.get k0 src with
                 | Some v => Util.set k0 v d
                 | None => d
                 end).
      destruct (IH d1) as (Hget & (added & Hkeys) & Hnd). cbv zeta in Hget, Hnd.
      assert (Hd1 : forall k, Util.get k d1
                              = if string_dec k0 k
                                then match Util.get k0 src with
                                     | Some v => Some v
                                     | None => Util.get k d
                                     end
                                else Util.get k d).
      { intro k. subst d1. destruct (string_dec k0 k) as [<-|Hne].
        - destruct (Util.get k0 src); [apply get_set_same | reflexivity].
        - destruct (Util.get k0 src); [apply get_set_other; exact Hne | reflexivity]. }
      split; [|split].
      + intro k. rewrite Hget, Hd1.
        destruct (in_dec string_dec k (k0 :: ks)) as [Hin|Hnin];
          destruct (in_dec string_dec k ks) as [Hin'|Hnin'];
          destruct (string_dec k0 k) as [Hne|Hne];
          try subst k0;
          try (exfalso; apply Hnin; right; exact Hin');
          try (exfalso; apply Hnin; left; reflexivity);
          try (exfalso; destruct Hin as [H|H]; contradiction);
          try reflexivity;
          destruct (Util.get k src); reflexivity.
      + subst d1. destruct (Util.get k0 src) as [v|].
        * rewrite Hkeys, keys_set. destruct (Util.has_own k0 d).
          -- exists added. reflexivity.
          -- exists (k0 :: added). rewrite <- List.app_assoc. reflexivity.
        * exists added. exact Hkeys.
      + intro H. apply Hnd. subst d1.
        destruct (Util.get k0 src); [apply NoDup_keys_set; exact H | exact H]. }
  destruct (Hgen (Util.keys src) dest) as (Hget & Hkeys & Hnd).
  cbv zeta in Hget, Hnd.
  split; [|split; assumption].
  intro k. rewrite Hget.
  destruct (in_dec string_dec k (Util.keys src)) as [Hin|Hnin].
  - reflexivity.
  - destruct (Util.get k src) eqn:E; [|reflexivity].
    exfalso. apply Hnin. apply get_in_keys. congruence.
Qed.

End ObjectFacts.

Section ExtendFacts.

Variable V : Type.

Lemma extend_get (k : string) (sources : list (Util.Obj V)) (dest : Util.Obj V) :
  Util.get k (Util.extend dest sources)
  = Util.overlaid k (Util.get k dest) sources.
Proof.
  unfold Util.extend, Util.overlaid. revert dest.
  induction sources as [|src sources IH]; intro dest; cbn [fold_left].
  - reflexivity.
  - rewrite IH. destruct (copy_all_spec V dest src) as (Hget & _ & _).
    rewrite Hget. reflexivity.
Qed.



Lemma has_in_read (inherited : string -> option V) (k : string) (src : Util.Obj V) :
  Util.has_in inherited k src = true <-> Util.read inherited k src <> None.
Proof.
  unfold Util.has_in, Util.has_own, Util.read.
  destruct (Util.get k src); [simpl; split; [discriminate | reflexivity]|].
  destruct (inherited k); simpl; split; congruence.
Qed.

Lemma pick_step (inherited : string -> option V) (k : string) (src result : Util.Obj V) :
  (if Util.has_in inherited k src then
     match Util.read inherited k src with
     | Some v => Util.assign k v result
     | None => result
     end
   else result)
  = match Util.read inherited k src with
    | Some v => Util.assign k v result
    | None => result
    end.
Proof.
  destruct (Util.has_in inherited k src) eqn:E; [reflexivity|].
  destruct (Util.read inherited k src) eqn:R; [|reflexivity].
  assert (H : Util.has_in inherited k src = true)
    by (apply has_in_read; congruence).
  congruence.
Qed.

Lemma assign_get (k0 k : string) (v : V) (o : Util.Obj V) :
  Util.get k (Util.assign k0 v o)
  = if string_dec k0 k
    then if String.eqb k "__proto__" then Util.get k o else Some v
    else Util.get k o.
Proof.
  unfold Util.assign. destruct (string_dec k0 k) as [<-|Hne].
  - destruct (String.eqb k0 "__proto__"); [reflexivity | apply get_set_same].
  - destruct (String.eqb k0 "__proto__"); [reflexivity|].
    apply get_set_other. exact Hne.
Qed.

Lemma assign_NoDup (k : string) (v : V) (o : Util.Obj V) :
  NoDup (Util.keys o) -> NoDup (Util.keys (Util.assign k v o)).
Proof.
  intro H. unfold Util.assign.
  destruct (String.eqb k "__proto__"); [exact H | apply NoDup_keys_set; exact H].
Qed.

Lemma pick_fold (inherited : string -> option V) (src : Util.Obj V)
    (properties : list string) (start : Util.Obj V) :
  let r := fold_left (fun result k =>
                        if Util.has_in inherited k src then
                          match Util.read inherited k src with
                          | Some v => Util.assign k v result
                          | None => result
                          end
                        else result)
                     properties start in
  (forall k, Util.get k r
             = if in_dec string_dec k properties
               then if String.eqb k "__proto__" then Util.get k start
                    else match Util.read inherited k src with
                         | Some v => Some v
                         | None => Util.get k start
                         end
               else Util.get k start)
  /\ (NoDup (Util.keys start) -> NoDup (Util.keys r)).
Proof.
  revert start. induction properties as [|k0 ks IH]; intro start; cbv zeta.
  - simpl. split; [intro k; reflexivity | auto].
  - cbn [fold_left]. rewrite pick_step.
    set (s1 := match Util.read inherited k0 src with
               | Some v => Util.assign k0 v start
               | None => start
               end).
    destruct (IH s1) as (Hget & Hnd). cbv zeta in Hget, Hnd.
    assert (Hs1 : forall k, Util.get k s1
                            = if string_dec k0 k
                              then if String.eqb k "__proto__" then Util.get k start
                                   else match Util.read inherited k0 src with
                                        | Some v => Some v
                                        | None => Util.get k start
                                        end
                              else Util.get k start).
    { intro k. subst s1.
      destruct (Util.read inherited k0 src) as [v|].
      - apply assign_get.
      - destruct (string_dec k0 k); [|reflexivity].
        destruct (String.eqb k "__proto__"); reflexivity. }
    split.
    + intro k. rewrite Hget, Hs1.
      destruct (in_dec string_dec k (k0 :: ks)) as [Hin|Hnin];
        destruct (in_dec string_dec k ks) as [Hin'|Hnin'];
        destruct (string_dec k0 k) as [Hne|Hne];
        try subst k0;
        try (exfalso; apply Hnin; right; exact Hin');
        try (exfalso; apply Hnin; left; reflexivity);
        try (exfalso; destruct Hin as [H|H]; contradiction);
        try reflexivity;
        destruct (String.eqb k "__proto__"); try reflexivity;
        destruct (Util.read inherited k src); reflexivity.
    + intro H. apply Hnd. subst s1.
      destruct (Util.read inherited k0 src); [apply assign_NoDup; exact H | exact H].
Qed.

Lemma pick_get (inherited : string -> option V) (k : string) (src : Util.Obj V)
    (properties : list string) :
  Util.get k (Util.pick inherited src properties)
  = if in_dec string_dec k properties
    then if String.eqb k "__proto__" then None else Util.read inherited k src
    else None.
Proof.
  unfold Util.pick. destruct (pick_fold inherited src properties []) as (Hget & _).
  cbv zeta in Hget. rewrite Hget.
  destruct (in_dec string_dec k properties); [|reflexivity].
  destruct (String.eqb k "__proto__"); [reflexivity|].
  destruct (Util.read inherited k src); reflexivity.
Qed.

Lemma pick_NoDup (inherited : string -> option V) (src : Util.Obj V)
    (properties : list string) :
  NoDup (Util.keys (Util.pick inherited src properties)).
Proof.
  unfold Util.pick. destruct (pick_fold inherited src properties []) as (_ & Hnd).
  apply Hnd. constructor.
Qed.

End ExtendFacts.



(** X19. pick(src, properties) holds exactly the listed names that are in
    src, its own or inherited through its prototype chain, each with the
    value src gives for it; the name __proto__ apart, which never becomes a
    property of the result.  A name that is not listed or not in src is not
    in the result, and no name is there twice, however often the list names
    it. *)
Theorem pick_selects (V : Type) (inherited : string -> option V)
    (src : Util.Obj V) (properties : list string) :
  (forall k, Util.get k (Util.pick inherited src properties)
             = if in_dec string_dec k properties
               then if String.eqb k "__proto__" then None
                    else Util.read inherited k src
               else None)
  /\ (forall k, In k (Util.keys (Util.pick inherited src properties))
                <-> In k properties /\ k <> "__proto__"%string
                    /\ Util.has_in inherited k src = true)
  /\ NoDup (Util.keys (Util.pick inherited src properties)).
Proof.
  split; [|split].
  - intro k. apply pick_get.
  - intro k. rewrite <- get_in_keys, pick_get, has_in_read.
    destruct (in_dec string_dec k properties) as [Hin|Hnin].
    + destruct (String.eqb_spec k "__proto__") as [E|E].
      * split; [congruence | tauto].
      * tauto.
    + split; [congruence | tauto].
  - apply pick_NoDup.
Qed.

Lemma picked_own (k : string) :
  In k Options.picked ->
  Options.Object_prototype k = None /\ String.eqb k "__proto__" = false.
Proof.
  unfold Options.picked. simpl.
  intros [<-|[<-|[<-|[<-|[<-|[<-|[<-|[<-|[<-|[<-|[<-|[<-|[<-|[<-|[<-|[]]]]]]]]]]]]]]]];
    split; reflexivity.
Qed.

Lemma pick_own_get (k : string) (src : Object) :
  Util.get k (Util.pick Options.Object_prototype src Options.picked)
  = if in_dec string_dec k Options.picked then Util.get k src else None.
Proof.
  rewrite pick_get.
  destruct (in_dec string_dec k Options.picked) as [Hin|]; [|reflexivity].
  destruct (picked_own k Hin) as [Hp He]. rewrite He. unfold Util.read.
  rewrite Hp. destruct (Util.get k src); reflexivity.
Qed.

(** ** The constructor *)

Lemma in_keys_set (V : Type) (k a : string) (v : V) (o : Util.Obj V) :
  In k (Util.keys (Util.set a v o)) <-> k = a \/ In k (Util.keys o).
Proof.
  rewrite keys_set. unfold Util.has_own. destruct (Util.get a o) eqn:E.
  - split; [intro H; right; exact H|]. intros [->|H]; [|exact H].
    apply get_in_keys. congruence.
  - rewrite in_app_iff. simpl. split.
    + intros [H|[H|[]]]; [right; exact H | left; symmetry; exact H].
    + intros [H|H]; [right; left; symmetry; exact H | left; exact H].
Qed.

(** The instance the body of the constructor builds from the merged
    options. *)
Lemma instance_get (merged : Object) (k : string) :
  ~ In k private_fields ->
  Util.get k
    (Util.set "_iconIds" (VArray [])
       (Util.set "_layerIDs" VNull
          (Util.set "_map" VNull
             (Util.extend
                (Util.set "_options" (VObject merged) Options.class_fields)
                [Util.pick Options.Object_prototype merged Options.picked]))))
  = if in_dec string_dec k Options.picked
    then match Util.get k merged with
         | Some v => Some v
         | None => Util.get k Options.class_fields
         end
    else Util.get k Options.class_fields.
Proof.
  intro Hp. unfold private_fields in Hp. simpl in Hp.
  rewrite !get_set_other by (intro E; apply Hp; rewrite E; tauto).
  rewrite extend_get. unfold Util.overlaid. cbn [fold_left].
  rewrite pick_own_get.
  rewrite get_set_other by (intro E; apply Hp; rewrite E; tauto).
  destruct (in_dec string_dec k Options.picked); [|reflexivity].
  destruct (Util.get k merged); reflexivity.
Qed.

Lemma instance_keys (merged : Object) (k : string) :
  In k (Util.keys
          (Util.set "_iconIds" (VArray [])
             (Util.set "_layerIDs" VNull
                (Util.set "_map" VNull
                   (Util.extend
                      (Util.set "_options" (VObject merged) Options.class_fields)
                      [Util.pick Options.Object_prototype merged Options.picked])))))
  <-> In k Options.picked \/ In k private_fields.
Proof.
  rewrite !in_keys_set.
  assert (He : In k (Util.keys
                       (Util.extend
                          (Util.set "_options" (VObject merged) Options.class_fields)
                          [Util.pick Options.Object_prototype merged Options.picked]))
               <-> (k = "_options"%string \/ In k (Util.keys Options.class_fields))
                   \/ (In k Options.picked /\ In k (Util.keys merged))).
  { rewrite <- (in_keys_set Value k "_options" (VObject merged)).
    rewrite <- !get_in_keys, extend_get. unfold Util.overlaid. cbn [fold_left].
    rewrite pick_own_get.
    destruct (in_dec string_dec k Options.picked) as [Hin|Hnin].
    - destruct (Util.get k merged) eqn:E.
      + split; [intros _; right; split; [exact Hin | congruence] | discriminate].
      + split; [tauto | intros [H|[_ H]]; [exact H | congruence]].
    - tauto. }
  rewrite He. unfold Options.class_fields, Options.picked, private_fields, Util.keys.
  cbn [List.map fst In]. clear He. intuition (subst; auto 20).
Qed.

Lemma plain_picked (k : string) : In k plain_fields -> In k Options.picked.
Proof.
  unfold plain_fields, Options.picked. simpl. tauto.
Qed.


Lemma bound_methods (k : string) : In k Options.bound -> In k Options.methods.
Proof.
  unfold Options.bound, Options.methods. simpl. tauto.
Qed.

Lemma picked_not_bound (k : string) : In k Options.picked -> ~ In k Options.bound.
Proof.
  unfold Options.picked, Options.bound. simpl. intros Hin Hp.
  repeat (destruct Hin as [Hin|Hin]; [subst k; intuition discriminate|]).
  exact Hin.
Qed.

Lemma picked_not_private (k : string) : In k Options.picked -> ~ In k private_fields.
Proof.
  unfold Options.picked, private_fields. simpl. intros Hin Hp.
  repeat (destruct Hin as [Hin|Hin]; [subst k; intuition discriminate|]).
  exact Hin.
Qed.

Lemma private_not_bound (k : string) : In k private_fields -> ~ In k Options.bound.
Proof.
  unfold private_fields, Options.bound. simpl. intros Hin Hp.
  repeat (destruct Hin as [Hin|Hin]; [subst k; intuition discriminate|]).
  exact Hin.
Qed.

Lemma instance_unbound (merged : Object) (fn : string) :
  In fn Options.bound ->
  Util.get fn
    (Util.set "_iconIds" (VArray [])
       (Util.set "_layerIDs" VNull
          (Util.set "_map" VNull
             (Util.extend
                (Util.set "_options" (VObject merged) Options.class_fields)
                [Util.pick Options.Object_prototype merged Options.picked]))))
  = None.
Proof.
  intro Hin.
  match goal with |- ?g = None => destruct g eqn:E; [|reflexivity] end.
  exfalso.
  assert (Hk : In fn Options.picked \/ In fn private_fields).
  { apply (proj1 (instance_keys merged fn)).
    apply (proj1 (get_in_keys Value fn _)). congruence. }
  destruct Hk as [Hk|Hk].
  - exact (picked_not_bound fn Hk Hin).
  - exact (private_not_bound fn Hk Hin).
Qed.

Lemma argument_get (o : Object) (a b c d : Value) (k : string) :
  Util.get k
    (Util.set "borderStyle" d
       (Util.set "gridStyle" c
          (Util.set "tickStyle" b
             (Util.set "labelStyle" a o))))
  = if String.eqb k "borderStyle" then Some d
    else if String.eqb k "gridStyle" then Some c
    else if String.eqb k "tickStyle" then Some b
    else if String.eqb k "labelStyle" then Some a
    else Util.get k o.
Proof.
  destruct (String.eqb k "borderStyle") eqn:E1.
  { apply String.eqb_eq in E1. subst. apply get_set_same. }
  apply String.eqb_neq in E1. rewrite get_set_other by congruence.
  destruct (String.eqb k "gridStyle") eqn:E2.
  { apply String.eqb_eq in E2. subst. apply get_set_same. }
  apply String.eqb_neq in E2. rewrite get_set_other by congruence.
  destruct (String.eqb k "tickStyle") eqn:E3.
  { apply String.eqb_eq in E3. subst. apply get_set_same. }
  apply String.eqb_neq in E3. rewrite get_set_other by congruence.
  destruct (String.eqb k "labelStyle") eqn:E4.
  { apply String.eqb_eq in E4. subst. apply get_set_same. }
  apply String.eqb_neq in E4. rewrite get_set_other by congruence.
  reflexivity.
Qed.

Lemma extend_two (V : Type) (defaults given : Util.Obj V) (k : string) :
  Util.get k (Util.extend [] [defaults; given])
  = match Util.get k given with
    | Some v => Some v
    | None => Util.get k defaults
    end.
Proof.
  rewrite extend_get. unfold Util.overlaid. simpl.
  destruct (Util.get k given); [reflexivity|].
  destruct (Util.get k defaults); reflexivity.
Qed.

(** [bindAll] over names that hold a method, or nothing of their own while
    the prototype has the method. *)
Lemma bindAll_bound (prototype fns : list string) (context : Object) :
  (forall fn, In fn fns ->
     (Util.get fn context = None /\ In fn prototype)
     \/ Util.get fn context = Some (VMethod fn)) ->
  exists c,
    Options.bindAll prototype fns context = Normal c
    /\ (forall k, Util.get k c
                  = if in_dec string_dec k fns then Some (VMethod k)
                    else Util.get k context)
    /\ (forall k, In k (Util.keys c) <-> In k fns \/ In k (Util.keys context)).
Proof.
  revert context. induction fns as [|fn rest IH]; intros context H.
  - exists context. split; [reflexivity|]. split; [intro k; reflexivity|].
    intro k. simpl. tauto.
  - assert (Hm : Options.member prototype fn context = VMethod fn).
    { unfold Options.member. destruct (H fn (or_introl eq_refl)) as [(Hn & Hp)|Hs].
      - rewrite Hn.
        assert (E : existsb (String.eqb fn) prototype = true).
        { apply existsb_exists. exists fn. split; [exact Hp | apply String.eqb_refl]. }
        rewrite E. reflexivity.
      - rewrite Hs. reflexivity. }
    cbn [Options.bindAll]. rewrite Hm. cbn [Options.truthy negb].
    destruct (IH (Util.set fn (VMethod fn) context)) as (c & Hc & Hget & Hkeys).
    { intros fn' Hin. destruct (string_dec fn fn') as [<-|Hne].
      - right. apply get_set_same.
      - rewrite get_set_other by exact Hne. apply H. right. exact Hin. }
    exists c. split; [exact Hc|]. split.
    + intro k. rewrite Hget.
      destruct (in_dec string_dec k rest) as [Hin|Hnin];
        destruct (in_dec string_dec k (fn :: rest)) as [Hin'|Hnin'];
        try reflexivity.
      * exfalso. apply Hnin'. right. exact Hin.
      * destruct Hin' as [<-|Hin']; [apply get_set_same | contradiction].
      * apply get_set_other. intro E. apply Hnin'. left. exact E.
    + intro k. rewrite Hkeys, in_keys_set. simpl.
      split.
      * intros [Hr|[->|Hk]]; [left; right; exact Hr | left; left; reflexivity | right; exact Hk].
      * intros [[<-|Hr]|Hk]; [right; left; reflexivity | left; exact Hr | right; right; exact Hk].
Qed.

(** What the body of the constructor computes, field by field. *)
Lemma constructor_fields (o : Object) :
  exists this o',
    Options.constructor (Some o) = Normal (this, o')
    /\ (forall k, In k plain_fields ->
          Util.get k this
          = Some (match Util.get k o with
                  | Some v => v
                  | None => prop k Options.defaultOptions
                  end))
    /\ (forall k, In k style_fields ->
          exists style,
            Util.get k this = Some (VObject style)
            /\ Util.get k o' = Some (VObject style)
            /\ forall f,
                 Util.get f style
                 = match Util.get f (enumerable (Options.destructured k (Some o))) with
                   | Some v => Some v
                   | None => Util.get f (enumerable (prop k Options.defaultOptions))
                   end)
    /\ (forall k, ~ In k style_fields -> Util.get k o' = Util.get k o)
    /\ (forall k, In k (Util.keys this)
                  <-> In k Options.picked \/ In k private_fields
                      \/ In k Options.bound)
    /\ (forall k, In k Options.bound -> Util.get k this = Some (VMethod k))
    /\ Util.get "_map"%string this = Some VNull
    /\ Util.get "_layerIDs"%string this = Some VNull.
Proof.
  unfold Options.constructor. cbv zeta.
  match goal with
  | |- context [Options.bindAll _ _ ?p] =>
      destruct (bindAll_bound Options.methods Options.bound p)
        as (this & Hb & Hget & Hkeys)
  end.
  { intros fn Hin. left. split.
    - apply instance_unbound. exact Hin.
    - apply bound_methods. exact Hin. }
  rewrite Hb. exists this. eexists. split; [reflexivity|].
  assert (Hdata : forall k, ~ In k Options.bound ->
            Util.get k this = Util.get k _) 
    by (intros k Hn; rewrite Hget;
        destruct (in_dec string_dec k Options.bound); [contradiction | reflexivity]).
  split; [|split; [|split; [|split; [|split; [|split]]]]].
  - intros k Hin.
    rewrite Hdata by (apply picked_not_bound, plain_picked; exact Hin).
    rewrite instance_get by (apply picked_not_private, plain_picked; exact Hin).
    destruct (in_dec string_dec k Options.picked) as [_|Hn];
      [|exfalso; apply Hn, plain_picked; exact Hin].
    rewrite extend_two, argument_get.
    unfold plain_fields in Hin. simpl in Hin.
    repeat (destruct Hin as [Hin|Hin];
            [subst k; cbn [String.eqb Ascii.eqb Bool.eqb];
             destruct (Util.get _ o); reflexivity|]).
    destruct Hin.
  - intros k Hin. unfold style_fields in Hin. simpl in Hin.
    destruct Hin as [<-|[<-|[<-|[<-|[]]]]].
    all: eexists; split; [|split].
    all: try (intro f; apply extend_two).
    all: try (rewrite argument_get; reflexivity).
    all: rewrite Hdata by (apply picked_not_bound; simpl; tauto).
    all: rewrite instance_get by (apply picked_not_private; simpl; tauto).
    all: rewrite extend_two, argument_get; reflexivity.
  - intros k Hn. rewrite argument_get. unfold style_fields in Hn. simpl in Hn.
    destruct (String.eqb k "borderStyle") eqn:E1;
      [apply String.eqb_eq in E1; exfalso; apply Hn; rewrite E1; tauto|].
    destruct (String.eqb k "gridStyle") eqn:E2;
      [apply String.eqb_eq in E2; exfalso; apply Hn; rewrite E2; tauto|].
    destruct (String.eqb k "tickStyle") eqn:E3;
      [apply String.eqb_eq in E3; exfalso; apply Hn; rewrite E3; tauto|].
    destruct (String.eqb k "labelStyle") eqn:E4;
      [apply String.eqb_eq in E4; exfalso; apply Hn; rewrite E4; tauto|].
    reflexivity.
  - intro k. rewrite Hkeys, instance_keys. tauto.
  - intros k Hin. rewrite Hget.
    destruct (in_dec string_dec k Options.bound); [reflexivity | contradiction].
  - rewrite Hdata by (apply private_not_bound; simpl; tauto).
    rewrite get_set_other by discriminate. rewrite get_set_other by discriminate.
    apply get_set_same.
  - rewrite Hdata by (apply private_not_bound; simpl; tauto).
    rewrite get_set_other by discriminate. apply get_set_same.
Qed.



Lemma layer_of_fields (this : Object) (l : GraticuleLayer) :
  layer_of this = Some l ->
  as_bounds (prop "bounds" this) = Some (bounds l)
  /\ _map l = false
  /\ @as_null LayerIDs (prop "_layerIDs" this) = Some (_layerIDs l).
Proof.
  unfold layer_of, bind_option. intro H.
  repeat match type of H with
         | match ?x with Some _ => _ | None => _ end = _ =>
             destruct x eqn:?; [|discriminate H]
         end.
  injection H as <-. cbn [bounds _map _layerIDs].
  split; [reflexivity|]. split; reflexivity.
Qed.

Lemma computeGrid_without_bounds (fuel : nat) (this : GraticuleLayer) :
  bounds this = None -> computeGrid fuel this = Throw TypeError.
Proof.
  intro H. unfold computeGrid. rewrite H. reflexivity.
Qed.

(** X21. The bounds written as the initialiser of the class field never
    take effect.  When the options have no bounds key, the instance has the
    null of defaultOptions as its bounds, and addTo on a map then throws on
    reading the bounds, with the map reference stored and the map and the id
    counter untouched. *)
Theorem constructor_default_bounds
    (env : Env) (o this o' : Object) (l : GraticuleLayer) (fuel : nat) (w : World) :
  Util.get "bounds"%string o = None ->
  Options.constructor (Some o) = Normal (this, o') ->
  layer_of this = Some l ->
  Util.get "bounds"%string Options.class_fields
  = Some (VArray [VArray [VNumber 121; VNumber 37];
                  VArray [VNumber 158; VNumber 82]])
  /\ Util.get "bounds"%string this = Some VNull
  /\ bounds l = None
  /\ addTo env fuel true l w = mkRun (Throw TypeError) (set_map l true) w.
Proof.
  intros Hb Hc Hl.
  destruct (constructor_fields o) as (this1 & o1 & H1 & Hplain & _).
  rewrite Hc in H1. injection H1 as <- <-.
  assert (Hthis : Util.get "bounds"%string this = Some VNull).
  { rewrite Hplain by (simpl; tauto). rewrite Hb. reflexivity. }
  assert (Hnone : bounds l = None).
  { apply layer_of_fields in Hl. destruct Hl as (Hl & _).
    unfold prop in Hl. rewrite Hthis in Hl. simpl in Hl. congruence. }
  split; [reflexivity|]. split; [exact Hthis|]. split; [exact Hnone|].
  unfold addTo, addLayers.
  rewrite computeGrid_without_bounds; [reflexivity|].
  destruct l; exact Hnone.
Qed.

Lemma constructor_default_bounds_witness :
  bounds bare_layer = None
  /\ addTo (example_env 0 0 1) 5 true bare_layer initial_world
     = mkRun (Throw TypeError) (set_map bare_layer true) initial_world.
Proof.
  destruct (constructor_default_bounds (example_env 0 0 1) [] bare_instance
              (match Options.constructor (Some []) with
               | Normal (_, o') => o'
               | _ => []
               end)
              bare_layer 5 initial_world) as (_ & _ & H1 & H2).
  - reflexivity.
  - vm_compute. reflexivity.
  - vm_compute. reflexivity.
  - split; [exact H1 | exact H2].
Defined.

(** X22. The typed layer that the statements above start from is what the
    constructor returns: for options that hold bounds (as the array of the
    south-west and north-east corners), an interval and a unit, the instance
    reads as [new_layer] of these three, with every other field from
    defaultOptions, on no map and without layer ids. *)
Theorem constructor_new_layer (b : LngLatBounds) (i : Q) (unit : string) :
  exists this o',
    Options.constructor (Some (grid_options b i unit)) = Normal (this, o')
    /\ layer_of this = Some (new_layer b i unit)
    /\ Util.get "bounds"%string o' = Some (bounds_array b)
    /\ Util.get "labelStyle"%string o' = Some (VObject Options.defaultLabelStyle).
Proof.
  destruct b as [bw bs be bn].
  eexists. eexists. split; [reflexivity|].
  split; [vm_compute; reflexivity|].
  split; vm_compute; reflexivity.
Qed.

(** ** toJSON *)







(** ** The earlier createTickLinesSource *)

Lemma Forall2_flat_map_same (A B C : Type) (R : B -> C -> Prop)
    (f : A -> list B) (g : A -> list C) (l : list A) :
  (forall x, Forall2 R (f x) (g x)) ->
  Forall2 R (flat_map f l) (flat_map g l).
Proof.
  intro H. induction l as [|a l IH]; simpl.
  - constructor.
  - apply Forall2_app; [apply H | exact IH].
Qed.

Lemma tick_same (env : Env) (p : Position) (offset : Q * Q) (tick : Q) (xAxis : bool) :
  unproject_respects env ->
  vec_eq offset (if xAxis then (tick, 0) else (0, tick)) ->
  Feature_eq (createTickLine env p offset xAxis)
             (Previous.createTickLine env p tick xAxis).
Proof.
  intros Hun [H1 H2]. unfold createTickLine, Previous.createTickLine, Feature_eq.
  split; [reflexivity|]. cbn [geometry lineFeature Geometry_eq].
  constructor; [split; reflexivity|].
  constructor; [|constructor].
  rewrite <- !surjective_pairing.
  apply Hun. destruct xAxis; simpl in H1, H2; split; cbn [fst snd];
    rewrite ?H1, ?H2; ring.
Qed.

(** X24. With the map pointing north (the sine of the bearing 0 and its
    cosine 1), the tick source is the one the earlier version of the method,
    kept in util.ts, produces: the same features in the same order, with
    coordinates of equal value.  The earlier version moved a tick along one
    screen axis only; the present one agrees with it when the map is not
    rotated. *)
Theorem createTickLinesSource_unrotated
    (env : Env) (lngLines latLines : list GridLine) (map : bool) (tickLen : Q) :
  unproject_respects env ->
  Math_sin env (bearing_rad env) == 0 ->
  Math_cos env (bearing_rad env) == 1 ->
  Forall2 Feature_eq
    (features (createTickLinesSource env lngLines latLines map tickLen))
    (features (Previous.createTickLinesSource env lngLines latLines map tickLen)).
Proof.
  intros Hun Hsin Hcos.
  unfold createTickLinesSource, Previous.createTickLinesSource.
  destruct lngLines as [|l ls]; [constructor|].
  destruct latLines as [|l' ls']; [constructor|].
  destruct map; [|constructor].
  cbv zeta. cbn [features].
  set (t := Num.or_default tickLen 5).
  apply Forall2_app; apply Forall2_flat_map_same; intro item.
  - constructor; [|constructor; [|constructor]].
    + apply tick_same; [exact Hun|].
      unfold lngOffset, vec2_rotate, vec_eq. cbn [fst snd].
      rewrite Hsin, Hcos. split; ring.
    + apply tick_same; [exact Hun|].
      unfold lngOffset, vec2_rotate, vec_eq. cbn [fst snd].
      rewrite Hsin, Hcos. split; ring.
  - constructor; [|constructor; [|constructor]].
    + apply tick_same; [exact Hun|].
      unfold latOffset, vec2_rotate, vec_eq. cbn [fst snd].
      rewrite Hsin, Hcos. split; ring.
    + apply tick_same; [exact Hun|].
      unfold latOffset, vec2_rotate, vec_eq. cbn [fst snd].
      rewrite Hsin, Hcos. split; ring.
Qed.

Lemma createTickLinesSource_unrotated_witness :
  Forall2 Feature_eq
    (features (createTickLinesSource (example_env 0 0 1)
                 [((0, 0), (0, 10))] [((0, 0), (10, 0))] true 5))
    (features (Previous.createTickLinesSource (example_env 0 0 1)
                 [((0, 0), (0, 10))] [((0, 0), (10, 0))] true 5)).
Proof.
  apply createTickLinesSource_unrotated.
  - intros u v H. exact H.
  - reflexivity.
  - reflexivity.
Defined.

(** ** The application *)

Lemma addLayers_unit (env : Env) (fuel : nat) (this : GraticuleLayer) (w : World) :
  intervalUnit (self (addLayers env fuel this w)) = intervalUnit this.
Proof.
  unfold addLayers.
  destruct (computeGrid fuel this); try reflexivity.
  destruct (initLayersId this w) as [this' w'] eqn:E.
  assert (Hu : intervalUnit this' = intervalUnit this).
  { unfold initLayersId in E. destruct (_layerIDs this).
    - injection E as <- _. reflexivity.
    - repeat match type of E with
             | context [uniqueId ?x] => destruct (uniqueId x)
             end.
      injection E as <- _. reflexivity. }
  destruct (_layerIDs this'); [destruct (_map this')|]; exact Hu.
Qed.

Lemma new_glayer_unit :
  exists l, App.new_glayer = Some l /\ intervalUnit l = "m"%string.
Proof.
  eexists. split; [vm_compute; reflexivity | reflexivity].
Qed.

Lemma step_settled (fuel : nat) (s : App.State) (e : App.Event) :
  settled s -> settled (App.step fuel s e).
Proof.
  destruct s as [g f t p]. unfold settled.
  cbn [App.timers App.flag App.glayer]. intros (Ht & Hf & Hu).
  destruct e as [env|env|env]; cbn [App.step].
  - unfold App.on_load. destruct new_glayer_unit as (l & -> & Hl).
    cbn [App.timers App.flag App.glayer App.page].
    split; [exact Ht|]. split; [exact Hf|].
    intros l' E. injection E as <-. unfold addTo. rewrite addLayers_unit. exact Hl.
  - unfold App.on_move. cbn [App.timers App.flag App.glayer App.page].
    destruct g as [l|].
    + rewrite (Hu l eq_refl). cbn [String.eqb Ascii.eqb Bool.eqb].
      destruct f; cbn [App.timers App.flag App.glayer App.page].
      * rewrite (Hf eq_refl). split; [apply le_n|]. split; [discriminate | exact Hu].
      * split; [exact Ht|]. split; [exact Hf | exact Hu].
    + cbn [App.timers App.flag App.glayer App.page].
      split; [exact Ht|]. split; [exact Hf | exact Hu].
  - unfold App.on_timeout. cbn [App.timers App.flag App.glayer App.page].
    destruct t as [|n].
    + cbn [App.timers App.flag App.glayer App.page].
      split; [apply le_0_n|]. split; [exact Hf | exact Hu].
    + assert (Hn : n = 0%nat) by lia. subst n.
      destruct g as [l|]; cbn [App.timers App.flag App.glayer App.page].
      * split; [apply le_0_n|]. split; [reflexivity|].
        intros l' E. injection E as <-. unfold update. rewrite addLayers_unit.
        apply Hu. reflexivity.
      * split; [apply le_0_n|]. split; [reflexivity|]. discriminate.
Qed.

Lemma run_settled (fuel : nat) (events : list App.Event) (s : App.State) :
  settled s -> settled (App.run fuel events s).
Proof.
  unfold App.run. revert s. induction events as [|e es IH]; intros s H.
  - exact H.
  - cbn [fold_left]. apply IH. apply step_settled. exact H.
Qed.

Lemma moves_ignored (fuel : nat) (moves : list App.Event)
    (l : GraticuleLayer) (t : nat) (p : World) :
  Forall (fun e => exists env, e = App.OnMove env) moves ->
  intervalUnit l = "m"%string ->
  App.run fuel moves (App.mkState (Some l) false t p)
  = App.mkState (Some l) false t p.
Proof.
  unfold App.run. intros Hm Hu. induction Hm as [|e es (env & ->) _ IH].
  - reflexivity.
  - cbn [fold_left App.step]. unfold App.on_move.
    cbn [App.timers App.flag App.glayer App.page].
    rewrite Hu. cbn [String.eqb Ascii.eqb Bool.eqb]. exact IH.
Qed.

(** X25. The page updates the layer once per burst of moves.  Whatever
    events have come since the start, at most one timer is set, none is set
    while flag is true, and the layer, once made, has the unit 'm', so a
    move never updates the layer itself: it leaves the layer and the map as
    they are.  From a page whose layer is there and whose flag is true, any
    number of moves followed by the timer running is one call of update, on
    the host as it is when the timer runs, and the flag is true again when
    that call has come back. *)
Theorem page_updates_once_per_burst
    (fuel : nat) (w : World) (events : list App.Event) :
  let s := App.run fuel events (App.start w) in
  settled s
  /\ (forall env, App.glayer (App.step fuel s (App.OnMove env)) = App.glayer s
                  /\ App.page (App.step fuel s (App.OnMove env)) = App.page s)
  /\ (forall l env env' (moves : list App.Event),
        App.glayer s = Some l ->
        App.flag s = true ->
        Forall (fun e => exists env, e = App.OnMove env) moves ->
        App.run fuel (App.OnMove env' :: moves ++ [App.OnTimeout env]) s
        = App.mkState (Some (self (update env fuel l (App.page s))))
                      (App.returned (outcome (update env fuel l (App.page s))))
                      0
                      (world (update env fuel l (App.page s)))).
Proof.
  cbv zeta.
  assert (Hs : settled (App.run fuel events (App.start w))).
  { apply run_settled. split; [apply le_0_n|]. split; [reflexivity | discriminate]. }
  set (s := App.run fuel events (App.start w)) in *. clearbody s.
  split; [exact Hs|].
  destruct s as [g f t p]. unfold settled in Hs.
  cbn [App.timers App.flag App.glayer App.page] in *.
  destruct Hs as (Ht & Hf & Hu).
  split.
  - intro env. cbn [App.step]. unfold App.on_move.
    cbn [App.timers App.flag App.glayer App.page].
    destruct g as [l|]; [|split; reflexivity].
    rewrite (Hu l eq_refl). cbn [String.eqb Ascii.eqb Bool.eqb].
    destruct f; split; reflexivity.
  - intros l env env' moves El Efl Hm. subst g f.
    unfold App.run. cbn [fold_left App.step]. unfold App.on_move at 1.
    cbn [App.timers App.flag App.glayer App.page].
    rewrite (Hu l eq_refl). cbn [String.eqb Ascii.eqb Bool.eqb].
    rewrite fold_left_app.
    pose proof (moves_ignored fuel moves l (S t) p Hm (Hu l eq_refl)) as Hi.
    unfold App.run in Hi. rewrite Hi.
    cbn [fold_left App.step]. unfold App.on_timeout.
    cbn [App.timers App.glayer App.page App.flag].
    rewrite (Hf eq_refl). destruct (outcome (update env fuel l p)); reflexivity.
Qed.

(** * Binary64: what depends on rounding *)

Section DoubleFacts.

Import Floats.

#[local] Set Warnings "-inexact-float".

(** ** The loop of computeGrid *)







Lemma double_for_loop_empty (A : Type) (body : float -> A) (upto step : float)
    (fuel : nat) (n : float) :
  Double.for_loop fuel n upto step body = Some []
  <-> (n <=? upto)%float = false.
Proof.
  split.
  - intro H. destruct fuel; cbn [Double.for_loop] in H;
      destruct (n <=? upto)%float; try reflexivity; try discriminate.
    destruct (Double.for_loop fuel (n + step)%float upto step body); discriminate.
  - intro H. destruct fuel; cbn [Double.for_loop]; rewrite H; reflexivity.
Qed.

(** ** The bounds *)

Lemma new_LngLat_accepted (c : Double.Corner) :
  (Double.accepted c = true
   -> Double.new_LngLat c = Normal (Double.mkLngLat (fst c) (snd c)))
  /\ (Double.accepted c = false -> Double.new_LngLat c = Throw InvalidLngLat).
Proof.
  unfold Double.accepted, Double.new_LngLat.
  destruct (is_nan (fst c) || is_nan (snd c)); cbn [negb andb].
  - split; [discriminate | reflexivity].
  - destruct ((90 <? snd c)%float || (snd c <? -90)%float); cbn [negb];
      split; try discriminate; reflexivity.
Qed.

Lemma convert_accepted (sw ne : Double.Corner) :
  Double.accepted sw = true -> Double.accepted ne = true ->
  Double.convert (Some (sw, ne))
  = Normal (Some (Double.mkBounds (Double.mkLngLat (fst sw) (snd sw))
                                  (Double.mkLngLat (fst ne) (snd ne)))).
Proof.
  intros H1 H2. unfold Double.convert.
  rewrite (proj1 (new_LngLat_accepted sw) H1), (proj1 (new_LngLat_accepted ne) H2).
  reflexivity.
Qed.

Lemma convert_refused (sw ne : Double.Corner) :
  Double.accepted sw = false \/ Double.accepted ne = false ->
  Double.convert (Some (sw, ne)) = Throw InvalidLngLat.
Proof.
  intro H. unfold Double.convert.
  destruct (Double.accepted sw) eqn:E1.
  - rewrite (proj1 (new_LngLat_accepted sw) E1).
    destruct H as [H|H]; [discriminate|].
    rewrite (proj2 (new_LngLat_accepted ne) H). reflexivity.
  - rewrite (proj2 (new_LngLat_accepted sw) E1). reflexivity.
Qed.

(** The two branches in one: the loops run on the scaled bounds and emit
    the coordinate of each value. *)
Lemma double_computeGrid_loops (fuel : nat) (sw ne : Double.Corner) (unit : string)
    (interval : float) :
  Double.accepted sw = true -> Double.accepted ne = true ->
  unit = "d"%string \/ unit = "m"%string ->
  Double.computeGrid fuel (Some (sw, ne)) unit interval
  = match Double.for_loop fuel
            (Double.snap_min (Double.scale unit (fst sw)) interval)
            (Double.snap_max (Double.scale unit (fst ne)) interval) interval
            (fun n => Double.lngLine (snd sw) (snd ne) (Double.coordinate unit n)) with
    | None => OutOfFuel
    | Some lngs =>
        match Double.for_loop fuel
                (Double.snap_min (Double.scale unit (snd sw)) interval)
                (Double.snap_max (Double.scale unit (snd ne)) interval) interval
                (fun n => Double.latLine (fst sw) (fst ne) (Double.coordinate unit n)) with
        | None => OutOfFuel
        | Some lats => Normal (Double.mkGrid lngs lats)
        end
    end.
Proof.
  intros H1 H2 Hu. unfold Double.computeGrid. rewrite (convert_accepted sw ne H1 H2).
  destruct Hu as [-> | ->]; reflexivity.
Qed.

Lemma double_computeGrid_no_throw (fuel : nat) (sw ne : Double.Corner)
    (unit : string) (interval : float) (e : Thrown) :
  Double.accepted sw = true -> Double.accepted ne = true ->
  unit = "d"%string \/ unit = "m"%string ->
  Double.computeGrid fuel (Some (sw, ne)) unit interval <> Throw e.
Proof.
  intros H1 H2 Hu. rewrite (double_computeGrid_loops fuel sw ne unit interval H1 H2 Hu).
  destruct (Double.for_loop _ _ _ _ _); [|discriminate].
  destruct (Double.for_loop _ _ _ _ _); discriminate.
Qed.





(** C4, as stated, fails.  A span smaller than the interval can hold a
    multiple of it: the bounds [[5,0],[10,1]] with the interval 10 get a
    meridian at 10 and a parallel at 0. *)
Lemma computeGrid_short_span_counterexample :
  (10 - 5 <? 10)%float = true
  /\ (1 - 0 <? 10)%float = true
  /\ Double.computeGrid 5 (Some ((5, 0), (10, 1)))%float "d" 10%float
     = Normal (Double.mkGrid [((10, 0), (10, 1))] [((5, 0), (10, 0))])%float.
Proof.
  split; [vm_compute; reflexivity|]. split; vm_compute; reflexivity.
Qed.

(** C4, amended.  In either unit and for bounds the host accepts, the line
    list computeGrid returns for an axis is empty exactly when the first
    value of its loop, the lower bound snapped upwards
    [ceil(lo / interval) * interval], is not at most the upper bound snapped
    downwards [floor(hi / interval) * interval], both computed on doubles
    (in arc-minutes both bounds are multiplied by 60 first); when this is so
    on both axes computeGrid returns the empty grid whatever the fuel.  The
    span of the axis does not decide it. *)
Theorem computeGrid_short_span (fuel : nat) (sw ne : Double.Corner)
    (unit : string) (interval : float) :
  Double.accepted sw = true -> Double.accepted ne = true ->
  unit = "d"%string \/ unit = "m"%string ->
  let minX := Double.snap_min (Double.scale unit (fst sw)) interval in
  let maxX := Double.snap_max (Double.scale unit (fst ne)) interval in
  let minY := Double.snap_min (Double.scale unit (snd sw)) interval in
  let maxY := Double.snap_max (Double.scale unit (snd ne)) interval in
  (forall g,
      Double.computeGrid fuel (Some (sw, ne)) unit interval = Normal g ->
      (Double.lngLines g = [] <-> (minX <=? maxX)%float = false)
      /\ (Double.latLines g = [] <-> (minY <=? maxY)%float = false))
  /\ ((minX <=? maxX)%float = false -> (minY <=? maxY)%float = false ->
      Double.computeGrid fuel (Some (sw, ne)) unit interval
      = Normal (Double.mkGrid [] [])).
Proof.
  intros H1 H2 Hu. cbv zeta.
  rewrite (double_computeGrid_loops fuel sw ne unit interval H1 H2 Hu).
  split.
  - intros g Hg.
    destruct (Double.for_loop fuel _ _ _ (fun n => Double.lngLine _ _ _)) as [lngs|] eqn:Ex;
      [|discriminate].
    destruct (Double.for_loop fuel _ _ _ (fun n => Double.latLine _ _ _)) as [lats|] eqn:Ey;
      [|discriminate].
    injection Hg as <-. cbn [Double.lngLines Double.latLines].
    split.
    + rewrite <- (double_for_loop_empty _ (fun n => Double.lngLine (snd sw) (snd ne)
                                              (Double.coordinate unit n)) _ interval fuel).
      rewrite Ex. split; congruence.
    + rewrite <- (double_for_loop_empty _ (fun n => Double.latLine (fst sw) (fst ne)
                                              (Double.coordinate unit n)) _ interval fuel).
      rewrite Ey. split; congruence.
  - intros Hx Hy.
    rewrite (proj2 (double_for_loop_empty _ _ _ _ fuel _) Hx).
    rewrite (proj2 (double_for_loop_empty _ _ _ _ fuel _) Hy). reflexivity.
Qed.

(** The scenario of the specification: the bounds of the page with an
    interval of 10 degrees get no line. *)
Lemma computeGrid_short_span_witness :
  Double.computeGrid 0 (Some ((120.5, 31), (121, 31.4)))%float "d" 10%float
  = Normal (Double.mkGrid [] []).
Proof.
  apply (computeGrid_short_span 0 (120.5, 31)%float (121, 31.4)%float "d" 10%float).
  - reflexivity.
  - reflexivity.
  - left. reflexivity.
  - vm_compute. reflexivity.
  - vm_compute. reflexivity.
Defined.

(** Arc-minutes against degrees, on the bounds of the page.  An interval of
    10 arc-minutes gives 4 meridians and 3 parallels; the interval 10/60
    degrees gives 3 and 2, because its loop, adding 10/60 three times to
    120.5, arrives at 121.00000000000001 and so above the eastern edge; and
    the third meridian is at 120.83333333333333 in one grid and at
    120.83333333333334 in the other. *)
Example double_computeGrid_minute_scenario :
  exists gm gd,
    Double.computeGrid 4 (Some ((120.5, 31), (121, 31.4)))%float "m" 10%float
    = Normal gm
    /\ Double.computeGrid 4 (Some ((120.5, 31), (121, 31.4)))%float "d" (10 / 60)%float
       = Normal gd
    /\ List.map (fun l => fst (fst l)) (Double.lngLines gm)
       = [120.5; 120.66666666666667; 120.83333333333333; 121]%float
    /\ List.map (fun l => fst (fst l)) (Double.lngLines gd)
       = [120.5; 120.66666666666667; 120.83333333333334]%float
    /\ List.length (Double.latLines gm) = 3%nat
    /\ List.length (Double.latLines gd) = 2%nat.
Proof.
  do 2 eexists. split; [vm_compute; reflexivity|]. split; [vm_compute; reflexivity|].
  vm_compute. repeat split.
Qed.

(** X1.  computeGrid throws in three cases and no other, whatever the
    interval and the fuel: a TypeError when the bounds are null; the host's
    refusal when a corner of the bounds holds a NaN or a latitude outside
    [-90, 90]; and the unsupported-unit error when the bounds are accepted
    and the unit is neither 'd' nor 'm'.  The bounds are looked at first. *)
Theorem computeGrid_throws (fuel : nat) (bounds : option (Double.Corner * Double.Corner))
    (unit : string) (interval : float) :
  (Double.computeGrid fuel bounds unit interval = Throw TypeError <-> bounds = None)
  /\ (Double.computeGrid fuel bounds unit interval = Throw InvalidLngLat
      <-> exists sw ne, bounds = Some (sw, ne)
                        /\ (Double.accepted sw = false \/ Double.accepted ne = false))
  /\ (Double.computeGrid fuel bounds unit interval = Throw UnsupportedUnit
      <-> exists sw ne, bounds = Some (sw, ne)
                        /\ Double.accepted sw = true /\ Double.accepted ne = true
                        /\ unit <> "d"%string /\ unit <> "m"%string)
  /\ Double.computeGrid fuel bounds unit interval <> Throw MapEmpty
  /\ Double.computeGrid fuel bounds unit interval <> Throw IndexSizeError.
Proof.
  destruct bounds as [[sw ne]|].
  2:{ split; [split; reflexivity|].
      split; [split; [discriminate | intros (sw & ne & H & _); discriminate]|].
      split; [split; [discriminate | intros (sw & ne & H & _); discriminate]|].
      split; discriminate. }
  destruct (Double.accepted sw) eqn:E1; [destruct (Double.accepted ne) eqn:E2|].
  - destruct (String.eqb unit "d") eqn:Ed; [|destruct (String.eqb unit "m") eqn:Em].
    + apply String.eqb_eq in Ed.
      pose proof (fun e => double_computeGrid_no_throw fuel sw ne unit interval e E1 E2
                             (or_introl Ed)) as Hn.
      split; [split; [intro H; destruct (Hn _ H) | discriminate]|].
      split; [split; [intro H; destruct (Hn _ H)|]|].
      { intros (sw' & ne' & H & [Hs|Hs]); injection H as <- <-; congruence. }
      split; [split; [intro H; destruct (Hn _ H)|]|].
      { intros (sw' & ne' & H & _ & _ & Hd & _). contradiction. }
      split; apply Hn.
    + apply String.eqb_eq in Em.
      pose proof (fun e => double_computeGrid_no_throw fuel sw ne unit interval e E1 E2
                             (or_intror Em)) as Hn.
      split; [split; [intro H; destruct (Hn _ H) | discriminate]|].
      split; [split; [intro H; destruct (Hn _ H)|]|].
      { intros (sw' & ne' & H & [Hs|Hs]); injection H as <- <-; congruence. }
      split; [split; [intro H; destruct (Hn _ H)|]|].
      { intros (sw' & ne' & H & _ & _ & _ & Hm). contradiction. }
      split; apply Hn.
    + assert (Hc : Double.computeGrid fuel (Some (sw, ne)) unit interval
                   = Throw UnsupportedUnit).
      { unfold Double.computeGrid. rewrite (convert_accepted sw ne E1 E2), Ed, Em.
        reflexivity. }
      rewrite Hc. apply String.eqb_neq in Ed, Em.
      split; [split; discriminate|].
      split; [split; [discriminate|]|].
      { intros (sw' & ne' & H & [Hs|Hs]); injection H as <- <-; congruence. }
      split; [split; [intros _|reflexivity]|split; discriminate].
      exists sw, ne. repeat split; assumption.
  - assert (Hc : Double.computeGrid fuel (Some (sw, ne)) unit interval
                 = Throw InvalidLngLat).
    { unfold Double.computeGrid. rewrite (convert_refused sw ne (or_intror E2)).
      reflexivity. }
    rewrite Hc.
    split; [split; discriminate|].
    split; [split; [intros _|reflexivity]|].
    { exists sw, ne. split; [reflexivity | right; exact E2]. }
    split; [split; [discriminate|]|split; discriminate].
    intros (sw' & ne' & H & _ & Hs & _). injection H as <- <-. congruence.
  - assert (Hc : Double.computeGrid fuel (Some (sw, ne)) unit interval
                 = Throw InvalidLngLat).
    { unfold Double.computeGrid. rewrite (convert_refused sw ne (or_introl E1)).
      reflexivity. }
    rewrite Hc.
    split; [split; discriminate|].
    split; [split; [intros _|reflexivity]|].
    { exists sw, ne. split; [reflexivity | left; exact E1]. }
    split; [split; [discriminate|]|split; discriminate].
    intros (sw' & ne' & H & Hs & _). injection H as <- <-. congruence.
Qed.

(** ** The label text *)

Lemma Prim2SF_zero : Prim2SF 0%float = S754_zero false.
Proof. vm_compute. reflexivity. Qed.

Lemma SFltb_zero_opp (f : spec_float) :
  SFltb (S754_zero false) (SFopp f) = SFltb f (S754_zero false)
  /\ SFltb (SFopp f) (S754_zero false) = SFltb (S754_zero false) f.
Proof.
  destruct f as [s|s| |s m e]; try destruct s; split; reflexivity.
Qed.

Lemma SFltb_zero_asym (f : spec_float) :
  SFltb f (S754_zero false) = true -> SFltb (S754_zero false) f = false.
Proof.
  destruct f as [s|s| |s m e]; try destruct s; cbn; congruence.
Qed.


Lemma ltb_opp_zero (x : float) :
  (0 <? - x)%float = (x <? 0)%float /\ (- x <? 0)%float = (0 <? x)%float.
Proof.
  rewrite !ltb_spec, opp_spec, Prim2SF_zero. apply SFltb_zero_opp.
Qed.

Lemma ltb_zero_asym (x : float) :
  (x <? 0)%float = true -> (0 <? x)%float = false.
Proof.
  rewrite !ltb_spec, Prim2SF_zero. apply SFltb_zero_asym.
Qed.


Lemma abs_opp (x : float) : abs (- x) = abs x.
Proof.
  rewrite <- (SF2Prim_Prim2SF (abs (- x))), <- (SF2Prim_Prim2SF (abs x)).
  rewrite !abs_spec, opp_spec. destruct (Prim2SF x); reflexivity.
Qed.


Lemma string_append_assoc (a b c : string) :
  ((a ++ b) ++ c = a ++ (b ++ c))%string.
Proof.
  induction a as [|x a IH]; cbn [String.append].
  - reflexivity.
  - rewrite IH. reflexivity.
Qed.

Lemma double_formatDegree_digits (toString : float -> string) (num : float)
    (isLng : bool) (labelFormat : string) :
  Double.createlabelFormatter toString num isLng labelFormat
  = (Double.label_digits toString labelFormat num
     ++ Double.formatTag num isLng)%string.
Proof.
  unfold Double.createlabelFormatter, Double.formatDegree, Double.label_digits,
    Double.dms_seconds, Double.dms_minutes, Double.dms_degrees.
  destruct (String.eqb labelFormat "degree");
    [|destruct (String.eqb labelFormat "minute")];
    rewrite ?string_append_assoc; reflexivity.
Qed.



(** The other scenario of the specification, and two values whose seconds
    round up to 60 without being carried into the minutes. *)
Example double_createlabelFormatter_scenarios :
  Double.createlabelFormatter Double.decimal (-120.73)%float true "degree"
  = ("120" ++ degree_sign ++ "W")%string
  /\ Double.createlabelFormatter Double.decimal 31.4%float false "second"
     = ("31" ++ degree_sign ++ "23" ++ apostrophe ++ "60" ++ double_quote ++ "N")%string
  /\ Double.createlabelFormatter Double.decimal 0.3%float true "second"
     = ("0" ++ degree_sign ++ "18" ++ apostrophe ++ "0" ++ double_quote ++ "E")%string.
Proof. split; [|split]; vm_compute; reflexivity. Qed.

(** X17.  The sign of a coordinate shows in the hemisphere tag and nowhere
    else: for any precision tag, the label of the negated value is the label
    of the value with E and W, or N and S, exchanged; the digits before the
    tag are the same, since they are taken from the absolute value. *)
Theorem createlabelFormatter_negated (toString : float -> string) (num : float)
    (isLng : bool) (labelFormat : string) :
  exists digits : string,
    Double.createlabelFormatter toString num isLng labelFormat
    = (digits ++ Double.formatTag num isLng)%string
    /\ Double.createlabelFormatter toString (- num)%float isLng labelFormat
       = (digits ++ opposite_tag (Double.formatTag num isLng))%string.
Proof.
  exists (Double.label_digits toString labelFormat num).
  split; [apply double_formatDegree_digits|].
  rewrite double_formatDegree_digits. f_equal.
  - unfold Double.label_digits, Double.dms_seconds, Double.dms_minutes,
      Double.dms_degrees. rewrite abs_opp. reflexivity.
  - unfold Double.formatTag.
    destruct (ltb_opp_zero num) as [-> ->].
    destruct isLng, (0 <? num)%float eqn:E1, (num <? 0)%float eqn:E2;
      try reflexivity; rewrite (ltb_zero_asym num E2) in E1; discriminate.
Qed.

(** ** drawLabel *)

(** C8, as stated, fails.  For the three code units of "abc" at font size 16
    the canvas is 48 pixels wide, in CSS and in device pixels at ratio 1,
    not max(256, 3 * 16) = 256. *)
Lemma drawLabel_side_counterexample :
  exists image,
    Double.drawLabel 1%float (fun _ _ => 24%float) "abc" None (Some 16%float) None None
    = Normal image
    /\ Double.style_width_px (Double.image_of image) = 48%float
    /\ Double.canvas_width (Double.image_of image) = 48%Z
    /\ (48 <? 256)%float = true.
Proof.
  eexists. split; [vm_compute; reflexivity|].
  split; [vm_compute; reflexivity|]. split; vm_compute; reflexivity.
Qed.

Lemma drawLabel_unfolded (devicePixelRatio : float)
    (measureText : Double.Font -> string -> float) (text : string)
    (fontFamily : option string) (fontSize : float)
    (color fontWeight : option string) :
  Double.drawLabel devicePixelRatio measureText text fontFamily (Some fontSize)
                   color fontWeight
  = Double.getImageData
      (Double.label_canvas devicePixelRatio text fontFamily fontSize color fontWeight)
      0 0
      (Double.Math_round
         (measureText (Double.label_font fontFamily fontSize fontWeight) text))
      fontSize.
Proof.
  unfold Double.drawLabel, Double.label_canvas, Double.label_font, Double.canvas_side,
    Double.or_else.
  destruct text as [|c text]; destruct fontFamily, color, fontWeight; reflexivity.
Qed.

Lemma enforce_long_zero : Double.enforce_long 0%float = Some 0%Z.
Proof. vm_compute. reflexivity. Qed.

(** C8, amended.  drawLabel gives its canvas the side of 256 CSS pixels for
    the empty text and of text.length * fontSize otherwise, whether that is
    more or less than 256, and the bitmap the side times the device pixel
    ratio (1 when that is 0 or absent) as the canvas stores a size: without
    its fraction, and equal in width and height as long as it is at most
    2^31 - 1.  It then reads the rectangle at the origin whose width is the
    measured width of the text rounded to an integer and whose height is the
    font size, each without its fraction: when both are longs other than 0
    this rectangle is returned; when one is 0, as for a text without width
    or a font size below 1, the canvas refuses with an IndexSizeError; when
    one is not a long (NaN, infinite, out of range) with a TypeError. *)
Theorem drawLabel_canvas (devicePixelRatio : float)
    (measureText : Double.Font -> string -> float) (text : string)
    (fontFamily : option string) (fontSize : float)
    (color fontWeight : option string) :
  let font := Double.label_font fontFamily fontSize fontWeight in
  let canvas :=
    Double.label_canvas devicePixelRatio text fontFamily fontSize color fontWeight in
  let scaled :=
    (Double.canvas_side text fontSize * Double.or_default devicePixelRatio 1)%float in
  let width := Double.Math_round (measureText font text) in
  let result :=
    Double.drawLabel devicePixelRatio measureText text fontFamily (Some fontSize)
                     color fontWeight in
  Double.style_width_px canvas = Double.canvas_side text fontSize
  /\ Double.style_height_px canvas = Double.canvas_side text fontSize
  /\ Double.canvas_side "" fontSize = 256%float
  /\ (text <> ""%string ->
      Double.canvas_side text fontSize
      = (Double.of_Z (Z.of_nat (String.length text)) * fontSize)%float)
  /\ ((Double.to_unsigned_long scaled <= 2147483647)%Z ->
      Double.canvas_width canvas = Double.to_unsigned_long scaled
      /\ Double.canvas_height canvas = Double.to_unsigned_long scaled)
  /\ (forall sw sh,
        Double.enforce_long width = Some sw -> Double.enforce_long fontSize = Some sh ->
        sw <> 0%Z -> sh <> 0%Z ->
        result = Normal (Double.mkImageData canvas 0 0 sw sh))
  /\ (forall sw sh,
        Double.enforce_long width = Some sw -> Double.enforce_long fontSize = Some sh ->
        sw = 0%Z \/ sh = 0%Z ->
        result = Throw IndexSizeError)
  /\ (Double.enforce_long width = None \/ Double.enforce_long fontSize = None ->
      result = Throw TypeError).
Proof.
  cbv zeta. rewrite drawLabel_unfolded.
  split; [reflexivity|]. split; [reflexivity|]. split; [reflexivity|].
  split; [intro H; destruct text; [contradiction | reflexivity]|].
  split.
  { intro H. unfold Double.label_canvas, Double.canvas_dimension.
    cbn [Double.canvas_width Double.canvas_height].
    apply Z.leb_le in H. rewrite H. split; reflexivity. }
  unfold Double.getImageData. rewrite enforce_long_zero.
  split; [|split].
  - intros sw sh Hw Hh Hsw Hsh. rewrite Hw, Hh.
    apply Z.eqb_neq in Hsw, Hsh. rewrite Hsw, Hsh. reflexivity.
  - intros sw sh Hw Hh Hz. rewrite Hw, Hh.
    destruct Hz as [-> | ->]; [reflexivity|].
    rewrite orb_true_r. reflexivity.
  - intros [H|H]; rewrite H; [reflexivity|].
    destruct (Double.enforce_long (Double.Math_round _)); reflexivity.
Qed.

Lemma drawLabel_canvas_witness :
  Double.drawLabel 2%float (fun _ text => Double.of_Z (Z.of_nat (String.length text) * 8))
                   "120 E" None (Some 16%float) None None
  = Normal (Double.mkImageData
              (Double.label_canvas 2%float "120 E" None 16%float None None)
              0 0 40 16)
  /\ Double.canvas_width (Double.label_canvas 2%float "120 E" None 16%float None None)
     = 160%Z
  /\ Double.drawLabel 1%float (fun _ _ => 0%float) "" None (Some 16%float) None None
     = Throw IndexSizeError.
Proof.
  pose proof (drawLabel_canvas 2%float
                (fun _ text => Double.of_Z (Z.of_nat (String.length text) * 8))
                "120 E" None 16%float None None) as H.
  cbv zeta in H. destruct H as (_ & _ & _ & _ & Hd & Hr & _).
  split; [apply Hr; vm_compute; (reflexivity || discriminate)|].
  split; [apply Hd; vm_compute; discriminate|].
  vm_compute. reflexivity.
Defined.

End DoubleFacts.
